(** * The biometric verification service of connect-hub, embedded in Rocq

    The Go service under [services/verification] (the face verification
    service, its HTTP handler and its configuration) is translated function
    by function.

    - [float64] values are IEEE 754 binary64 numbers, modelled with the
      executable specification of the Standard Library ([SpecFloat],
      precision 53, maximal exponent 1024), rounding to nearest even as the
      hardware does, each operation rounded on its own (no fused
      multiply-add, as the compiler does on amd64); a [float32] is a number
      valid in binary32.  Every definition below can be evaluated on
      concrete inputs.
    - A picture is its bounds and its pixel function, as the interface
      [image.Image]; an [*image.RGBA] is its byte slice.
    - The store is a finite map from identities to enrollment lists.
    - The goroutines of [VerifyVideo] exchange one value each, so the
      function is written in program order; which deadline fires, what the
      clock shows and what the random source delivers are read from a
      [Runtime] record.  Log output is not modelled.
    - The image decoder, the face recogniser, JSON and the cipher are
      libraries and enter as interfaces. *)

From Stdlib Require Import ZArith List Bool Lia Strings.Byte Floats.SpecFloat.
From stdpp Require Import gmap strings pretty.
Import ListNotations.

Local Open Scope Z_scope.

(** ** Go's [float64] *)

Module F64.

Definition prec : Z := 53.
Definition emax : Z := 1024.

Definition add : spec_float -> spec_float -> spec_float := SFadd prec emax.
Definition sub : spec_float -> spec_float -> spec_float := SFsub prec emax.
Definition mul : spec_float -> spec_float -> spec_float := SFmul prec emax.
Definition div : spec_float -> spec_float -> spec_float := SFdiv prec emax.
Definition sqrt : spec_float -> spec_float := SFsqrt prec emax.

(** Comparison operators of the language: every comparison with a NaN is
    false. *)
Definition eqb (x y : spec_float) : bool := SFeqb x y.
Definition ltb (x y : spec_float) : bool := SFltb x y.
Definition leb (x y : spec_float) : bool := SFleb x y.
Definition gtb (x y : spec_float) : bool := SFltb y x.
Definition geb (x y : spec_float) : bool := SFleb y x.

Definition is_nan (x : spec_float) : bool :=
  match x with S754_nan => true | _ => false end.

Definition is_zero (x : spec_float) : bool :=
  match x with S754_zero _ => true | _ => false end.

Definition signbit (x : spec_float) : bool :=
  match x with
  | S754_zero s | S754_infinity s | S754_finite s _ _ => s
  | S754_nan => false
  end.

(** [float64(n)] for an integer [n]. *)
Definition of_Z (n : Z) : spec_float := binary_normalize prec emax n 0 false.

(** [float64(x)] for a [float32] value [x]: the conversion is exact, the
    mantissa is only re-aligned to 53 bits. *)
Definition of_float32 (x : spec_float) : spec_float :=
  match x with
  | S754_finite s m e => binary_round prec emax s m e
  | _ => x
  end.

(** The values a [float32] variable can hold. *)
Definition is_float32 (x : spec_float) : bool := valid_binary 24 128 x.

(** The literals of the source, each the binary64 number nearest to the
    decimal constant. *)
Definition zero : spec_float := S754_zero false.
Definition one : spec_float := Eval vm_compute in of_Z 1.
Definition c0_2 : spec_float := Eval vm_compute in div (of_Z 2) (of_Z 10).
Definition c0_4 : spec_float := Eval vm_compute in div (of_Z 4) (of_Z 10).
Definition c10 : spec_float := Eval vm_compute in of_Z 10.
Definition c100 : spec_float := Eval vm_compute in of_Z 100.
Definition c65535 : spec_float := Eval vm_compute in of_Z 65535.
Definition c1e10 : spec_float := Eval vm_compute in of_Z 10000000000.

(** [math.Abs] clears the sign bit. *)
Definition abs : spec_float -> spec_float := SFabs.

(** [math.Min], with its special cases: [Min(x, -Inf) = -Inf],
    [Min(x, NaN) = NaN], [Min(-0, +-0) = -0]. *)
Definition min (x y : spec_float) : spec_float :=
  match x, y with
  | S754_infinity true, _ | _, S754_infinity true => S754_infinity true
  | S754_nan, _ | _, S754_nan => S754_nan
  | S754_zero sx, S754_zero _ => if sx then x else y
  | _, _ => if ltb x y then x else y
  end.

(** [math.Pow(x, 2)]: the library squares the mantissa of [x] once and
    rescales by a power of two, which is the correctly rounded product
    [x * x] whenever the square is not subnormal. *)
Definition pow2 (x : spec_float) : spec_float := mul x x.

End F64.

Declare Scope f64_scope.
Delimit Scope f64_scope with f64.
Infix "+" := F64.add : f64_scope.
Infix "-" := F64.sub : f64_scope.
Infix "*" := F64.mul : f64_scope.
Infix "/" := F64.div : f64_scope.

(** ** Results and errors

    A Go function returning [(T, error)] returns [Ok t] for [(t, nil)] and
    [Err e] otherwise; an [error] is represented by its message. *)

Definition error := string.

Inductive result (A : Type) : Type :=
| Ok (a : A)
| Err (e : error).
Arguments Ok {A} a.
Arguments Err {A} e.

Definition uint8 (z : Z) : Z := z mod 256.
Definition uint32 (z : Z) : Z := z mod 4294967296.

(** The values of a loop [for v := lo; v < hi; v += step]. *)
Definition count_up (lo hi step : Z) : list Z :=
  map (fun k => lo + step * Z.of_nat k)
      (seq 0 (Z.to_nat ((hi - lo + step - 1) / step))).

(** ** Package [image] of the Go standard library, as far as the service
    uses it *)

Module image.

Record Point := { X : Z; Y : Z }.
Record Rectangle := { Min : Point; Max : Point }.

Definition Rect (x0 y0 x1 y1 : Z) : Rectangle :=
  let '(x0, x1) := if x1 <? x0 then (x1, x0) else (x0, x1) in
  let '(y0, y1) := if y1 <? y0 then (y1, y0) else (y0, y1) in
  {| Min := {| X := x0; Y := y0 |}; Max := {| X := x1; Y := y1 |} |}.

Definition Dx (r : Rectangle) : Z := X (Max r) - X (Min r).
Definition Dy (r : Rectangle) : Z := Y (Max r) - Y (Min r).

Definition Empty (r : Rectangle) : bool :=
  (X (Max r) <=? X (Min r)) || (Y (Max r) <=? Y (Min r)).

Definition same (r s : Rectangle) : bool :=
  (X (Min r) =? X (Min s)) && (Y (Min r) =? Y (Min s)) &&
  (X (Max r) =? X (Max s)) && (Y (Max r) =? Y (Max s)).

(** [r.Eq(s)]: the same rectangle, or both empty. *)
Definition Eq (r s : Rectangle) : bool := same r s || (Empty r && Empty s).

(** [Point{x, y}.In(r)] *)
Definition In (x y : Z) (r : Rectangle) : bool :=
  (X (Min r) <=? x) && (x <? X (Max r)) && (Y (Min r) <=? y) && (y <? Y (Max r)).

(** What [c.RGBA()] returns for a colour [c]: four alpha-premultiplied
    16-bit channels in [uint32]. *)
Definition Color : Type := Z * Z * Z * Z.

(** The interface [image.Image]: [Bounds()] and [At(x, y)], the latter
    already composed with [RGBA()], the only way the service reads it. *)
Record Image := { Bounds : Rectangle; At : Z -> Z -> Color }.

(** The concrete type [*image.RGBA]: four bytes per pixel in [Pix]. *)
Record RGBA := { Pix : list Z; Stride : Z; RGBA_Rect : Rectangle }.

Definition NewRGBA (r : Rectangle) : RGBA :=
  {| Pix := replicate (Z.to_nat (4 * Dx r * Dy r)) 0;
     Stride := 4 * Dx r;
     RGBA_Rect := r |}.

Definition PixOffset (p : RGBA) (x y : Z) : Z :=
  (y - Y (Min (RGBA_Rect p))) * Stride p + (x - X (Min (RGBA_Rect p))) * 4.

Definition pix_at (p : RGBA) (i : Z) : Z := nth (Z.to_nat i) (Pix p) 0.

(** [p.SetRGBA(x, y, color.RGBA{r, g, b, a})]; a point outside the
    rectangle is ignored. *)
Definition SetRGBA (p : RGBA) (x y : Z) (c : Z * Z * Z * Z) : RGBA :=
  if In x y (RGBA_Rect p) then
    let '(r, g, b, a) := c in
    let i := Z.to_nat (PixOffset p x y) in
    {| Pix := <[S (S (S i)) := a]> (<[S (S i) := b]> (<[S i := g]> (<[i := r]> (Pix p))));
       Stride := Stride p;
       RGBA_Rect := RGBA_Rect p |}
  else p.

(** [p.Set(x, y, c)] (the name [Set] is reserved, hence [Set_]) converts
    [c] with [color.RGBAModel] first: the high byte of each 16-bit
    channel. *)
Definition Set_ (p : RGBA) (x y : Z) (c : Color) : RGBA :=
  let '(r, g, b, a) := c in
  SetRGBA p x y (uint8 (Z.shiftr r 8), uint8 (Z.shiftr g 8),
                 uint8 (Z.shiftr b 8), uint8 (Z.shiftr a 8)).

(** [p.At(x, y).RGBA()]: each stored byte [v] becomes [v | v << 8]; the
    zero colour outside the rectangle. *)
Definition RGBAAt (p : RGBA) (x y : Z) : Color :=
  if In x y (RGBA_Rect p) then
    let i := PixOffset p x y in
    (pix_at p i * 257, pix_at p (i + 1) * 257,
     pix_at p (i + 2) * 257, pix_at p (i + 3) * 257)
  else (0, 0, 0, 0).

(** An [*image.RGBA] used through the interface. *)
Definition of_RGBA (p : RGBA) : Image :=
  {| Bounds := RGBA_Rect p; At := RGBAAt p |}.

End image.

(** ** Package [models] *)

(** Modelled from the spec: the declaration of [models.VerificationRequest]
    is not part of the sources; the fields are those the service and the
    handler read and write (section 3 of the specification). *)
Record VerificationRequest := {
  VideoData : list Byte.byte;
  UserID : string;
  SessionID : string
}.

(** Modelled from the spec: the declaration of [models.VerificationResult]
    is not part of the sources; the fields are those [VerifyVideo] sets and
    the handler logs (section 3 of the specification).  [ResultUserID] is
    the field [UserID] of the result. *)
Record VerificationResult := {
  VerificationID : string;
  ResultUserID : string;
  Verified : bool;
  Confidence : spec_float;
  LivenessScore : spec_float;
  ProcessingTime : spec_float;
  Timestamp : Z;
  Error : string
}.

(** Modelled from the spec: the declaration of [models.LivenessResult] is
    not part of the sources; the fields are those [detectLiveness] sets.
    [LivenessConfidence] is the field [Confidence] of the result. *)
Record LivenessResult := {
  IsLive : bool;
  LivenessConfidence : spec_float;
  Score : spec_float;
  Method : string
}.

(** Modelled from the spec: the declaration of [models.FaceVector] is not
    part of the sources; the fields are those [RegisterFace] sets.
    [FaceUserID] is the field [UserID] of the vector, [Vector] a
    [[]float32]. *)
Record FaceVector := {
  FaceUserID : string;
  Vector : list spec_float;
  CreatedAt : Z;
  Version : string
}.

(** ** Package [config] *)

Record Config := {
  FaceModelPath : string;
  LivenessThreshold : spec_float;
  SimilarityThreshold : spec_float;
  EncryptionKey : string;
  StoragePath : string
}.

(** The defaults set by [config.Load]. *)
Definition default_LivenessThreshold : spec_float :=
  Eval vm_compute in F64.div (F64.of_Z 85) (F64.of_Z 100).
Definition default_SimilarityThreshold : spec_float :=
  Eval vm_compute in F64.div (F64.of_Z 75) (F64.of_Z 100).

(** ** What the service takes from outside

    The image decoder of the standard library, the face recogniser
    ([go-face]), the formatting and JSON routines and the cryptographic
    primitives are libraries, not code of the repository: they are
    interfaces here.  The cipher comes with the contract of an
    authenticated cipher: opening what was sealed, with the same nonce and
    additional data, returns the plaintext. *)

Record Face := { FaceRectangle : image.Rectangle }.

Class Backend := {
  (** [image.Decode] *)
  image_Decode : list Byte.byte -> result (image.Image * string);
  (** [Recognizer.RecognizeRGBA(pix, width, height, stride)] *)
  RecognizeRGBA : list Z -> Z -> Z -> Z -> result (list Face);
  (** [Recognizer.GetDescriptor(pix, width, height, stride, rectangle)] *)
  GetDescriptor : list Z -> Z -> Z -> Z -> image.Rectangle -> result (list spec_float);
  (** the rendering of a [float64] under the verb [%.2f] *)
  format_f2 : spec_float -> string;
  (** [json.Marshal] of the store *)
  json_Marshal : gmap string (list FaceVector) -> result (list Byte.byte)
}.

Class Crypto := {
  (** [scrypt.Key(password, salt, N, r, p, keyLen)] *)
  scrypt_Key : list Byte.byte -> list Byte.byte -> Z -> Z -> Z -> Z -> result (list Byte.byte);
  Block : Type;
  (** [aes.NewCipher] *)
  aes_NewCipher : list Byte.byte -> result Block;
  AEAD : Type;
  (** [cipher.NewGCM] *)
  cipher_NewGCM : Block -> result AEAD;
  NonceSize : AEAD -> nat;
  (** ciphertext and tag for a nonce, a plaintext and additional data *)
  seal : AEAD -> list Byte.byte -> list Byte.byte -> list Byte.byte -> list Byte.byte;
  open : AEAD -> list Byte.byte -> list Byte.byte -> list Byte.byte -> result (list Byte.byte);
  (** with the cost parameters of the service, key derivation succeeds and
      returns [keyLen] bytes *)
  scrypt_Key_ok : forall password salt,
    exists key, scrypt_Key password salt 32768 8 1 32 = Ok key /\ length key = 32%nat;
  (** a 32-byte key selects AES-256 *)
  aes_NewCipher_ok : forall key,
    length key = 32%nat -> exists block, aes_NewCipher key = Ok block;
  (** an AES block has the block size GCM needs *)
  cipher_NewGCM_ok : forall block, exists gcm, cipher_NewGCM block = Ok gcm;
  open_seal : forall g nonce plaintext ad,
    length nonce = NonceSize g ->
    open g nonce (seal g nonce plaintext ad) ad = Ok plaintext
}.

(** [gcm.Seal(dst, nonce, plaintext, ad)] appends to [dst];
    [gcm.Open(dst, nonce, ciphertext, ad)] likewise. *)
Definition Seal `{Crypto} (g : AEAD) (dst nonce plaintext ad : list Byte.byte) : list Byte.byte :=
  dst ++ seal g nonce plaintext ad.

Definition Open `{Crypto} (g : AEAD) (dst nonce ciphertext ad : list Byte.byte) : result (list Byte.byte) :=
  match open g nonce ciphertext ad with
  | Ok plaintext => Ok (dst ++ plaintext)
  | Err e => Err e
  end.

(** What a call observes of its run: the clock, which of the two deadlines
    of [VerifyVideo] fire, the bytes [crypto/rand] delivers and whether the
    store file can be written. *)
Record Runtime := {
  now : Z;
  elapsed : spec_float;
  frame_timeout : bool;
  merge_timeout : bool;
  entropy : list Byte.byte;
  write_ok : bool
}.

(** [io.ReadFull(r, buf)] with [len(buf) = n]: exactly [n] bytes or an
    error. *)
Definition ReadFull (src : list Byte.byte) (n : nat) : result (list Byte.byte) :=
  if (length src <? n)%nat then Err "unexpected EOF"%string else Ok (take n src).

(** ** What the start-up code takes from outside

    [face.NewRecognizer] and [json.Unmarshal] are library code.  The JSON
    codec comes with its round trip: what [json.Marshal] produced for a
    store is read back as that store.  The library replaces invalid UTF-8
    in strings and refuses NaN and infinities, so the round trip is stated
    for stores whose strings are ASCII and whose vectors hold [float32]
    values. *)

Definition ascii_string (s : string) : bool :=
  forallb (fun c => (Ascii.N_of_ascii c <? 128)%N) (String.list_ascii_of_string s).

Definition json_safe_vector (fv : FaceVector) : bool :=
  ascii_string (FaceUserID fv) && ascii_string (Version fv) &&
  forallb F64.is_float32 (Vector fv).

Definition json_safe (m : gmap string (list FaceVector)) : Prop :=
  map_Forall (fun userID userVectors =>
                ascii_string userID = true /\
                forallb json_safe_vector userVectors = true) m.

Class Loader `{Backend} := {
  (** [face.NewRecognizer(modelPath)]: [None] when a recogniser is
      returned *)
  face_NewRecognizer : string -> option error;
  (** [json.Unmarshal(data, &m)]: the map after the call and the error *)
  json_Unmarshal : list Byte.byte -> gmap string (list FaceVector)
                   -> gmap string (list FaceVector) * option error;
  json_roundtrip : forall m data,
    json_safe m -> json_Marshal m = Ok data -> json_Unmarshal data ∅ = (m, None)
}.

(** ** Package [services]: the face verification service *)

Module services.

(** The fields of [FaceVerificationService] that carry state: the
    configuration, the in-memory store and the file [face_vectors.enc]. *)
Record FaceVerificationService := {
  config : Config;
  faceVectors : gmap string (list FaceVector);
  storage : option (list Byte.byte)
}.

Section Service.
Context `{Backend} `{Crypto}.

(** *** Frame source *)

Definition placeholder_pixel (x y : Z) : Z * Z * Z * Z :=
  (uint8 (Z.quot (x * 255) 640), uint8 (Z.quot (y * 255) 480), uint8 128, 255).

(** The two loops that fill the placeholder with a gradient. *)
Definition fill_gradient (img : image.RGBA) : image.RGBA :=
  fold_left (fun img y =>
    fold_left (fun img x => image.SetRGBA img x y (placeholder_pixel x y))
              (count_up 0 640 1) img)
    (count_up 0 480 1) img.

(** One pixel of the [i]-th "slightly modified copy". *)
Definition noisy_pixel (i : Z) (c : image.Color) : Z * Z * Z * Z :=
  let '(r, g, b, a) := c in
  let noise := i * 2 in
  let r := uint32 (r + uint32 noise) mod 65535 in
  let g := uint32 (g + uint32 noise) mod 65535 in
  let b := uint32 (b + uint32 noise) mod 65535 in
  (uint8 (Z.shiftr r 8), uint8 (Z.shiftr g 8), uint8 (Z.shiftr b 8),
   uint8 (Z.shiftr a 8)).

Definition frameCopy (img : image.Image) (i : Z) : image.RGBA :=
  fold_left (fun frameCopy y =>
    fold_left (fun frameCopy x =>
                 image.SetRGBA frameCopy x y (noisy_pixel i (image.At img x y)))
              (count_up 0 (image.Dx (image.Bounds img)) 1) frameCopy)
    (count_up 0 (image.Dy (image.Bounds img)) 1)
    (image.NewRGBA (image.Bounds img)).

Definition extractFramesFromVideo (videoData : list Byte.byte) : result (list image.Image) :=
  let img :=
    match image_Decode videoData with
    | Err _ => image.of_RGBA (fill_gradient (image.NewRGBA (image.Rect 0 0 640 480)))
    | Ok (img, _) => img
    end in
  let frames :=
    fold_left (fun frames i => frames ++ [image.of_RGBA (frameCopy img i)])
              (count_up 1 5 1) [img] in
  Ok frames.

(** *** Liveness detector *)

Definition channel_diff (c1 c2 : Z) : spec_float :=
  F64.abs (F64.of_Z c1 - F64.of_Z c2)%f64.

Definition calculateFrameMotion (img1 img2 : image.Image) : spec_float :=
  let bounds := image.Bounds img1 in
  if negb (image.Eq bounds (image.Bounds img2)) then F64.zero
  else
    let '(totalDiff, pixelCount) :=
      fold_left (fun acc y =>
        fold_left (fun '(totalDiff, pixelCount) x =>
            let '(r1, g1, b1, _) := image.At img1 x y in
            let '(r2, g2, b2, _) := image.At img2 x y in
            let diff := (channel_diff r1 r2 + channel_diff g1 g2 + channel_diff b1 b2)%f64 in
            ((totalDiff + diff)%f64, pixelCount + 1))
          (count_up (image.X (image.Min bounds)) (image.X (image.Max bounds)) 4) acc)
        (count_up (image.Y (image.Min bounds)) (image.Y (image.Max bounds)) 4)
        (F64.zero, 0) in
    if pixelCount =? 0 then F64.zero
    else (totalDiff / F64.of_Z pixelCount / F64.c65535)%f64.

(** The loop [for i := 1; i < len(frames); i++] over consecutive
    frames. *)
Fixpoint motion_loop (prev : image.Image) (rest : list image.Image)
         (acc : spec_float * Z) : spec_float * Z :=
  match rest with
  | [] => acc
  | frame :: rest' =>
      let '(totalMotion, frameCount) := acc in
      motion_loop frame rest'
        ((totalMotion + calculateFrameMotion prev frame)%f64, frameCount + 1)
  end.

Definition calculateMotionScore (frames : list image.Image) : spec_float :=
  match frames with
  | [] | [_] => F64.zero
  | first :: rest =>
      let '(totalMotion, frameCount) := motion_loop first rest (F64.zero, 0) in
      if frameCount =? 0 then F64.zero
      else
        let averageMotion := (totalMotion / F64.of_Z frameCount)%f64 in
        F64.min (averageMotion * F64.c10)%f64 F64.one
  end.

Definition sq_diff (c n : Z) : spec_float :=
  F64.pow2 (F64.of_Z c - F64.of_Z n)%f64.

Definition neighbour_variance (img : image.Image) (x y : Z) : spec_float * Z :=
  let '(centerR, centerG, centerB, _) := image.At img x y in
  fold_left (fun acc dy =>
    fold_left (fun '(variance, neighborCount) dx =>
        if (dx =? 0) && (dy =? 0) then (variance, neighborCount)
        else
          let '(nr, ng, nb, _) := image.At img (x + dx) (y + dy) in
          ((variance + (sq_diff centerR nr + sq_diff centerG ng + sq_diff centerB nb))%f64,
           neighborCount + 1))
      (count_up (-1) 2 1) acc)
    (count_up (-1) 2 1) (F64.zero, 0).

Definition calculateFrameTexture (img : image.Image) : spec_float :=
  let bounds := image.Bounds img in
  let '(totalVariance, pixelCount) :=
    fold_left (fun acc y =>
      fold_left (fun '(totalVariance, pixelCount) x =>
          let '(variance, neighborCount) := neighbour_variance img x y in
          if 0 <? neighborCount then
            ((totalVariance + variance / F64.of_Z neighborCount)%f64, pixelCount + 1)
          else (totalVariance, pixelCount))
        (count_up (image.X (image.Min bounds) + 1) (image.X (image.Max bounds) - 1) 2) acc)
      (count_up (image.Y (image.Min bounds) + 1) (image.Y (image.Max bounds) - 1) 2)
      (F64.zero, 0) in
  if pixelCount =? 0 then F64.zero
  else (totalVariance / F64.of_Z pixelCount / F64.c1e10)%f64.

Definition float_len {A} (l : list A) : spec_float := F64.of_Z (Z.of_nat (length l)).

Definition calculateTextureConsistency (frames : list image.Image) : spec_float :=
  if (length frames =? 0)%nat then F64.zero
  else
    let textureScores := map calculateFrameTexture frames in
    let mean := fold_left (fun mean score => (mean + score)%f64) textureScores F64.zero in
    let mean := (mean / float_len textureScores)%f64 in
    let variance :=
      fold_left (fun variance score => (variance + F64.pow2 (score - mean))%f64)
                textureScores F64.zero in
    let variance := (variance / float_len textureScores)%f64 in
    (F64.one - F64.min (variance * F64.c100) F64.one)%f64.

Definition calculateAverageColor (img : image.Image) : spec_float * spec_float * spec_float :=
  let bounds := image.Bounds img in
  let '(totalR, totalG, totalB, pixelCount) :=
    fold_left (fun acc y =>
      fold_left (fun '(totalR, totalG, totalB, pixelCount) x =>
          let '(r, g, b, _) := image.At img x y in
          ((totalR + F64.of_Z r / F64.c65535)%f64,
           (totalG + F64.of_Z g / F64.c65535)%f64,
           (totalB + F64.of_Z b / F64.c65535)%f64,
           pixelCount + 1))
        (count_up (image.X (image.Min bounds)) (image.X (image.Max bounds)) 4) acc)
      (count_up (image.Y (image.Min bounds)) (image.Y (image.Max bounds)) 4)
      (F64.zero, F64.zero, F64.zero, 0) in
  if pixelCount =? 0 then (F64.zero, F64.zero, F64.zero)
  else ((totalR / F64.of_Z pixelCount)%f64,
        (totalG / F64.of_Z pixelCount)%f64,
        (totalB / F64.of_Z pixelCount)%f64).

Definition calculateColorConsistency (frames : list image.Image) : spec_float :=
  if (length frames =? 0)%nat then F64.zero
  else
    let frameColors := map calculateAverageColor frames in
    let '(m0, m1, m2) :=
      fold_left (fun '(m0, m1, m2) '(c0, c1, c2) =>
                   ((m0 + c0)%f64, (m1 + c1)%f64, (m2 + c2)%f64))
                frameColors (F64.zero, F64.zero, F64.zero) in
    let m0 := (m0 / float_len frameColors)%f64 in
    let m1 := (m1 / float_len frameColors)%f64 in
    let m2 := (m2 / float_len frameColors)%f64 in
    let variance :=
      fold_left (fun variance '(c0, c1, c2) =>
                   (variance + (F64.pow2 (c0 - m0) + F64.pow2 (c1 - m1) + F64.pow2 (c2 - m2)))%f64)
                frameColors F64.zero in
    let variance := (variance / float_len frameColors)%f64 in
    (F64.one - F64.min (variance * F64.c10) F64.one)%f64.

Definition detectLiveness (cfg : Config) (frames : list image.Image) : result LivenessResult :=
  if (length frames <? 2)%nat then
    Ok {| IsLive := false; LivenessConfidence := F64.zero; Score := F64.zero;
          Method := "motion_texture_analysis" |}
  else
    let motionScore := calculateMotionScore frames in
    let textureScore := calculateTextureConsistency frames in
    let colorScore := calculateColorConsistency frames in
    let totalScore :=
      (motionScore * F64.c0_4 + textureScore * F64.c0_4 + colorScore * F64.c0_2)%f64 in
    let isLive := F64.geb totalScore (LivenessThreshold cfg) in
    let confidence := F64.min totalScore F64.one in
    Ok {| IsLive := isLive; LivenessConfidence := confidence; Score := totalScore;
          Method := "motion_texture_analysis" |}.

(** *** Embedding generator *)

Definition generateFaceVector (img : image.Image) : result (list spec_float) :=
  let bounds := image.Bounds img in
  let width := image.Dx bounds in
  let height := image.Dy bounds in
  let rgba :=
    fold_left (fun rgba y =>
      fold_left (fun rgba x => image.Set_ rgba x y (image.At img x y))
                (count_up 0 width 1) rgba)
      (count_up 0 height 1) (image.NewRGBA bounds) in
  match RecognizeRGBA (image.Pix rgba) width height (width * 4) with
  | Err e => Err ("face detection failed: " +:+ e)
  | Ok [] => Err "no faces detected"%string
  | Ok (face :: _) =>
      match GetDescriptor (image.Pix rgba) width height (width * 4) (FaceRectangle face) with
      | Err e => Err ("face descriptor generation failed: " +:+ e)
      | Ok descriptor => Ok descriptor
      end
  end.

(** *** Similarity matcher *)

(** [a] and [b] are [[]float32]; the loop body reads [a[i]] and [b[i]]
    for [i < len(a)], in range because the lengths are equal. *)
Definition cosine_step (a b : list spec_float)
           (acc : spec_float * spec_float * spec_float) (i : nat)
  : spec_float * spec_float * spec_float :=
  let '(dotProduct, normA, normB) := acc in
  let ai := F64.of_float32 (nth i a F64.zero) in
  let bi := F64.of_float32 (nth i b F64.zero) in
  ((dotProduct + ai * bi)%f64, (normA + ai * ai)%f64, (normB + bi * bi)%f64).

Definition cosineSimilarity (a b : list spec_float) : spec_float :=
  if negb (length a =? length b)%nat then F64.zero
  else
    let '(dotProduct, normA, normB) :=
      fold_left (cosine_step a b) (seq 0 (length a)) (F64.zero, F64.zero, F64.zero) in
    if F64.eqb normA F64.zero || F64.eqb normB F64.zero then F64.zero
    else (dotProduct / (F64.sqrt normA * F64.sqrt normB))%f64.

Definition max_step (newVector : list spec_float)
           (maxSimilarity : spec_float) (storedVector : FaceVector) : spec_float :=
  let similarity := cosineSimilarity newVector (Vector storedVector) in
  if F64.gtb similarity maxSimilarity then similarity else maxSimilarity.

Definition checkForDuplicates (s : FaceVerificationService) (userID : string)
           (newVector : list spec_float) : result spec_float :=
  match faceVectors s !! userID with
  | None => Ok F64.zero
  | Some userVectors =>
      if (length userVectors =? 0)%nat then Ok F64.zero
      else Ok (fold_left (max_step newVector) userVectors F64.zero)
  end.

(** *** Vector store: encryption and persistence *)

Definition salt : list Byte.byte :=
  String.list_byte_of_string "connect-hub-face-verification-salt".

Definition deriveKey (password : string) : result (list Byte.byte) :=
  scrypt_Key (String.list_byte_of_string password) salt 32768 8 1 32.

(** The three constructor calls shared by [encryptData] and
    [decryptData]. *)
Definition newGCM (cfg : Config) : result AEAD :=
  match deriveKey (EncryptionKey cfg) with
  | Err e => Err e
  | Ok key =>
      match aes_NewCipher key with
      | Err e => Err e
      | Ok block => cipher_NewGCM block
      end
  end.

Definition encryptData (rt : Runtime) (cfg : Config) (data : list Byte.byte)
  : result (list Byte.byte) :=
  match newGCM cfg with
  | Err e => Err e
  | Ok gcm =>
      match ReadFull (entropy rt) (NonceSize gcm) with
      | Err e => Err e
      | Ok nonce => Ok (Seal gcm nonce nonce data [])
      end
  end.

Definition decryptData (cfg : Config) (data : list Byte.byte) : result (list Byte.byte) :=
  match newGCM cfg with
  | Err e => Err e
  | Ok gcm =>
      let nonceSize := NonceSize gcm in
      if (length data <? nonceSize)%nat then Err "ciphertext too short"%string
      else
        let nonce := take nonceSize data in
        let ciphertext := drop nonceSize data in
        Open gcm [] nonce ciphertext []
  end.

Definition saveFaceVectors (rt : Runtime) (s : FaceVerificationService)
  : FaceVerificationService * option error :=
  match json_Marshal (faceVectors s) with
  | Err e => (s, Some e)
  | Ok data =>
      match encryptData rt (config s) data with
      | Err e => (s, Some e)
      | Ok encryptedData =>
          if write_ok rt then
            ({| config := config s; faceVectors := faceVectors s;
                storage := Some encryptedData |}, None)
          else (s, Some "write face_vectors.enc: permission denied"%string)
      end
  end.

(** *** Orchestrator *)

Definition with_error (r : VerificationResult) (msg : string) : VerificationResult :=
  {| VerificationID := VerificationID r; ResultUserID := ResultUserID r;
     Verified := Verified r; Confidence := Confidence r;
     LivenessScore := LivenessScore r; ProcessingTime := ProcessingTime r;
     Timestamp := Timestamp r; Error := msg |}.

Definition with_outcome (r : VerificationResult) (liveness : spec_float)
           (verified : bool) (confidence : spec_float) (time : spec_float)
  : VerificationResult :=
  {| VerificationID := VerificationID r; ResultUserID := ResultUserID r;
     Verified := verified; Confidence := confidence;
     LivenessScore := liveness; ProcessingTime := time;
     Timestamp := Timestamp r; Error := Error r |}.

(** The goroutines and channels of [VerifyVideo] are run in program
    order; the two [select] deadlines are taken from [rt].  The pair is
    the returned result and the returned error ([None] for [nil]). *)
Definition VerifyVideo (rt : Runtime) (s : FaceVerificationService)
           (req : VerificationRequest) : VerificationResult * option error :=
  let result :=
    {| VerificationID := "ver_" +:+ pretty (now rt); ResultUserID := UserID req;
       Verified := false; Confidence := F64.zero; LivenessScore := F64.zero;
       ProcessingTime := F64.zero; Timestamp := now rt; Error := "" |} in
  if frame_timeout rt then
    (with_error result "Frame extraction timeout", Some "frame extraction timeout"%string)
  else
    match extractFramesFromVideo (VideoData req) with
    | Err err => (with_error result ("Failed to extract frames: " +:+ err), Some err)
    | Ok [] =>
        (with_error result "No frames extracted from video", Some "no frames extracted"%string)
    | Ok ((frame0 :: _) as frames) =>
        if merge_timeout rt then
          (with_error result "Processing timeout", Some "processing timeout"%string)
        else
          match detectLiveness (config s) frames, generateFaceVector frame0 with
          | Err err, _ =>
              (with_error result ("Liveness detection failed: " +:+ err), Some err)
          | Ok _, Err err =>
              (with_error result ("Face vector generation failed: " +:+ err), Some err)
          | Ok livenessResult, Ok faceVector =>
              if negb (IsLive livenessResult) then
                (with_outcome result (Score livenessResult) false F64.zero (elapsed rt), None)
              else if negb (String.eqb (UserID req) "") then
                match checkForDuplicates s (UserID req) faceVector with
                | Err _ =>
                    (with_outcome result (Score livenessResult) false F64.zero (elapsed rt),
                     None)
                | Ok confidence =>
                    (with_outcome result (Score livenessResult)
                       (F64.geb confidence (SimilarityThreshold (config s)))
                       confidence (elapsed rt), None)
                end
              else
                (with_outcome result (Score livenessResult) true F64.one (elapsed rt), None)
          end
    end.

Definition RegisterFace (rt : Runtime) (s : FaceVerificationService)
           (userID : string) (videoData : list Byte.byte)
  : FaceVerificationService * option error :=
  let req := {| VideoData := videoData; UserID := userID; SessionID := "" |} in
  match VerifyVideo rt s req with
  | (_, Some err) => (s, Some err)
  | (result, None) =>
      if negb (Verified result) then
        (s, Some ("face verification failed: confidence " +:+ format_f2 (Confidence result)))
      else
        match extractFramesFromVideo videoData with
        | Err err => (s, Some err)
        | Ok [] => (s, Some "index out of range [0] with length 0"%string)
        | Ok (frame0 :: _) =>
            match generateFaceVector frame0 with
            | Err err => (s, Some err)
            | Ok faceVector =>
                let vector :=
                  {| FaceUserID := userID; Vector := faceVector;
                     CreatedAt := now rt; Version := "1.0" |} in
                let existing := default [] (faceVectors s !! userID) in
                saveFaceVectors rt
                  {| config := config s;
                     faceVectors := <[userID := existing ++ [vector]]> (faceVectors s);
                     storage := storage s |}
            end
        end
  end.

(** *** Start-up *)

Context `{!Loader}.

(** [loadFaceVectors]: [storage s] is the content of [face_vectors.enc]
    ([None] when [os.Stat] reports that it does not exist), [readable]
    whether [os.ReadFile] succeeds. *)
Definition loadFaceVectors (readable : bool) (s : FaceVerificationService)
  : FaceVerificationService * option error :=
  match storage s with
  | None => (s, None)
  | Some encryptedData =>
      if negb readable then
        (s, Some "open face_vectors.enc: permission denied"%string)
      else
        match decryptData (config s) encryptedData with
        | Err err => (s, Some err)
        | Ok decryptedData =>
            let '(vectors, err) := json_Unmarshal decryptedData (faceVectors s) in
            ({| config := config s; faceVectors := vectors; storage := storage s |}, err)
        end
  end.

(** [NewFaceVerificationService]: [file] is the store file found on disk.
    A failed load is logged and the service is returned all the same. *)
Definition NewFaceVerificationService (cfg : Config) (file : option (list Byte.byte))
           (readable : bool) : result FaceVerificationService :=
  match face_NewRecognizer (FaceModelPath cfg) with
  | Some err => Err ("failed to initialize face recognizer: " +:+ err)
  | None =>
      let service := {| config := cfg; faceVectors := ∅; storage := file |} in
      Ok (fst (loadFaceVectors readable service))
  end.

End Service.
End services.

(** ** Package [handlers]: the HTTP boundary *)

Module handlers.

(** A [multipart.FileHeader]: the declared size, the [Content-Type] header
    as [Header.Get] returns it, and what [Open] then delivers. *)
Record FileHeader := {
  Filename : string;
  Size : Z;
  ContentType : string;
  Content : result (list Byte.byte)
}.

Record Form := {
  File : gmap string (list FileHeader);
  Value : gmap string (list string)
}.

(** [c.PostForm(key)]: the first value, or the empty string. *)
Definition PostForm (form : Form) (key : string) : string :=
  match Value form !! key with
  | Some (v :: _) => v
  | _ => ""%string
  end.

(** The JSON bodies the handler writes. *)
Inductive Body :=
| ErrorBody (message code : string) (details : option string)
| DataBody (data : VerificationResult).

Record Response := { Status : Z; ResponseBody : Body }.

Definition StatusOK : Z := 200.
Definition StatusBadRequest : Z := 400.
Definition StatusRequestTimeout : Z := 408.
Definition StatusInternalServerError : Z := 500.

(** The work a request triggers beyond validation. *)
Inductive Event :=
| EvReadFile (filename : string)
| EvVerifyVideo (req : VerificationRequest).

Definition validTypes : list string :=
  ["video/webm"; "video/mp4"; "video/avi"; "video/mov"; "video/quicktime";
   "image/jpeg"; "image/png"]%string.

(** [nil] is [None]. *)
Definition validateVideoFile (file : FileHeader) : option error :=
  if 50 * 1024 * 1024 <? Size file then
    Some ("video file too large. Maximum size is 50MB, got " +:+ pretty (Size file) +:+ " bytes")
  else if Size file <? 1024 then
    Some ("video file too small. Minimum size is 1KB, got " +:+ pretty (Size file) +:+ " bytes")
  else if existsb (String.eqb (ContentType file)) validTypes then None
  else
    Some ("invalid file type: " +:+ ContentType file +:+
          ". Supported types: video/webm, video/mp4, video/avi, video/mov").

Definition readVideoFile (file : FileHeader) : result (list Byte.byte) :=
  match Content file with
  | Err e => Err ("failed to open file: " +:+ e)
  | Ok src =>
      match ReadFull src (Z.to_nat (Size file)) with
      | Err e => Err ("failed to read file data: " +:+ e)
      | Ok data => Ok data
      end
  end.

Definition valid_id_char (c : Ascii.ascii) : bool :=
  let n := Z.of_N (Ascii.N_of_ascii c) in
  ((97 <=? n) && (n <=? 122)) || ((65 <=? n) && (n <=? 90)) ||
  ((48 <=? n) && (n <=? 57)) || (n =? 45) || (n =? 95).

Definition isValidUserID (userID : string) : bool :=
  if (String.length userID <? 1)%nat || (64 <? String.length userID)%nat then false
  else forallb valid_id_char (String.list_ascii_of_string userID).

Definition bad_request (message code : string) : Response :=
  {| Status := StatusBadRequest; ResponseBody := ErrorBody message code None |}.

(** [VerifyVideo(c)]: [form] is what [c.MultipartForm()] returns,
    [faceService] the service method the handler calls, [uuid] the value
    of [uuid.New()], [timeout] whether the 30 second deadline fires. *)
Definition VerifyVideo
           (faceService : VerificationRequest -> VerificationResult * option error)
           (uuid : string) (timeout : bool) (form : result Form)
  : Response * list Event :=
  match form with
  | Err _ => (bad_request "Invalid form data" "INVALID_FORM_DATA", [])
  | Ok form =>
      match default [] (File form !! "video"%string) with
      | [] => (bad_request "Video file is required" "MISSING_VIDEO_FILE", [])
      | file :: _ =>
          match validateVideoFile file with
          | Some err => (bad_request err "INVALID_VIDEO_FILE", [])
          | None =>
              match readVideoFile file with
              | Err _ =>
                  ({| Status := StatusInternalServerError;
                      ResponseBody :=
                        ErrorBody "Failed to process video file" "FILE_READ_ERROR" None |},
                   [EvReadFile (Filename file)])
              | Ok videoData =>
                  let userID := PostForm form "user_id" in
                  let sessionID := PostForm form "session_id" in
                  let sessionID := if String.eqb sessionID "" then uuid else sessionID in
                  if negb (String.eqb userID "") && negb (isValidUserID userID) then
                    (bad_request "Invalid user ID format" "INVALID_USER_ID",
                     [EvReadFile (Filename file)])
                  else
                    let req := {| VideoData := videoData; UserID := userID;
                                  SessionID := sessionID |} in
                    let events := [EvReadFile (Filename file); EvVerifyVideo req] in
                    if timeout then
                      ({| Status := StatusRequestTimeout;
                          ResponseBody :=
                            ErrorBody "Verification processing timeout"
                                      "VERIFICATION_TIMEOUT" None |}, events)
                    else
                      match faceService req with
                      | (result, None) =>
                          ({| Status := StatusOK; ResponseBody := DataBody result |}, events)
                      | (_, Some err) =>
                          ({| Status := StatusInternalServerError;
                              ResponseBody :=
                                ErrorBody "Verification processing failed"
                                          "VERIFICATION_FAILED" (Some err) |}, events)
                      end
              end
          end
      end
  end.

(** *** Registration and status endpoints *)

(** The JSON bodies of the registration endpoint. *)
Inductive RegisterBody :=
| RegisterError (message code : string) (details : option string)
| RegisterSuccess (message user_id : string) (timestamp : Z).

Record RegisterResponse := { RegisterStatus : Z; RegisterResponseBody : RegisterBody }.

(** The work a registration request triggers beyond validation. *)
Inductive RegisterEvent :=
| EvReadUpload (filename : string)
| EvRegisterFace (userID : string) (videoData : list Byte.byte).

Definition register_bad_request (message code : string) : RegisterResponse :=
  {| RegisterStatus := StatusBadRequest; RegisterResponseBody := RegisterError message code None |}.

(** [RegisterFace(c)]: [form] is what [c.MultipartForm()] returns,
    [faceService] the service method the handler calls, [clock] the value
    of [time.Now()] in the answer, [timeout] whether the 30 second deadline
    fires. *)
Definition RegisterFace
           (faceService : string -> list Byte.byte -> option error)
           (clock : Z) (timeout : bool) (form : result Form)
  : RegisterResponse * list RegisterEvent :=
  match form with
  | Err _ => (register_bad_request "Invalid form data" "INVALID_FORM_DATA", [])
  | Ok form =>
      match default [] (File form !! "video"%string) with
      | [] => (register_bad_request "Video file is required" "MISSING_VIDEO_FILE", [])
      | file :: _ =>
          let userID := PostForm form "user_id" in
          if String.eqb userID "" then
            (register_bad_request "User ID is required for registration" "MISSING_USER_ID", [])
          else if negb (isValidUserID userID) then
            (register_bad_request "Invalid user ID format" "INVALID_USER_ID", [])
          else
            match validateVideoFile file with
            | Some err => (register_bad_request err "INVALID_VIDEO_FILE", [])
            | None =>
                match readVideoFile file with
                | Err _ =>
                    ({| RegisterStatus := StatusInternalServerError;
                        RegisterResponseBody :=
                          RegisterError "Failed to process video file" "FILE_READ_ERROR" None |},
                     [EvReadUpload (Filename file)])
                | Ok videoData =>
                    let events := [EvReadUpload (Filename file);
                                   EvRegisterFace userID videoData] in
                    if timeout then
                      ({| RegisterStatus := StatusRequestTimeout;
                          RegisterResponseBody :=
                            RegisterError "Face registration timeout"
                                          "REGISTRATION_TIMEOUT" None |}, events)
                    else
                      match faceService userID videoData with
                      | Some err =>
                          ({| RegisterStatus := StatusInternalServerError;
                              RegisterResponseBody :=
                                RegisterError "Face registration failed"
                                              "REGISTRATION_FAILED" (Some err) |}, events)
                      | None =>
                          ({| RegisterStatus := StatusOK;
                              RegisterResponseBody :=
                                RegisterSuccess "Face registered successfully" userID clock |},
                           events)
                      end
                end
            end
      end
  end.

Definition alnum_char (c : Ascii.ascii) : bool :=
  let n := Z.of_N (Ascii.N_of_ascii c) in
  ((97 <=? n) && (n <=? 122)) || ((65 <=? n) && (n <=? 90)) ||
  ((48 <=? n) && (n <=? 57)).

(** [verificationID[4:]], taken only when the length is at least 4. *)
Definition suffix4 (s : string) : string := String.substring 4 (String.length s - 4) s.

Definition isValidVerificationID (verificationID : string) : bool :=
  if (String.length verificationID <? 4)%nat || negb (String.prefix "ver_" verificationID)
  then false
  else
    let suffix := suffix4 verificationID in
    if (String.length suffix <? 10)%nat || (30 <? String.length suffix)%nat then false
    else forallb alnum_char (String.list_ascii_of_string suffix).

(** The JSON bodies of the status endpoint. *)
Inductive StatusBody :=
| StatusError (message code : string)
| StatusReport (verification_id status : string) (verified : bool) (timestamp : Z).

(** [GetVerificationStatus(c)]: [verificationID] is [c.Param("id")]. *)
Definition GetVerificationStatus (clock : Z) (verificationID : string) : Z * StatusBody :=
  if String.eqb verificationID "" then
    (StatusBadRequest, StatusError "Verification ID is required" "MISSING_VERIFICATION_ID")
  else if negb (isValidVerificationID verificationID) then
    (StatusBadRequest, StatusError "Invalid verification ID format" "INVALID_VERIFICATION_ID")
  else
    (StatusOK, StatusReport verificationID "completed" true clock).

End handlers.

(** ** A concrete backend to evaluate the service on

    A one-row grey-level bitmap decoder (the byte [G], then one byte per
    pixel), a recogniser that finds one face in any non-empty picture and
    describes it by a fixed vector, and a transparent stand-in for the
    cipher.  They are used to run the definitions on concrete inputs; no
    general statement below depends on them. *)

Module Sample.

Definition grey_row (pixels : list Byte.byte) : image.Image :=
  {| image.Bounds := image.Rect 0 0 (Z.of_nat (length pixels)) 1;
     image.At := fun x y =>
       if (0 <=? x) && (x <? Z.of_nat (length pixels)) && (y =? 0) then
         let v := Z.of_N (Byte.to_N (nth (Z.to_nat x) pixels Byte.x00)) * 257 in
         (v, v, v, 65535)
       else (0, 0, 0, 0) |}.

Definition decode (data : list Byte.byte) : result (image.Image * string) :=
  match data with
  | Byte.x47 :: pixels => Ok (grey_row pixels, "greymap"%string)
  | _ => Err "image: unknown format"%string
  end.

(** 1.0 and -1.0 as [float32] values. *)
Definition one32 : spec_float := S754_finite false 8388608 (-23).
Definition minus_one32 : spec_float := S754_finite true 8388608 (-23).

(** A 128-dimensional descriptor: three ones, then zeros. *)
Definition descriptor : list spec_float :=
  one32 :: one32 :: one32 :: replicate 125 (S754_zero false).

#[export] Instance backend : Backend := {|
  image_Decode := decode;
  RecognizeRGBA := fun pix width height _ =>
    match pix with
    | [] => Ok []
    | _ => Ok [{| FaceRectangle := image.Rect 0 0 width height |}]
    end;
  GetDescriptor := fun _ _ _ _ _ => Ok descriptor;
  format_f2 := fun x => if F64.is_zero x then "0.00"%string else "#.##"%string;
  json_Marshal := fun m => Ok (String.list_byte_of_string (pretty (size m)))
|}.

Definition tag (nonce : list Byte.byte) : list Byte.byte :=
  take 16 (nonce ++ replicate 16 Byte.x00).

Definition toy_seal (nonce plaintext : list Byte.byte) : list Byte.byte :=
  rev plaintext ++ tag nonce.

Definition toy_open (nonce ciphertext : list Byte.byte) : result (list Byte.byte) :=
  let n := (length ciphertext - 16)%nat in
  if (length ciphertext <? 16)%nat then Err "cipher: message authentication failed"%string
  else if List.list_eq_dec Byte.byte_eq_dec (drop n ciphertext) (tag nonce)
       then Ok (rev (take n ciphertext))
       else Err "cipher: message authentication failed"%string.

Definition toy_key (password salt : list Byte.byte) (keyLen : Z) : list Byte.byte :=
  take (Z.to_nat keyLen) (password ++ salt ++ replicate (Z.to_nat keyLen) Byte.x00).

Definition toy_cipher (key : list Byte.byte) : result (list Byte.byte) :=
  if (length key =? 16)%nat || (length key =? 24)%nat || (length key =? 32)%nat
  then Ok key else Err "crypto/aes: invalid key size"%string.

(** The configuration of the test suite: the default thresholds. *)
Definition cfg : Config :=
  {| FaceModelPath := "./models"; LivenessThreshold := default_LivenessThreshold;
     SimilarityThreshold := default_SimilarityThreshold;
     EncryptionKey := "test-encryption-key-for-testing-only";
     StoragePath := "/tmp/test_storage" |}.

(** A freshly started service: nothing enrolled, no store file. *)
Definition empty_service : services.FaceVerificationService :=
  {| services.config := cfg; services.faceVectors := ∅; services.storage := None |}.

Definition rt : Runtime :=
  {| now := 1700000000000000000; elapsed := F64.zero; frame_timeout := false;
     merge_timeout := false;
     entropy := String.list_byte_of_string "0123456789abcdef";
     write_ok := true |}.

(** Sixteen pixels in one row, the first white, the others black: the
    first "modified copy" wraps the white pixel to black, which the
    detector scores as motion. *)
Definition video : list Byte.byte :=
  Byte.x47 :: Byte.xff :: replicate 15 Byte.x00.

(** A store in which [alice] has one enrollment, a vector opposite to
    the one she is compared with below. *)
Definition alice_service : services.FaceVerificationService :=
  {| services.config := cfg;
     services.faceVectors :=
       {[ "alice"%string :=
            [{| FaceUserID := "alice"; Vector := [minus_one32];
                CreatedAt := 1690000000000000000; Version := "1.0" |}] ]};
     services.storage := None |}.

(** A store in which [test-user-123] is enrolled with the descriptor the
    recogniser returns. *)
Definition enrolled_service : services.FaceVerificationService :=
  {| services.config := cfg;
     services.faceVectors :=
       {[ "test-user-123"%string :=
            [{| FaceUserID := "test-user-123"; Vector := descriptor;
                CreatedAt := 1690000000000000000; Version := "1.0" |}] ]};
     services.storage := None |}.

(** The five frames the frame source makes of [video]. *)
Definition frames : list image.Image :=
  match services.extractFramesFromVideo video with
  | Ok frames => frames
  | Err _ => []
  end.

Definition frame0 : image.Image :=
  hd (image.of_RGBA (image.NewRGBA (image.Rect 0 0 0 0))) frames.

Definition liveness : LivenessResult :=
  match services.detectLiveness cfg frames with
  | Ok r => r
  | Err _ => {| IsLive := false; LivenessConfidence := F64.zero; Score := F64.zero;
                Method := "" |}
  end.

Definition request (userID : string) : VerificationRequest :=
  {| VideoData := video; UserID := userID; SessionID := "test-session-456" |}.

(** A service that accepts every similarity ([SIMILARITY_THRESHOLD=0]),
    with an empty store. *)
Definition permissive_service : services.FaceVerificationService :=
  {| services.config :=
       {| FaceModelPath := "./models"; LivenessThreshold := default_LivenessThreshold;
          SimilarityThreshold := F64.zero;
          EncryptionKey := "test-encryption-key-for-testing-only";
          StoragePath := "/tmp/test_storage" |};
     services.faceVectors := ∅; services.storage := None |}.

(** An upload of [size] bytes declared as [video/mp4]. *)
Definition upload (size : Z) : handlers.FileHeader :=
  {| handlers.Filename := "clip.mp4"; handlers.Size := size;
     handlers.ContentType := "video/mp4";
     handlers.Content := Ok (replicate (Z.to_nat size) Byte.x00) |}.

End Sample.

(** ** Sample requests at the gateway, and a store codec to evaluate
    persistence on *)

Module SampleGateway.

(** The multipart form of the test suite: a 1024-byte upload and a user
    id. *)
Definition form (userID : string) : handlers.Form :=
  {| handlers.File := {[ "video"%string := [Sample.upload 1024] ]};
     handlers.Value := {[ "user_id"%string := [userID] ]} |}.

(** A service stub that verifies every request. *)
Definition accept (req : VerificationRequest) : VerificationResult * option error :=
  ({| VerificationID := "ver_1700000000000000000"; ResultUserID := UserID req;
      Verified := true; Confidence := F64.one; LivenessScore := F64.one;
      ProcessingTime := F64.zero; Timestamp := 1700000000000000000; Error := "" |}, None).

(** A registration stub that enrols every request. *)
Definition enrol (userID : string) (videoData : list Byte.byte) : option error := None.

(** An upload that decodes: 1024 pixels, every sixteenth one white, the
    others black, and the form that posts it for [userID]. *)
Definition striped : list Byte.byte :=
  Byte.x47 :: concat (replicate 64 (Byte.xff :: replicate 15 Byte.x00)).

Definition striped_form (userID : string) : handlers.Form :=
  {| handlers.File :=
       {[ "video"%string :=
            [{| handlers.Filename := "clip.mp4"; handlers.Size := 1025;
                handlers.ContentType := "video/mp4"; handlers.Content := Ok striped |}] ]};
     handlers.Value := {[ "user_id"%string := [userID] ]} |}.

End SampleGateway.

Module Codec.

Definition float_to_sum (x : spec_float) : bool + (bool + (unit + bool * positive * Z)) :=
  match x with
  | S754_zero s => inl s
  | S754_infinity s => inr (inl s)
  | S754_nan => inr (inr (inl tt))
  | S754_finite s m e => inr (inr (inr (s, m, e)))
  end.

Definition float_of_sum (x : bool + (bool + (unit + bool * positive * Z))) : spec_float :=
  match x with
  | inl s => S754_zero s
  | inr (inl s) => S754_infinity s
  | inr (inr (inl _)) => S754_nan
  | inr (inr (inr (s, m, e))) => S754_finite s m e
  end.

#[export] Instance spec_float_eq_dec : EqDecision spec_float.
Proof. solve_decision. Defined.

#[export] Instance spec_float_countable : Countable spec_float.
Proof. apply (inj_countable' float_to_sum float_of_sum). intros []; reflexivity. Defined.

Definition vector_to_tuple (fv : FaceVector) : string * list spec_float * Z * string :=
  (FaceUserID fv, Vector fv, CreatedAt fv, Version fv).

Definition vector_of_tuple (t : string * list spec_float * Z * string) : FaceVector :=
  let '(u, v, c, ver) := t in
  {| FaceUserID := u; Vector := v; CreatedAt := c; Version := ver |}.

#[export] Instance FaceVector_eq_dec : EqDecision FaceVector.
Proof. solve_decision. Defined.

#[export] Instance FaceVector_countable : Countable FaceVector.
Proof. apply (inj_countable' vector_to_tuple vector_of_tuple). intros []; reflexivity. Defined.

(** A number written in binary, least significant digit first, with the
    characters [0] and [1]; the leading one is left out. *)
Fixpoint bits_of_pos (p : positive) : list Byte.byte :=
  match p with
  | xH => []
  | xO q => Byte.x30 :: bits_of_pos q
  | xI q => Byte.x31 :: bits_of_pos q
  end.

Fixpoint pos_of_bits (l : list Byte.byte) : positive :=
  match l with
  | [] => xH
  | b :: l' => if Byte.eqb b Byte.x30 then xO (pos_of_bits l') else xI (pos_of_bits l')
  end.

(** The store as the digits of its code number: a stand-in for JSON that
    can be read back. *)
Definition marshal (m : gmap string (list FaceVector)) : result (list Byte.byte) :=
  Ok (bits_of_pos (encode m)).

Definition unmarshal (data : list Byte.byte) (m : gmap string (list FaceVector))
  : gmap string (list FaceVector) * option error :=
  match decode (pos_of_bits data) with
  | Some stored => (stored ∪ m, None)
  | None => (m, Some "invalid character looking for beginning of value"%string)
  end.

(** The sample backend with this codec and a one-entry descriptor; its
    decoder reads a row of at most sixteen pixels and ignores what
    follows. *)
#[export] Instance backend : Backend := {|
  image_Decode := fun data => Sample.decode (take 17 data);
  RecognizeRGBA := fun pix width height _ =>
    match pix with
    | [] => Ok []
    | _ => Ok [{| FaceRectangle := image.Rect 0 0 width height |}]
    end;
  GetDescriptor := fun _ _ _ _ _ => Ok [Sample.one32];
  format_f2 := fun x => if F64.is_zero x then "0.00"%string else "#.##"%string;
  json_Marshal := marshal
|}.

(** A store with one enrollment, a service over it that accepts every
    similarity, and a run at a small clock value. *)
Definition store : gmap string (list FaceVector) :=
  {[ "al"%string := [{| FaceUserID := "al"; Vector := [Sample.one32];
                        CreatedAt := 169; Version := "1.0" |}] ]}.

Definition service : services.FaceVerificationService :=
  {| services.config := services.config Sample.permissive_service;
     services.faceVectors := store; services.storage := None |}.

Definition rt : Runtime :=
  {| now := 170; elapsed := F64.zero; frame_timeout := false; merge_timeout := false;
     entropy := String.list_byte_of_string "0123456789abcdef"; write_ok := true |}.

End Codec.

(** ** The quantities the specification names

    The dot product and the squared Euclidean norm of [[]float32] vectors,
    accumulated in [float64] in index order, and what it means to be the
    maximum of a list of similarities. *)

Definition dot (a b : list spec_float) : spec_float :=
  fold_left (fun acc '(x, y) => (acc + F64.of_float32 x * F64.of_float32 y)%f64)
            (combine a b) F64.zero.

Definition norm_sq (a : list spec_float) : spec_float :=
  fold_left (fun acc x => (acc + F64.of_float32 x * F64.of_float32 x)%f64) a F64.zero.

Definition norm (a : list spec_float) : spec_float := F64.sqrt (norm_sq a).

Definition all_zero (a : list spec_float) : bool := forallb F64.is_zero a.

Definition is_maximum (r : spec_float) (l : list spec_float) : Prop :=
  List.In r l /\ Forall (fun s => F64.leb s r = true) l.

(** The similarities of a new vector to the stored vectors of an
    identity. *)
Definition similarities (newVector : list spec_float) (userVectors : list FaceVector)
  : list spec_float :=
  map (fun storedVector => services.cosineSimilarity newVector (Vector storedVector)) userVectors.

(** ** Auxiliary predicates *)

(** [leb] as a proposition, to reason by cases on the two numbers. *)
Definition SFle (x y : spec_float) : Prop :=
  match SFcompare x y with Some Lt | Some Eq => True | _ => False end.

(** A binary64 number that is positive, [+Inf] or NaN, with an exponent no
    smaller than the smallest one. *)
Definition pos_or_nan (x : spec_float) : Prop :=
  match x with
  | S754_nan | S754_infinity false => True
  | S754_finite false _ e => emin F64.prec F64.emax <= e
  | _ => False
  end.

(** The image of a non-zero [float32]: its exponent leaves room for a
    product. *)
Definition wide_exponent (x : spec_float) : Prop :=
  match x with
  | S754_zero _ => False
  | S754_finite _ _ e => -537 <= e
  | _ => True
  end.

(** One step of a sum of squares, and one step of the three sums the loop
    of [cosineSimilarity] keeps. *)
Definition square_step (acc x : spec_float) : spec_float :=
  (acc + F64.of_float32 x * F64.of_float32 x)%f64.

Definition triple_step (acc : spec_float * spec_float * spec_float)
           (xy : spec_float * spec_float) : spec_float * spec_float * spec_float :=
  let '(d, na, nb) := acc in
  let '(x, y) := xy in
  ((d + F64.of_float32 x * F64.of_float32 y)%f64,
   (na + F64.of_float32 x * F64.of_float32 x)%f64,
   (nb + F64.of_float32 y * F64.of_float32 y)%f64).

Definition not_nan (x : spec_float) : bool := negb (F64.is_nan x).

(** The outcomes of [VerifyVideo] that report a failed frame extraction. *)
Definition frame_extraction_failure (out : VerificationResult * option error) : Prop :=
  Error (fst out) = "No frames extracted from video"%string \/
  snd out = Some "no frames extracted"%string \/
  exists e, Error (fst out) = ("Failed to extract frames: " +:+ e)%string.

(** The characters of an identity, and the letters and digits, listed. *)
Definition id_alphabet : list Ascii.ascii :=
  String.list_ascii_of_string
    "abcdefghijklmnopqrstuvwxyzABCDEFGHIJKLMNOPQRSTUVWXYZ0123456789-_".

Definition alnum_alphabet : list Ascii.ascii :=
  String.list_ascii_of_string
    "abcdefghijklmnopqrstuvwxyzABCDEFGHIJKLMNOPQRSTUVWXYZ0123456789".

(** The picture an [*image.RGBA] holds, and frames that show the same
    picture. *)

(** An [*image.RGBA] as [image.NewRGBA] makes it and [SetRGBA] keeps it. *)
Definition packed (p : image.RGBA) : Prop :=
  0 <= image.Dx (image.RGBA_Rect p) /\ 0 <= image.Dy (image.RGBA_Rect p) /\
  image.Stride p = 4 * image.Dx (image.RGBA_Rect p) /\
  Z.of_nat (length (image.Pix p))
  = 4 * image.Dx (image.RGBA_Rect p) * image.Dy (image.RGBA_Rect p).

Definition scaled (c : Z * Z * Z * Z) : image.Color :=
  let '(r, g, b, a) := c in (r * 257, g * 257, b * 257, a * 257).

(** The nested loops that write a colour at every point of a grid. *)
Definition paint (f : Z -> Z -> Z * Z * Z * Z) (xs ys : list Z) (p : image.RGBA) : image.RGBA :=
  fold_left (fun p y => fold_left (fun p x => image.SetRGBA p x y (f x y)) xs p) ys p.

Definition channel_ok (v : Z) : bool :=
  match services.channel_diff (v * 257) (v * 257) with S754_zero false => true | _ => false end.

(** Two images show the same picture at a point: the same colour, of
    8-bit channels. *)
Definition same_colour (img1 img2 : image.Image) (x y : Z) : Prop :=
  exists r g b a1 a2,
    image.At img1 x y = (r * 257, g * 257, b * 257, a1) /\
    image.At img2 x y = (r * 257, g * 257, b * 257, a2) /\
    0 <= r <= 255 /\ 0 <= g <= 255 /\ 0 <= b <= 255.

(** A frame that shows the picture of [img]: the same rectangle and, at
    every point of it, the same colour. *)
Definition shows (img : image.Image) (w h : Z) (f : image.Image) : Prop :=
  image.Bounds f = image.Bounds img /\
  forall x y, 0 <= x < w -> 0 <= y < h -> image.At f x y = image.At img x y.

(** * Properties *)

(** ** The literals and [math.Min] *)

Section Literals.

(** 0.4 is [0x1.999999999999ap-2], 0.2 is [0x1.999999999999ap-3] and 1.0
    is [0x1p0]. *)
Example literal_values :
  F64.c0_4 = S754_finite false 7205759403792794 (-54) /\
  F64.c0_2 = S754_finite false 7205759403792794 (-55) /\
  F64.one = S754_finite false 4503599627370496 (-52) /\
  default_LivenessThreshold = S754_finite false 7656119366529843 (-53) /\
  default_SimilarityThreshold = S754_finite false 6755399441055744 (-53).
Proof. repeat split; reflexivity. Qed.

(** The weights sum to one exactly: [0.4 + 0.4 + 0.2 = 1.0] in binary64. *)
Example weights_sum : (F64.one * F64.c0_4 + F64.one * F64.c0_4 + F64.one * F64.c0_2)%f64 = F64.one.
Proof. reflexivity. Qed.

Example min_special_cases :
  F64.min (S754_zero true) (S754_zero false) = S754_zero true /\
  F64.min (S754_zero false) (S754_zero true) = S754_zero true /\
  F64.min S754_nan F64.one = S754_nan /\
  F64.min S754_nan (S754_infinity true) = S754_infinity true /\
  F64.min (S754_infinity false) F64.one = F64.one /\
  F64.min F64.c0_4 F64.one = F64.c0_4.
Proof. repeat split; reflexivity. Qed.

(** The sample video passes the liveness check with a score of about
    0.94: full motion, full texture consistency, colour consistency 0.7. *)
Example sample_liveness :
  services.calculateMotionScore Sample.frames = F64.one /\
  services.calculateTextureConsistency Sample.frames = F64.one /\
  services.calculateColorConsistency Sample.frames = S754_finite false 6305039478318694 (-53) /\
  services.detectLiveness Sample.cfg Sample.frames
  = Ok {| IsLive := true;
          LivenessConfidence := S754_finite false 8466767299456533 (-53);
          Score := S754_finite false 8466767299456533 (-53);
          Method := "motion_texture_analysis" |}.
Proof. vm_compute. repeat split; reflexivity. Qed.

End Literals.

(** ** Counting loops *)

Section Loops.

(** [count_up lo hi step] lists exactly the values the loop variable of
    [for v := lo; v < hi; v += step] takes. *)
Lemma count_up_spec (lo hi step v : Z) :
  0 < step ->
  List.In v (count_up lo hi step) <-> exists k, 0 <= k /\ v = lo + step * k /\ v < hi.
Proof.
  intros Hstep. unfold count_up. rewrite in_map_iff. split.
  - intros (n & <- & Hin). apply in_seq in Hin. exists (Z.of_nat n).
    split; [lia|]. split; [reflexivity|].
    assert (Hn : Z.of_nat n < (hi - lo + step - 1) / step) by lia.
    assert (Hq : step * ((hi - lo + step - 1) / step) <= hi - lo + step - 1)
      by (apply Z.mul_div_le; lia).
    nia.
  - intros (k & Hk & -> & Hlt). exists (Z.to_nat k). split; [f_equal; lia|].
    apply in_seq. split; [lia|]. cbn.
    assert (Hq : k + 1 <= (hi - lo + step - 1) / step)
      by (apply Z.div_le_lower_bound; lia).
    lia.
Qed.

Example count_up_examples :
  count_up 1 5 1 = [1; 2; 3; 4] /\ count_up 0 10 4 = [0; 4; 8] /\
  count_up (-1) 2 1 = [-1; 0; 1] /\ count_up 1 0 2 = [] /\ count_up 1 (-1) 2 = [].
Proof. repeat split; reflexivity. Qed.

End Loops.

(** ** The order of binary64 numbers *)

Section FloatOrder.

Lemma SFcompare_antisym (x y : spec_float) :
  SFcompare y x = option_map CompOpp (SFcompare x y).
Proof.
  destruct x as [[]|[]| |[] mx ex], y as [[]|[]| |[] my ey]; simpl; try reflexivity;
    rewrite (Z.compare_antisym ex ey); destruct (ex ?= ey); simpl; try reflexivity;
    change (Pos.compare_cont Eq my mx) with (Pos.compare my mx);
    change (Pos.compare_cont Eq mx my) with (Pos.compare mx my);
    rewrite (Pos.compare_antisym mx my); destruct (mx ?= my)%positive; reflexivity.
Qed.

Lemma SFcompare_refl (x : spec_float) :
  F64.is_nan x = false -> SFcompare x x = Some Eq.
Proof.
  destruct x as [[]|[]| |[] m e]; simpl; intros Hn; try reflexivity; try discriminate;
    rewrite Z.compare_refl; change (Pos.compare_cont Eq m m) with (Pos.compare m m);
    rewrite Pos.compare_refl; reflexivity.
Qed.

Lemma leb_refl (x : spec_float) : F64.is_nan x = false -> F64.leb x x = true.
Proof. intros Hn. unfold F64.leb, SFleb. rewrite SFcompare_refl by assumption. reflexivity. Qed.

Lemma ltb_leb (x y : spec_float) : F64.ltb x y = true -> F64.leb x y = true.
Proof. unfold F64.ltb, F64.leb, SFltb, SFleb. destruct (SFcompare x y) as [[]|]; congruence. Qed.

Lemma ltb_not_nan (x y : spec_float) :
  F64.ltb x y = true -> F64.is_nan x = false /\ F64.is_nan y = false.
Proof. destruct x as [| | |], y as [| | |]; simpl; try discriminate; auto. Qed.

Lemma leb_not_nan (x y : spec_float) :
  F64.leb x y = true -> F64.is_nan x = false /\ F64.is_nan y = false.
Proof. destruct x as [| | |], y as [| | |]; simpl; try discriminate; auto. Qed.

Lemma compare_not_nan (x y : spec_float) :
  F64.is_nan x = false -> F64.is_nan y = false -> exists c, SFcompare x y = Some c.
Proof.
  destruct x as [| | |], y as [| | |]; simpl; try discriminate; intros _ _; eauto.
Qed.

(** Without NaN the order is total. *)
Lemma not_ltb_leb (x y : spec_float) :
  F64.is_nan x = false -> F64.is_nan y = false ->
  F64.ltb x y = false -> F64.leb y x = true.
Proof.
  intros Hx Hy. unfold F64.ltb, F64.leb, SFltb, SFleb.
  rewrite (SFcompare_antisym x y).
  destruct (compare_not_nan x y Hx Hy) as [c ->]. destruct c; simpl; congruence.
Qed.

Lemma ltb_leb_false (x y : spec_float) : F64.ltb x y = true -> F64.leb y x = false.
Proof.
  unfold F64.ltb, F64.leb, SFltb, SFleb. rewrite (SFcompare_antisym x y).
  destruct (SFcompare x y) as [[]|]; simpl; congruence.
Qed.

Lemma leb_SFle (x y : spec_float) : F64.leb x y = true <-> SFle x y.
Proof.
  unfold F64.leb, SFleb, SFle. destruct (SFcompare x y) as [[]|]; intuition congruence.
Qed.

Lemma lex_trans (e1 e2 e3 : Z) (m1 m2 m3 : positive) :
  match Z.compare e1 e2 with Lt => Lt | Gt => Gt | Eq => Pos.compare m1 m2 end <> Gt ->
  match Z.compare e2 e3 with Lt => Lt | Gt => Gt | Eq => Pos.compare m2 m3 end <> Gt ->
  match Z.compare e1 e3 with Lt => Lt | Gt => Gt | Eq => Pos.compare m1 m3 end <> Gt.
Proof.
  destruct (Z.compare_spec e1 e2), (Z.compare_spec e2 e3), (Z.compare_spec e1 e3);
    try lia; try congruence;
    destruct (Pos.compare_spec m1 m2), (Pos.compare_spec m2 m3), (Pos.compare_spec m1 m3);
    try lia; congruence.
Qed.

Lemma lex_trans_opp (e1 e2 e3 : Z) (m1 m2 m3 : positive) :
  match Z.compare e1 e2 with Lt => Gt | Gt => Lt | Eq => CompOpp (Pos.compare m1 m2) end <> Gt ->
  match Z.compare e2 e3 with Lt => Gt | Gt => Lt | Eq => CompOpp (Pos.compare m2 m3) end <> Gt ->
  match Z.compare e1 e3 with Lt => Gt | Gt => Lt | Eq => CompOpp (Pos.compare m1 m3) end <> Gt.
Proof.
  destruct (Z.compare_spec e1 e2), (Z.compare_spec e2 e3), (Z.compare_spec e1 e3);
    try lia; try congruence;
    destruct (Pos.compare_spec m1 m2), (Pos.compare_spec m2 m3), (Pos.compare_spec m1 m3);
    simpl; try lia; congruence.
Qed.

Lemma SFle_finite (s1 s2 : bool) (m1 m2 : positive) (e1 e2 : Z) :
  SFle (S754_finite s1 m1 e1) (S754_finite s2 m2 e2) <->
  match s1, s2 with
  | true, false => True
  | false, true => False
  | false, false =>
      match Z.compare e1 e2 with Lt => Lt | Gt => Gt | Eq => Pos.compare m1 m2 end <> Gt
  | true, true =>
      match Z.compare e1 e2 with Lt => Gt | Gt => Lt | Eq => CompOpp (Pos.compare m1 m2) end <> Gt
  end.
Proof.
  unfold SFle; simpl.
  change (Pos.compare_cont Eq m1 m2) with (Pos.compare m1 m2).
  destruct s1, s2; try tauto;
    destruct (e1 ?= e2); try (intuition congruence);
    destruct (m1 ?= m2)%positive; simpl; intuition congruence.
Qed.

Lemma SFle_trans (x y z : spec_float) : SFle x y -> SFle y z -> SFle x z.
Proof.
  destruct x as [sx|sx| |sx mx ex], y as [sy|sy| |sy my ey], z as [sz|sz| |sz mz ez];
    try (unfold SFle; simpl; tauto);
    try (unfold SFle; simpl; destruct sx, sy, sz; simpl; tauto).
  rewrite !SFle_finite. destruct sx, sy, sz; try tauto.
  - apply lex_trans_opp.
  - apply lex_trans.
Qed.

Lemma leb_trans (x y z : spec_float) :
  F64.leb x y = true -> F64.leb y z = true -> F64.leb x z = true.
Proof. rewrite !leb_SFle. apply SFle_trans. Qed.

(** Multiplication is commutative, special values included. *)
Lemma mul_comm (x y : spec_float) : F64.mul x y = F64.mul y x.
Proof.
  destruct x as [sx|sx| |sx mx ex], y as [sy|sy| |sy my ey]; simpl;
    try reflexivity; try (rewrite xorb_comm; reflexivity).
  unfold F64.mul; simpl. rewrite xorb_comm, Pos.mul_comm, Z.add_comm. reflexivity.
Qed.

End FloatOrder.

(** ** Rounding never flushes a large enough number to zero *)

Section Rounding.

Lemma digits2_size (p : positive) : digits2_pos p = Pos.size p.
Proof. induction p; simpl; congruence. Qed.

Lemma iter_pos_nat {A} (f : A -> A) (n : positive) (x : A) :
  SpecFloat.iter_pos f n x = Nat.iter (Pos.to_nat n) f x.
Proof.
  revert x. induction n as [n IH|n IH|]; intros x; cbn [SpecFloat.iter_pos].
  - rewrite !IH, Pos2Nat.inj_xI.
    replace (S (2 * Pos.to_nat n))%nat with (Pos.to_nat n + (Pos.to_nat n + 1))%nat by lia.
    rewrite !Nat.iter_add. reflexivity.
  - rewrite !IH, Pos2Nat.inj_xO.
    replace (2 * Pos.to_nat n)%nat with (Pos.to_nat n + Pos.to_nat n)%nat by lia.
    rewrite Nat.iter_add. reflexivity.
  - reflexivity.
Qed.

Lemma shr_1_m (mrs : shr_record) :
  0 <= shr_m mrs -> shr_m (shr_1 mrs) = Z.div2 (shr_m mrs).
Proof.
  destruct mrs as [m r s]; simpl. destruct m as [|[p|p|]|p]; simpl; try reflexivity; lia.
Qed.

Lemma shr_iter_m (n : nat) (mrs : shr_record) :
  0 <= shr_m mrs -> shr_m (Nat.iter n shr_1 mrs) = shr_m mrs / 2 ^ Z.of_nat n.
Proof.
  intros Hm. induction n as [|n IH].
  - simpl. rewrite Z.div_1_r. reflexivity.
  - rewrite Nat2Z.inj_succ, Z.pow_succ_r by lia. simpl.
    rewrite shr_1_m.
    + rewrite IH, Z.div2_div, Z.div_div by lia. f_equal. lia.
    + rewrite IH. apply Z.div_pos; lia.
Qed.

Lemma size_lower (p : positive) : 2 ^ (Z.pos (Pos.size p) - 1) <= Z.pos p.
Proof.
  pose proof (Pos.size_le p) as H.
  assert (Hs : Z.pos (2 ^ Pos.size p) = 2 ^ Z.pos (Pos.size p)) by apply Pos2Z.inj_pow.
  assert (2 ^ Z.pos (Pos.size p) = 2 * 2 ^ (Z.pos (Pos.size p) - 1)).
  { rewrite <- Z.pow_succ_r by lia. f_equal. lia. }
  lia.
Qed.


Lemma shr_positive (m : positive) (r s : bool) (e n : Z) :
  n < Z.pos (Pos.size m) ->
  exists m', shr_m (fst (shr {| shr_m := Z.pos m; shr_r := r; shr_s := s |} e n)) = Z.pos m'
             /\ e <= snd (shr {| shr_m := Z.pos m; shr_r := r; shr_s := s |} e n).
Proof.
  intros Hn. destruct n as [|p|p]; simpl.
  - exists m. split; [reflexivity | lia].
  - rewrite iter_pos_nat, shr_iter_m by (simpl; lia). simpl shr_m.
    rewrite positive_nat_Z.
    assert (Hq : 0 < Z.pos m / 2 ^ Z.pos p).
    { apply Z.div_str_pos. split; [apply Z.pow_pos_nonneg; lia|].
      eapply Z.le_trans; [|apply size_lower].
      apply Z.pow_le_mono_r; lia. }
    destruct (Z.pos m / 2 ^ Z.pos p) as [|q|q]; try lia.
    exists q. split; [reflexivity | lia].
  - exists m. split; [reflexivity | lia].
Qed.

Lemma shr_fexp_positive (m : positive) (e : Z) (l : location) :
  emin F64.prec F64.emax <= e ->
  exists mrs m' e', shr_fexp F64.prec F64.emax (Z.pos m) e l = (mrs, e')
                    /\ shr_m mrs = Z.pos m' /\ e <= e'.
Proof.
  intros He. unfold shr_fexp.
  assert (Hrec : exists r s, shr_record_of_loc (Z.pos m) l
                             = {| shr_m := Z.pos m; shr_r := r; shr_s := s |}).
  { destruct l as [|[]]; simpl; eauto. }
  destruct Hrec as (r & s & ->).
  set (n := fexp F64.prec F64.emax (Zdigits2 (Z.pos m) + e) - e).
  assert (Hn : n < Z.pos (Pos.size m)).
  { subst n. unfold fexp, emin, F64.prec, F64.emax in *. simpl Zdigits2.
    rewrite digits2_size. lia. }
  destruct (shr_positive m r s e n Hn) as (m' & Hm & Hle).
  destruct (shr _ e n) as [mrs e'] eqn:E. simpl in *. eauto 10.
Qed.

Lemma round_nearest_even_positive (m : positive) (l : location) :
  exists m', round_nearest_even (Z.pos m) l = Z.pos m'.
Proof.
  destruct l as [|[]]; simpl; eauto.
  destruct m; simpl; eauto.
Qed.

(** Rounding a positive mantissa whose exponent is not below the smallest
    exponent never flushes to zero: the result is an infinity or a finite
    number of the same sign. *)
Lemma binary_round_aux_positive (s : bool) (m : positive) (e : Z) (l : location) :
  emin F64.prec F64.emax <= e ->
  binary_round_aux F64.prec F64.emax s (Z.pos m) e l = S754_infinity s \/
  exists m' e', binary_round_aux F64.prec F64.emax s (Z.pos m) e l = S754_finite s m' e'
                /\ e <= e'.
Proof.
  intros He. unfold binary_round_aux.
  destruct (shr_fexp_positive m e l He) as (mrs1 & m1 & e1 & -> & Hm1 & He1).
  rewrite Hm1.
  destruct (round_nearest_even_positive m1 (loc_of_shr_record mrs1)) as (m2 & ->).
  destruct (shr_fexp_positive m2 e1 loc_Exact) as (mrs3 & m3 & e3 & -> & Hm3 & He3); [lia|].
  rewrite Hm3.
  destruct (e3 <=? F64.emax - F64.prec); [right | left; reflexivity].
  exists m3, e3. split; [reflexivity | lia].
Qed.

Lemma binary_round_positive (s : bool) (m : positive) (e : Z) :
  emin F64.prec F64.emax <= e ->
  binary_round F64.prec F64.emax s m e = S754_infinity s \/
  exists m' e', binary_round F64.prec F64.emax s m e = S754_finite s m' e'
                /\ emin F64.prec F64.emax <= e' /\ e - 52 <= e'.
Proof.
  intros He. unfold binary_round.
  destruct (shl_align m e _) as [mz ez] eqn:E.
  assert (Hez : emin F64.prec F64.emax <= ez /\ e - 52 <= ez).
  { unfold shl_align in E.
    pose proof (Pos2Z.is_pos (digits2_pos m)) as Hd.
    unfold fexp, emin, F64.prec, F64.emax in *.
    destruct (Z.max _ _ - e) eqn:D; inversion E; subst; lia. }
  destruct (binary_round_aux_positive s mz ez loc_Exact) as [->|(m' & e' & -> & Hle)];
    [lia | left; reflexivity | right].
  exists m', e'. repeat split; lia.
Qed.
End Rounding.

(** ** Sums of squares of [float32] values *)

Section SumsOfSquares.

Lemma of_float32_zero (x : spec_float) :
  F64.is_zero x = true -> F64.mul (F64.of_float32 x) (F64.of_float32 x) = F64.zero.
Proof. destruct x as [[]| | |]; simpl; try discriminate; reflexivity. Qed.

Lemma float32_exponent (s : bool) (m : positive) (e : Z) :
  F64.is_float32 (S754_finite s m e) = true -> -149 <= e.
Proof.
  unfold F64.is_float32, valid_binary, bounded, canonical_mantissa, fexp, emin.
  intros Hv. apply andb_true_iff in Hv as [Hc _]. apply Z.eqb_eq in Hc. lia.
Qed.

Lemma of_float32_wide (x : spec_float) :
  F64.is_float32 x = true -> F64.is_zero x = false -> wide_exponent (F64.of_float32 x).
Proof.
  destruct x as [s|s| |s m e]; try (intros _ Hz; discriminate Hz);
    try (intros _ _; exact I).
  intros Hv _. apply float32_exponent in Hv. cbn [F64.of_float32].
  destruct (binary_round_positive s m e) as [->|(m' & e' & -> & _ & He)].
  - unfold emin, F64.prec, F64.emax; lia.
  - exact I.
  - simpl; lia.
Qed.

Lemma square_positive (x : spec_float) :
  wide_exponent x -> pos_or_nan (F64.mul x x).
Proof.
  destruct x as [s|s| |s m e]; simpl; try tauto.
  - intros _. rewrite xorb_nilpotent. exact I.
  - intros He. unfold F64.mul; simpl. rewrite xorb_nilpotent.
    destruct (binary_round_aux_positive false (m * m) (e + e) loc_Exact)
      as [->|(m' & e' & -> & Hle)];
      [unfold emin, F64.prec, F64.emax; lia | exact I |].
    simpl. unfold emin, F64.prec, F64.emax. lia.
Qed.

Lemma add_positive_l (x y : spec_float) :
  pos_or_nan x -> y = F64.zero \/ pos_or_nan y -> pos_or_nan (F64.add x y).
Proof.
  intros Hx [->|Hy].
  - destruct x as [[]|[]| |[] m e]; simpl in *; tauto.
  - destruct x as [[]|[]| |[] mx ex], y as [[]|[]| |[] my ey]; simpl in *; try tauto.
    unfold F64.add; simpl.
    destruct (binary_round_positive false
                (fst (shl_align mx ex (Z.min ex ey)) + fst (shl_align my ey (Z.min ex ey)))
                (Z.min ex ey)) as [->|(m' & e' & -> & He & _)];
      [lia | exact I | exact He].
Qed.

Lemma add_zero_l (y : spec_float) : pos_or_nan y -> F64.add F64.zero y = y.
Proof. destruct y as [[]|[]| |[] m e]; simpl; tauto. Qed.

Lemma eqb_zero_positive (x : spec_float) : pos_or_nan x -> F64.eqb x F64.zero = false.
Proof. destruct x as [[]|[]| |[] m e]; simpl; tauto. Qed.

Lemma square_step_cases (x : spec_float) :
  F64.is_float32 x = true ->
  (F64.is_zero x = true /\ F64.mul (F64.of_float32 x) (F64.of_float32 x) = F64.zero) \/
  (F64.is_zero x = false /\ pos_or_nan (F64.mul (F64.of_float32 x) (F64.of_float32 x))).
Proof.
  intros Hv. destruct (F64.is_zero x) eqn:Hz.
  - left. split; [reflexivity | apply of_float32_zero; assumption].
  - right. split; [reflexivity |]. apply square_positive, of_float32_wide; assumption.
Qed.

Lemma sum_squares_positive (a : list spec_float) (acc : spec_float) :
  Forall (fun x => F64.is_float32 x = true) a ->
  pos_or_nan acc -> pos_or_nan (fold_left square_step a acc).
Proof.
  intros Ha. revert acc. induction Ha as [|x a Hx _ IH]; intros acc Hacc; simpl; [assumption|].
  apply IH. unfold square_step. apply add_positive_l; [assumption|].
  destruct (square_step_cases x Hx) as [[_ ->]|[_ Hp]]; auto.
Qed.

(** The squared norm of a vector of [float32] values is [+0] exactly when
    every entry is a zero; otherwise it is positive, [+Inf] or NaN. *)
Lemma norm_sq_cases (a : list spec_float) :
  Forall (fun x => F64.is_float32 x = true) a ->
  (all_zero a = true /\ norm_sq a = F64.zero) \/
  (all_zero a = false /\ pos_or_nan (norm_sq a)).
Proof.
  unfold norm_sq. change (fun acc x => (acc + F64.of_float32 x * F64.of_float32 x)%f64)
    with square_step.
  unfold all_zero.
  induction 1 as [|x a Hx Ha IH]; cbn [fold_left forallb]; [left; split; reflexivity|].
  destruct (square_step_cases x Hx) as [[Hz Hsq]|[Hz Hsq]]; rewrite Hz; cbn [andb].
  - unfold square_step at 2 4. rewrite Hsq. exact IH.
  - right. split; [reflexivity|].
    apply sum_squares_positive; [assumption|].
    unfold square_step. rewrite add_zero_l; assumption.
Qed.

Lemma norm_sq_eqb_zero (a : list spec_float) :
  Forall (fun x => F64.is_float32 x = true) a ->
  F64.eqb (norm_sq a) F64.zero = all_zero a.
Proof.
  intros Ha. destruct (norm_sq_cases a Ha) as [[-> ->]|[-> Hp]].
  - reflexivity.
  - apply eqb_zero_positive; assumption.
Qed.

End SumsOfSquares.

(** ** The loop of [cosineSimilarity] *)

Section CosineLoop.

(** Reading [a[i]] and [b[i]] by index is a traversal of the two slices
    side by side. *)
Lemma cosine_loop_zip (pa pb a b : list spec_float)
      (acc : spec_float * spec_float * spec_float) :
  length pa = length pb -> length a = length b ->
  fold_left (services.cosine_step (pa ++ a) (pb ++ b)) (seq (length pa) (length a)) acc
  = fold_left triple_step (combine a b) acc.
Proof.
  revert pa pb b acc. induction a as [|x a IH]; intros pa pb b acc Hp Hl.
  - reflexivity.
  - destruct b as [|y b]; [discriminate|]. simpl in Hl. injection Hl as Hl.
    cbn [length seq fold_left combine].
    replace (services.cosine_step (pa ++ x :: a) (pb ++ y :: b) acc (length pa))
      with (triple_step acc (x, y)).
    + specialize (IH (pa ++ [x]) (pb ++ [y]) b (triple_step acc (x, y))).
      rewrite <- !app_assoc in IH. simpl in IH.
      rewrite length_app in IH. simpl in IH.
      replace (length pa + 1)%nat with (S (length pa)) in IH by lia.
      apply IH; [rewrite !length_app; simpl; lia | assumption].
    + unfold services.cosine_step, triple_step. destruct acc as [[d na] nb].
      rewrite nth_middle, Hp, nth_middle. reflexivity.
Qed.

Lemma triple_fold (l : list (spec_float * spec_float)) (d na nb : spec_float) :
  fold_left triple_step l (d, na, nb)
  = (fold_left (fun acc '(x, y) => (acc + F64.of_float32 x * F64.of_float32 y)%f64) l d,
     fold_left square_step (map fst l) na,
     fold_left square_step (map snd l) nb).
Proof.
  revert d na nb. induction l as [|[x y] l IH]; intros d na nb; simpl; [reflexivity|].
  apply IH.
Qed.

Lemma map_fst_combine {A B} (a : list A) (b : list B) :
  length a = length b -> map fst (combine a b) = a.
Proof.
  revert b. induction a as [|x a IH]; intros [|y b] Hl; simpl in *; try discriminate;
    [reflexivity|]. f_equal. apply IH. lia.
Qed.

Lemma map_snd_combine {A B} (a : list A) (b : list B) :
  length a = length b -> map snd (combine a b) = b.
Proof.
  revert b. induction a as [|x a IH]; intros [|y b] Hl; simpl in *; try discriminate;
    [reflexivity|]. f_equal. apply IH. lia.
Qed.

Lemma cosine_loop (a b : list spec_float) :
  length a = length b ->
  fold_left (services.cosine_step a b) (seq 0 (length a)) (F64.zero, F64.zero, F64.zero)
  = (dot a b, norm_sq a, norm_sq b).
Proof.
  intros Hl. rewrite (cosine_loop_zip [] [] a b _ eq_refl Hl), triple_fold.
  rewrite map_fst_combine, map_snd_combine by assumption. reflexivity.
Qed.

End CosineLoop.

(** ** Similarity matcher *)

Section Similarity.

(** C4: [cosineSimilarity(a, b)] is exactly [0.0] when the lengths differ
    or one of the vectors is all-zero, and otherwise the dot product
    divided by the product of the Euclidean norms, for all vectors of
    [float32] values. *)
Theorem cosineSimilarity_spec (a b : list spec_float) :
  Forall (fun x => F64.is_float32 x = true) a ->
  Forall (fun x => F64.is_float32 x = true) b ->
  services.cosineSimilarity a b =
    if negb (length a =? length b)%nat || all_zero a || all_zero b then F64.zero
    else (dot a b / (norm a * norm b))%f64.
Proof.
  intros Ha Hb. unfold services.cosineSimilarity.
  destruct (length a =? length b)%nat eqn:Hl; cbn [negb orb]; [|reflexivity].
  apply Nat.eqb_eq in Hl. rewrite (cosine_loop a b Hl).
  rewrite (norm_sq_eqb_zero a Ha), (norm_sq_eqb_zero b Hb). reflexivity.
Qed.

Lemma cosineSimilarity_spec_witness :
  Forall (fun x => F64.is_float32 x = true) [Sample.one32; Sample.minus_one32] /\
  Forall (fun x => F64.is_float32 x = true) [Sample.minus_one32; Sample.one32] /\
  services.cosineSimilarity [Sample.one32; Sample.minus_one32]
                            [Sample.minus_one32; Sample.one32]
  = (dot [Sample.one32; Sample.minus_one32] [Sample.minus_one32; Sample.one32]
     / (norm [Sample.one32; Sample.minus_one32] * norm [Sample.minus_one32; Sample.one32]))%f64.
Proof.
  assert (H1 : Forall (fun x => F64.is_float32 x = true) [Sample.one32; Sample.minus_one32])
    by (repeat constructor).
  assert (H2 : Forall (fun x => F64.is_float32 x = true) [Sample.minus_one32; Sample.one32])
    by (repeat constructor).
  split; [exact H1 | split; [exact H2 |]].
  exact (cosineSimilarity_spec _ _ H1 H2).
Defined.

Lemma max_step_cases (v : list spec_float) (m : spec_float) (fv : FaceVector) :
  F64.is_nan m = false ->
  let s := services.cosineSimilarity v (Vector fv) in
  let r := services.max_step v m fv in
  F64.is_nan r = false /\ (r = m \/ (r = s /\ F64.is_nan s = false)) /\
  F64.leb m r = true /\ (F64.is_nan s = false -> F64.leb s r = true).
Proof.
  intros Hm s r. subst r. unfold services.max_step. fold s. unfold F64.gtb.
  change (SFltb m s) with (F64.ltb m s).
  destruct (F64.ltb m s) eqn:Hlt.
  - destruct (ltb_not_nan _ _ Hlt) as [_ Hs].
    repeat split; auto using ltb_leb, leb_refl.
  - repeat split; auto using leb_refl, not_ltb_leb.
Qed.

(** The loop of [checkForDuplicates] keeps the largest of its start value
    and the similarities seen so far; a NaN similarity is never taken. *)
Lemma max_fold (v : list spec_float) (l : list FaceVector) (m : spec_float) :
  F64.is_nan m = false ->
  let r := fold_left (services.max_step v) l m in
  F64.is_nan r = false /\
  List.In r (m :: List.filter not_nan (similarities v l)) /\
  F64.leb m r = true /\
  Forall (fun s => F64.leb s r = true) (List.filter not_nan (similarities v l)).
Proof.
  revert m. induction l as [|fv l IH]; intros m Hm;
    cbn [fold_left similarities map List.filter].
  - repeat split; auto using leb_refl. left; reflexivity.
  - destruct (max_step_cases v m fv Hm) as (Hn & Hcase & Hle & Hs).
    destruct (IH _ Hn) as (Hr & Hin & Hmr & Hall). fold (similarities v l) in *.
    set (s := services.cosineSimilarity v (Vector fv)) in *.
    set (m' := services.max_step v m fv) in *.
    set (r := fold_left (services.max_step v) l m') in *.
    assert (Hnn : not_nan s = negb (F64.is_nan s)) by reflexivity.
    destruct (F64.is_nan s) eqn:Hsn; rewrite Hnn; cbn [negb].
    + destruct Hcase as [Hc|[_ Hc]]; [|congruence]. rewrite Hc in Hin.
      repeat split; [exact Hr | exact Hin | eapply leb_trans; eassumption | exact Hall].
    + repeat split.
      * exact Hr.
      * destruct Hin as [Hin|Hin]; [|right; right; exact Hin].
        destruct Hcase as [Hc|[Hc _]]; [left|right; left]; congruence.
      * eapply leb_trans; eassumption.
      * constructor; [|exact Hall].
        eapply leb_trans; [apply Hs; reflexivity | exact Hmr].
Qed.

(** C3, as amended: for a claimed identity with at least one stored
    embedding, the similarity [checkForDuplicates] reports is the maximum
    of [0.0] and the cosine similarities to the stored embeddings of that
    identity (a NaN similarity is skipped), so negative similarities are
    reported as [0.0]. *)
Theorem checkForDuplicates_clamped_maximum
        (s : services.FaceVerificationService) (userID : string)
        (newVector : list spec_float) (userVectors : list FaceVector) :
  services.faceVectors s !! userID = Some userVectors ->
  userVectors <> [] ->
  exists r, services.checkForDuplicates s userID newVector = Ok r /\
            is_maximum r (F64.zero :: List.filter not_nan (similarities newVector userVectors)).
Proof.
  intros Hlook Hne. unfold services.checkForDuplicates. rewrite Hlook.
  destruct userVectors as [|fv l]; [congruence|]. cbn [length Nat.eqb].
  eexists. split; [reflexivity|].
  destruct (max_fold newVector (fv :: l) F64.zero eq_refl) as (_ & Hin & Hle & Hall).
  split; [exact Hin|]. constructor; assumption.
Qed.

Lemma checkForDuplicates_clamped_maximum_witness :
  services.faceVectors Sample.alice_service !! "alice"%string
    = Some (default [] (services.faceVectors Sample.alice_service !! "alice"%string)) /\
  default [] (services.faceVectors Sample.alice_service !! "alice"%string) <> [] /\
  exists r, services.checkForDuplicates Sample.alice_service "alice" [Sample.one32] = Ok r /\
            is_maximum r (F64.zero :: List.filter not_nan
               (similarities [Sample.one32]
                  (default [] (services.faceVectors Sample.alice_service !! "alice"%string)))).
Proof.
  assert (H1 : services.faceVectors Sample.alice_service !! "alice"%string
               = Some (default [] (services.faceVectors Sample.alice_service !! "alice"%string)))
    by (vm_compute; reflexivity).
  assert (H2 : default [] (services.faceVectors Sample.alice_service !! "alice"%string) <> [])
    by (vm_compute; discriminate).
  split; [exact H1 | split; [exact H2 |]].
  exact (checkForDuplicates_clamped_maximum _ _ _ _ H1 H2).
Defined.

(** C3, as stated, fails: with one stored embedding whose cosine
    similarity to the new vector is [-1.0], [checkForDuplicates] reports
    [0.0], which is not the maximum (not even a member) of the
    similarities. *)
Lemma checkForDuplicates_negative_counterexample :
  similarities [Sample.one32]
    (default [] (services.faceVectors Sample.alice_service !! "alice"%string))
    = [S754_finite true 4503599627370496 (-52)] /\
  services.checkForDuplicates Sample.alice_service "alice" [Sample.one32] = Ok F64.zero /\
  ~ (exists r, services.checkForDuplicates Sample.alice_service "alice" [Sample.one32] = Ok r /\
               is_maximum r
                 (similarities [Sample.one32]
                    (default [] (services.faceVectors Sample.alice_service !! "alice"%string)))).
Proof.
  assert (Hs : similarities [Sample.one32]
                 (default [] (services.faceVectors Sample.alice_service !! "alice"%string))
               = [S754_finite true 4503599627370496 (-52)]) by (vm_compute; reflexivity).
  assert (Hc : services.checkForDuplicates Sample.alice_service "alice" [Sample.one32]
               = Ok F64.zero) by (vm_compute; reflexivity).
  split; [exact Hs | split; [exact Hc |]].
  intros (r & Hr & Hin & _). rewrite Hc in Hr. injection Hr as <-.
  rewrite Hs in Hin. destruct Hin as [Hin|[]]. discriminate Hin.
Qed.

End Similarity.

(** ** Liveness detector *)

Section Liveness.

(** C5: on fewer than two frames (the empty sequence included)
    [detectLiveness] returns [isLive = false], [score = 0] and
    [confidence = 0] with a nil error. *)
Theorem detectLiveness_short (cfg : Config) (frames : list image.Image) :
  (length frames < 2)%nat ->
  services.detectLiveness cfg frames =
    Ok {| IsLive := false; LivenessConfidence := F64.zero; Score := F64.zero;
          Method := "motion_texture_analysis" |}.
Proof.
  intros Hlen. unfold services.detectLiveness.
  destruct (Nat.ltb_spec (length frames) 2) as [_|Hge]; [reflexivity | lia].
Qed.

Lemma detectLiveness_short_witness :
  (length (@nil image.Image) < 2)%nat /\
  services.detectLiveness Sample.cfg [] =
    Ok {| IsLive := false; LivenessConfidence := F64.zero; Score := F64.zero;
          Method := "motion_texture_analysis" |}.
Proof.
  assert (H : (length (@nil image.Image) < 2)%nat) by (simpl; lia).
  split; [exact H | exact (detectLiveness_short Sample.cfg [] H)].
Defined.

(** [detectLiveness] never returns an error. *)
Lemma detectLiveness_ok (cfg : Config) (frames : list image.Image) :
  exists r, services.detectLiveness cfg frames = Ok r.
Proof. unfold services.detectLiveness. destruct (length frames <? 2)%nat; eauto. Qed.

(** C6: on at least two frames the liveness score is
    [0.4 * motionScore + 0.4 * textureConsistency + 0.2 * colorConsistency]
    and [isLive] holds exactly when the score is at least the configured
    [LivenessThreshold]. *)
Theorem detectLiveness_score (cfg : Config) (frames : list image.Image) :
  (2 <= length frames)%nat ->
  exists r,
    services.detectLiveness cfg frames = Ok r /\
    Score r = (F64.c0_4 * services.calculateMotionScore frames
               + F64.c0_4 * services.calculateTextureConsistency frames
               + F64.c0_2 * services.calculateColorConsistency frames)%f64 /\
    (IsLive r = true <-> F64.geb (Score r) (LivenessThreshold cfg) = true).
Proof.
  intros Hlen. unfold services.detectLiveness.
  destruct (Nat.ltb_spec (length frames) 2) as [Hlt|_]; [lia|].
  eexists. split; [reflexivity|]. cbn [Score IsLive].
  rewrite (mul_comm F64.c0_4 (services.calculateMotionScore frames)),
          (mul_comm F64.c0_4 (services.calculateTextureConsistency frames)),
          (mul_comm F64.c0_2 (services.calculateColorConsistency frames)).
  split; [reflexivity | tauto].
Qed.

Lemma detectLiveness_score_witness :
  (2 <= length Sample.frames)%nat /\
  exists r,
    services.detectLiveness Sample.cfg Sample.frames = Ok r /\
    Score r = (F64.c0_4 * services.calculateMotionScore Sample.frames
               + F64.c0_4 * services.calculateTextureConsistency Sample.frames
               + F64.c0_2 * services.calculateColorConsistency Sample.frames)%f64 /\
    (IsLive r = true <-> F64.geb (Score r) (LivenessThreshold Sample.cfg) = true).
Proof.
  assert (H : (2 <= length Sample.frames)%nat) by (vm_compute; lia).
  split; [exact H | exact (detectLiveness_score Sample.cfg Sample.frames H)].
Defined.

End Liveness.

(** ** Frame source *)

Section FrameSource.
Context `{Backend}.

Lemma append_loop_length {A B} (f : B -> A) (l : list B) (init : list A) :
  length (fold_left (fun frames i => frames ++ [f i]) l init) = (length init + length l)%nat.
Proof.
  revert init. induction l as [|i l IH]; intros init; simpl; [lia|].
  rewrite IH, length_app. simpl. lia.
Qed.

Lemma append_loop_head {A B} (f : B -> A) (l : list B) (x : A) (init : list A) :
  exists rest, fold_left (fun frames i => frames ++ [f i]) l (x :: init) = x :: rest.
Proof.
  revert init. induction l as [|i l IH]; intros init; simpl; [eauto|]. apply IH.
Qed.

Lemma fold_left_preserves {A B C} (f : A -> B -> A) (P : A -> C) (l : list B) (a : A) :
  (forall a x, P (f a x) = P a) -> P (fold_left f l a) = P a.
Proof.
  intros Hf. revert a. induction l as [|x l IH]; intros a; simpl; [reflexivity|].
  rewrite IH. apply Hf.
Qed.

Lemma SetRGBA_rect (p : image.RGBA) (x y : Z) (c : Z * Z * Z * Z) :
  image.RGBA_Rect (image.SetRGBA p x y c) = image.RGBA_Rect p.
Proof.
  unfold image.SetRGBA. destruct (image.In x y (image.RGBA_Rect p)); [|reflexivity].
  destruct c as [[[r g] b] a]. reflexivity.
Qed.

(** The placeholder is a 640 by 480 picture. *)
Lemma placeholder_bounds :
  image.Bounds (image.of_RGBA (services.fill_gradient (image.NewRGBA (image.Rect 0 0 640 480))))
  = image.Rect 0 0 640 480.
Proof.
  unfold services.fill_gradient. cbn [image.of_RGBA image.Bounds].
  rewrite (fold_left_preserves _ image.RGBA_Rect); [reflexivity|].
  intros img y. apply (fold_left_preserves _ image.RGBA_Rect).
  intros img' x. apply SetRGBA_rect.
Qed.

(** Every input yields five frames, the first of which is the decoded (or
    synthesised) picture. *)
Lemma extractFramesFromVideo_frames (videoData : list Byte.byte) :
  exists rest,
    services.extractFramesFromVideo videoData
    = Ok (match image_Decode videoData with
          | Err _ =>
              image.of_RGBA (services.fill_gradient (image.NewRGBA (image.Rect 0 0 640 480)))
          | Ok (img, _) => img
          end :: rest) /\
    length rest = 4%nat.
Proof.
  unfold services.extractFramesFromVideo.
  set (img := match image_Decode videoData with
              | Ok (img, _) => img
              | Err _ => _
              end).
  destruct (append_loop_head (fun i => image.of_RGBA (services.frameCopy img i))
                             (count_up 1 5 1) img []) as [rest Hrest].
  exists rest. split.
  - f_equal. exact Hrest.
  - assert (Hlen : length (img :: rest) = 5%nat)
      by (rewrite <- Hrest, append_loop_length; reflexivity).
    simpl in Hlen. lia.
Qed.

End FrameSource.

(** ** Orchestrator *)

Section Orchestrator.
Context `{Backend}.

Ltac not_extraction_failure :=
  unfold frame_extraction_failure; cbn;
  let H := fresh in let e := fresh in
  intros [H|[H|[e H]]]; discriminate H.

(** The errors of the embedding generator are its own: none is the
    "no frames" error. *)
Lemma generateFaceVector_error (img : image.Image) (e : error) :
  services.generateFaceVector img = Err e -> e <> "no frames extracted"%string.
Proof.
  unfold services.generateFaceVector.
  destruct (RecognizeRGBA _ _ _ _) as [[|face faces]|e1]; cbn.
  - intros [= <-]. discriminate.
  - destruct (GetDescriptor _ _ _ _ _) as [d|e2]; cbn; [discriminate|].
    intros [= <-]. discriminate.
  - intros [= <-]. discriminate.
Qed.

(** C10: whatever the input bytes, [extractFramesFromVideo] returns five
    frames and a nil error (when the bytes do not decode, the first frame
    is the synthesised 640 by 480 placeholder), so that [VerifyVideo] never
    reports that no frames were extracted nor that frame extraction
    failed. *)
Theorem frame_extraction_never_fails :
  (forall videoData : list Byte.byte,
      exists frames, services.extractFramesFromVideo videoData = Ok frames /\
                     length frames = 5%nat) /\
  (forall (videoData : list Byte.byte) (e : error),
      image_Decode videoData = Err e ->
      exists frame0 rest,
        services.extractFramesFromVideo videoData = Ok (frame0 :: rest) /\
        image.Bounds frame0 = image.Rect 0 0 640 480) /\
  (forall rt s req, ~ frame_extraction_failure (services.VerifyVideo rt s req)).
Proof.
  split; [|split].
  - intros videoData.
    destruct (extractFramesFromVideo_frames videoData) as (rest & Hex & Hlen).
    eexists. split; [exact Hex|]. simpl. rewrite Hlen. reflexivity.
  - intros videoData e Hdec.
    destruct (extractFramesFromVideo_frames videoData) as (rest & Hex & _).
    rewrite Hdec in Hex. eexists _, rest. split; [exact Hex | exact placeholder_bounds].
  - intros rt s req. unfold services.VerifyVideo.
    destruct (frame_timeout rt); [not_extraction_failure|].
    destruct (extractFramesFromVideo_frames (VideoData req)) as (rest & -> & _).
    set (frame0 := match image_Decode (VideoData req) with Ok (img, _) => img | Err _ => _ end).
    destruct (merge_timeout rt); [not_extraction_failure|].
    destruct (detectLiveness_ok (services.config s) (frame0 :: rest)) as [l ->].
    destruct (services.generateFaceVector frame0) as [v|e] eqn:Hvec.
    2:{ apply generateFaceVector_error in Hvec.
        unfold frame_extraction_failure; cbn.
        intros [Hf|[Hf|[e' Hf]]]; [discriminate Hf | congruence | discriminate Hf]. }
    destruct (IsLive l); cbn [negb]; [|not_extraction_failure].
    destruct (String.eqb (UserID req) ""); cbn [negb]; [not_extraction_failure|].
    destruct (services.checkForDuplicates s (UserID req) v); not_extraction_failure.
Qed.

(** What [VerifyVideo] returns when no deadline fires, the liveness check
    passes and a face is found. *)
Lemma VerifyVideo_live (rt : Runtime) (s : services.FaceVerificationService)
      (req : VerificationRequest) (frame0 : image.Image) (rest : list image.Image)
      (liveness : LivenessResult) (faceVector : list spec_float) :
  frame_timeout rt = false -> merge_timeout rt = false ->
  services.extractFramesFromVideo (VideoData req) = Ok (frame0 :: rest) ->
  services.detectLiveness (services.config s) (frame0 :: rest) = Ok liveness ->
  IsLive liveness = true ->
  services.generateFaceVector frame0 = Ok faceVector ->
  exists r,
    services.VerifyVideo rt s req = (r, None) /\
    LivenessScore r = Score liveness /\
    if String.eqb (UserID req) "" then Verified r = true /\ Confidence r = F64.one
    else exists c, services.checkForDuplicates s (UserID req) faceVector = Ok c /\
                   Confidence r = c /\
                   Verified r = F64.geb c (SimilarityThreshold (services.config s)).
Proof.
  intros Hft Hmt Hex Hlive Hisl Hvec. unfold services.VerifyVideo.
  rewrite Hft, Hex, Hmt, Hlive, Hvec, Hisl. cbn [negb].
  destruct (String.eqb (UserID req) ""); cbn [negb].
  - eexists. split; [reflexivity|]. cbn. auto.
  - destruct (services.checkForDuplicates s (UserID req) faceVector) as [c|e] eqn:Hc.
    + eexists. split; [reflexivity|]. cbn. eauto.
    + unfold services.checkForDuplicates in Hc.
      destruct (services.faceVectors s !! UserID req) as [l|]; [|discriminate].
      destruct (length l =? 0)%nat; discriminate.
Qed.

Lemma checkForDuplicates_unenrolled (s : services.FaceVerificationService)
      (userID : string) (newVector : list spec_float) :
  default [] (services.faceVectors s !! userID) = [] ->
  services.checkForDuplicates s userID newVector = Ok F64.zero.
Proof.
  unfold services.checkForDuplicates.
  destruct (services.faceVectors s !! userID) as [l|]; cbn; [|reflexivity].
  intros ->. reflexivity.
Qed.

(** C1, what the code does: for a claimed identity without prior
    enrollments whose video passes the liveness check, [VerifyVideo]
    returns [confidence = 0.0] and [verified = (0.0 >= SimilarityThreshold)],
    hence [verified = false] under every positive threshold, whereas the
    same request without a claimed identity returns [verified = true] and
    [confidence = 1.0]. *)
Theorem VerifyVideo_unenrolled_identity
        (rt : Runtime) (s : services.FaceVerificationService)
        (req : VerificationRequest) (frame0 : image.Image) (rest : list image.Image)
        (liveness : LivenessResult) (faceVector : list spec_float) :
  frame_timeout rt = false -> merge_timeout rt = false ->
  services.extractFramesFromVideo (VideoData req) = Ok (frame0 :: rest) ->
  services.detectLiveness (services.config s) (frame0 :: rest) = Ok liveness ->
  IsLive liveness = true ->
  services.generateFaceVector frame0 = Ok faceVector ->
  String.eqb (UserID req) "" = false ->
  default [] (services.faceVectors s !! UserID req) = [] ->
  (exists r,
      services.VerifyVideo rt s req = (r, None) /\
      Confidence r = F64.zero /\
      Verified r = F64.geb F64.zero (SimilarityThreshold (services.config s)) /\
      (F64.ltb F64.zero (SimilarityThreshold (services.config s)) = true ->
       Verified r = false)) /\
  (exists r0,
      services.VerifyVideo rt s
        {| VideoData := VideoData req; UserID := ""; SessionID := SessionID req |}
      = (r0, None) /\
      Confidence r0 = F64.one /\ Verified r0 = true).
Proof.
  intros Hft Hmt Hex Hlive Hisl Hvec Hid Hnone. split.
  - destruct (VerifyVideo_live rt s req frame0 rest liveness faceVector
                               Hft Hmt Hex Hlive Hisl Hvec) as (r & Hrun & _ & Hr).
    rewrite Hid in Hr. destruct Hr as (c & Hc & Hconf & Hver).
    rewrite (checkForDuplicates_unenrolled s (UserID req) faceVector Hnone) in Hc.
    injection Hc as <-.
    exists r. repeat split; try assumption.
    intros Hpos. rewrite Hver. unfold F64.geb.
    exact (ltb_leb_false _ _ Hpos).
  - destruct (VerifyVideo_live rt s
                {| VideoData := VideoData req; UserID := ""; SessionID := SessionID req |}
                frame0 rest liveness faceVector Hft Hmt Hex Hlive Hisl Hvec)
      as (r0 & Hrun & _ & Hr).
    cbn in Hr. exists r0. tauto.
Qed.

Lemma VerifyVideo_unverified (rt : Runtime) (s : services.FaceVerificationService)
      (req : VerificationRequest) (r : VerificationResult) :
  services.VerifyVideo rt s req = (r, None) ->
  String.eqb (UserID req) "" = false ->
  default [] (services.faceVectors s !! UserID req) = [] ->
  F64.ltb F64.zero (SimilarityThreshold (services.config s)) = true ->
  Verified r = false.
Proof.
  intros Hrun Hid Hnone Hpos. unfold services.VerifyVideo in Hrun.
  destruct (frame_timeout rt); [discriminate|].
  destruct (services.extractFramesFromVideo (VideoData req)) as [[|frame0 rest]|e];
    try discriminate.
  destruct (merge_timeout rt); [discriminate|].
  destruct (services.detectLiveness _ _) as [l|e]; [|discriminate].
  destruct (services.generateFaceVector frame0) as [v|e]; [|discriminate].
  destruct (IsLive l); cbn [negb] in Hrun; [|injection Hrun as <-; reflexivity].
  rewrite Hid in Hrun. cbn [negb] in Hrun.
  rewrite (checkForDuplicates_unenrolled s (UserID req) v Hnone) in Hrun.
  injection Hrun as <-. cbn. unfold F64.geb. exact (ltb_leb_false _ _ Hpos).
Qed.

End Orchestrator.

(** ** Registration *)

Section Registration.
Context `{Backend} `{Crypto}.

(** C2, what the code does: under every positive [SimilarityThreshold]
    (the default is 0.75) [RegisterFace] on an identity without prior
    enrollments returns an error and leaves the store as it was, whatever
    the video. *)
Theorem RegisterFace_unenrolled_fails
        (rt : Runtime) (s : services.FaceVerificationService)
        (userID : string) (videoData : list Byte.byte) :
  String.eqb userID "" = false ->
  default [] (services.faceVectors s !! userID) = [] ->
  F64.ltb F64.zero (SimilarityThreshold (services.config s)) = true ->
  exists err, services.RegisterFace rt s userID videoData = (s, Some err).
Proof.
  intros Hid Hnone Hpos. unfold services.RegisterFace.
  destruct (services.VerifyVideo rt s _) as [r [e|]] eqn:Hrun; [eauto|].
  rewrite (VerifyVideo_unverified rt s _ r Hrun Hid Hnone Hpos). cbn [negb]. eauto.
Qed.

Lemma saveFaceVectors_state (rt : Runtime) (s s' : services.FaceVerificationService) :
  services.saveFaceVectors rt s = (s', None) ->
  services.config s' = services.config s /\
  services.faceVectors s' = services.faceVectors s.
Proof.
  unfold services.saveFaceVectors.
  destruct (json_Marshal _) as [data|e]; [|discriminate].
  destruct (services.encryptData _ _ _) as [enc|e]; [|discriminate].
  destruct (write_ok rt); [|discriminate].
  intros [= <-]. split; reflexivity.
Qed.

Lemma checkForDuplicates_fold (s : services.FaceVerificationService) (userID : string)
      (v : list spec_float) :
  services.checkForDuplicates s userID v
  = Ok (fold_left (services.max_step v) (default [] (services.faceVectors s !! userID))
                  F64.zero).
Proof.
  unfold services.checkForDuplicates.
  destruct (services.faceVectors s !! userID) as [[|fv l]|]; reflexivity.
Qed.

(** X22: whatever [VerifyVideo] returns, the confidence is one of [0.0],
    [1.0] and the clamped maximum of the matcher, hence never negative and
    never NaN. *)
Lemma VerifyVideo_confidence_nonneg (rt : Runtime) (s : services.FaceVerificationService)
      (req : VerificationRequest) :
  F64.leb F64.zero (Confidence (fst (services.VerifyVideo rt s req))) = true.
Proof.
  unfold services.VerifyVideo.
  destruct (frame_timeout rt); [reflexivity|].
  destruct (services.extractFramesFromVideo (VideoData req)) as [[|frame0 rest]|e];
    try reflexivity.
  destruct (merge_timeout rt); [reflexivity|].
  destruct (services.detectLiveness _ _) as [l|e]; [|reflexivity].
  destruct (services.generateFaceVector frame0) as [v|e]; [|reflexivity].
  destruct (IsLive l); cbn [negb]; [|reflexivity].
  destruct (String.eqb (UserID req) ""); cbn [negb]; [reflexivity|].
  rewrite checkForDuplicates_fold. cbn [fst Confidence services.with_outcome].
  apply (max_fold v _ F64.zero eq_refl).
Qed.

Lemma VerifyVideo_verified_inv (rt : Runtime) (s : services.FaceVerificationService)
      (req : VerificationRequest) (r : VerificationResult) :
  services.VerifyVideo rt s req = (r, None) ->
  Verified r = true ->
  String.eqb (UserID req) "" = false ->
  exists frame0 rest l v c,
    services.extractFramesFromVideo (VideoData req) = Ok (frame0 :: rest) /\
    services.detectLiveness (services.config s) (frame0 :: rest) = Ok l /\
    IsLive l = true /\
    services.generateFaceVector frame0 = Ok v /\
    services.checkForDuplicates s (UserID req) v = Ok c /\
    F64.geb c (SimilarityThreshold (services.config s)) = true.
Proof.
  intros Hrun Hver Hid. unfold services.VerifyVideo in Hrun.
  destruct (frame_timeout rt); [discriminate|].
  destruct (services.extractFramesFromVideo (VideoData req)) as [[|frame0 rest]|e];
    try discriminate.
  destruct (merge_timeout rt); [discriminate|].
  destruct (services.detectLiveness _ _) as [l|e] eqn:Hl; [|discriminate].
  destruct (services.generateFaceVector frame0) as [v|e] eqn:Hv; [|discriminate].
  destruct (IsLive l) eqn:Hisl; cbn [negb] in Hrun;
    [|injection Hrun as <-; discriminate Hver].
  rewrite Hid in Hrun. cbn [negb] in Hrun.
  destruct (services.checkForDuplicates s (UserID req) v) as [c|e] eqn:Hc;
    injection Hrun as <-; [|discriminate Hver].
  exists frame0, rest, l, v, c. cbn in Hver. repeat split; auto.
Qed.

(** X23: the round trip of registration and verification: after a
    successful [RegisterFace(id, video)], [VerifyVideo] on the same
    identity and video (with no deadline firing) returns [verified = true]
    with a confidence at least the threshold.  The new enrollment can only
    raise the maximum the matcher reports. *)
Lemma RegisterFace_then_VerifyVideo
      (rt rt' : Runtime) (s s' : services.FaceVerificationService)
      (userID sessionID : string) (videoData : list Byte.byte) :
  String.eqb userID "" = false ->
  services.RegisterFace rt s userID videoData = (s', None) ->
  frame_timeout rt' = false -> merge_timeout rt' = false ->
  exists r,
    services.VerifyVideo rt' s'
      {| VideoData := videoData; UserID := userID; SessionID := sessionID |} = (r, None) /\
    Verified r = true /\
    F64.geb (Confidence r) (SimilarityThreshold (services.config s')) = true.
Proof.
  intros Hid Hreg Hft Hmt. unfold services.RegisterFace in Hreg.
  destruct (services.VerifyVideo rt s _) as [r0 [e|]] eqn:Hrun; [discriminate|].
  destruct (Verified r0) eqn:Hver; cbn [negb] in Hreg; [|discriminate].
  destruct (VerifyVideo_verified_inv rt s _ r0 Hrun Hver Hid)
    as (frame0 & rest & l & v & c & Hex & Hl & Hisl & Hv & Hc & Hge).
  cbn [VideoData UserID] in *. rewrite Hex, Hv in Hreg.
  apply saveFaceVectors_state in Hreg. cbn in Hreg. destruct Hreg as [Hcfg Hstore].
  rewrite <- Hcfg in Hl.
  destruct (VerifyVideo_live rt' s'
              {| VideoData := videoData; UserID := userID; SessionID := sessionID |}
              frame0 rest l v Hft Hmt Hex Hl Hisl Hv) as (r & Hrun' & _ & Hr).
  cbn [UserID] in Hr. rewrite Hid in Hr. destruct Hr as (c' & Hc' & Hconf & Hver').
  exists r. split; [exact Hrun'|]. rewrite Hver', Hconf, Hcfg.
  assert (Hle : F64.leb c c' = true).
  { rewrite checkForDuplicates_fold in Hc, Hc'. injection Hc as <-. injection Hc' as <-.
    rewrite Hstore, lookup_insert_eq. cbn [default from_option id].
    rewrite fold_left_app. cbn [fold_left].
    apply max_step_cases.
    unfold F64.geb in Hge. apply leb_not_nan in Hge. tauto. }
  unfold F64.geb in *.
  assert (F64.leb (SimilarityThreshold (services.config s)) c' = true)
    by (eapply leb_trans; eassumption).
  tauto.
Qed.

End Registration.

(** ** Vector store *)

Section VectorStore.
Context `{Crypto}.

Lemma newGCM_ok (cfg : Config) : exists gcm, services.newGCM cfg = Ok gcm.
Proof.
  unfold services.newGCM, services.deriveKey.
  destruct (scrypt_Key_ok (String.list_byte_of_string (EncryptionKey cfg)) services.salt)
    as (key & -> & Hlen).
  destruct (aes_NewCipher_ok key Hlen) as (block & ->).
  apply cipher_NewGCM_ok.
Qed.

(** C7: for every plaintext and every configured secret, as soon as the
    random source delivers a nonce, [encryptData] returns the nonce
    followed by the sealed data, and [decryptData] of that, with the key
    derived from the same secret, returns exactly the original bytes. *)
Theorem encrypt_decrypt_roundtrip (rt : Runtime) (cfg : Config) (data : list Byte.byte) :
  (forall gcm, NonceSize gcm <= length (entropy rt))%nat ->
  exists gcm nonce,
    services.newGCM cfg = Ok gcm /\
    length nonce = NonceSize gcm /\
    services.encryptData rt cfg data = Ok (nonce ++ seal gcm nonce data []) /\
    services.decryptData cfg (nonce ++ seal gcm nonce data []) = Ok data.
Proof.
  intros Hrand. destruct (newGCM_ok cfg) as (gcm & Hgcm). specialize (Hrand gcm).
  exists gcm, (take (NonceSize gcm) (entropy rt)).
  assert (Hlen : length (take (NonceSize gcm) (entropy rt)) = NonceSize gcm)
    by (rewrite length_take; lia).
  split; [exact Hgcm|]. split; [exact Hlen|]. split.
  - unfold services.encryptData, ReadFull. rewrite Hgcm.
    destruct (Nat.ltb_spec (length (entropy rt)) (NonceSize gcm)) as [Hlt|_]; [lia|].
    reflexivity.
  - unfold services.decryptData. rewrite Hgcm.
    set (nonce := take (NonceSize gcm) (entropy rt)) in *.
    destruct (Nat.ltb_spec (length (nonce ++ seal gcm nonce data [])) (NonceSize gcm))
      as [Hlt|_]; [rewrite length_app in Hlt; lia|].
    rewrite <- Hlen, take_app_length, drop_app_length.
    unfold Open. rewrite open_seal by exact Hlen. reflexivity.
Qed.

End VectorStore.

(** The stand-in cipher of the sample backend satisfies the contract. *)
Lemma toy_open_seal (nonce plaintext : list Byte.byte) :
  Sample.toy_open nonce (Sample.toy_seal nonce plaintext) = Ok plaintext.
Proof.
  unfold Sample.toy_open, Sample.toy_seal.
  assert (Htag : length (Sample.tag nonce) = 16%nat).
  { unfold Sample.tag. rewrite length_take, length_app, length_replicate. lia. }
  rewrite length_app, Htag, length_rev.
  replace (length plaintext + 16 - 16)%nat with (length (rev plaintext))
    by (rewrite length_rev; lia).
  rewrite take_app_length, drop_app_length, rev_involutive.
  destruct (Nat.ltb_spec (length plaintext + 16) 16) as [Hlt|_]; [lia|].
  destruct (List.list_eq_dec Byte.byte_eq_dec (Sample.tag nonce) (Sample.tag nonce));
    [reflexivity | congruence].
Qed.

Lemma toy_key_ok (password salt : list Byte.byte) :
  exists key, Ok (Sample.toy_key password salt 32) = Ok key /\ length key = 32%nat.
Proof.
  eexists. split; [reflexivity|]. unfold Sample.toy_key.
  rewrite length_take, !length_app, length_replicate. lia.
Qed.

Lemma toy_cipher_ok (key : list Byte.byte) :
  length key = 32%nat -> exists block, Sample.toy_cipher key = Ok block.
Proof. intros Hlen. unfold Sample.toy_cipher. rewrite Hlen. cbn. eauto. Qed.

#[export] Instance toy_crypto : Crypto := {|
  scrypt_Key := fun password salt _ _ _ keyLen => Ok (Sample.toy_key password salt keyLen);
  Block := list Byte.byte;
  aes_NewCipher := Sample.toy_cipher;
  AEAD := list Byte.byte;
  cipher_NewGCM := fun block => Ok block;
  NonceSize := fun _ => 12%nat;
  seal := fun _ nonce plaintext _ => Sample.toy_seal nonce plaintext;
  open := fun _ nonce ciphertext _ => Sample.toy_open nonce ciphertext;
  scrypt_Key_ok := toy_key_ok;
  aes_NewCipher_ok := toy_cipher_ok;
  cipher_NewGCM_ok := fun block => ex_intro _ block eq_refl;
  open_seal := fun _ nonce plaintext _ _ => toy_open_seal nonce plaintext
|}.

Lemma encrypt_decrypt_roundtrip_witness :
  let data := String.list_byte_of_string "face vectors of alice" in
  (forall gcm : AEAD, NonceSize gcm <= length (entropy Sample.rt))%nat /\
  exists gcm nonce,
    services.newGCM Sample.cfg = Ok gcm /\
    length nonce = NonceSize gcm /\
    services.encryptData Sample.rt Sample.cfg data = Ok (nonce ++ seal gcm nonce data []) /\
    services.decryptData Sample.cfg (nonce ++ seal gcm nonce data []) = Ok data.
Proof.
  intros data.
  assert (H1 : (forall gcm : AEAD, NonceSize gcm <= length (entropy Sample.rt))%nat)
    by (intros gcm; vm_compute; lia).
  split; [exact H1|].
  exact (encrypt_decrypt_roundtrip Sample.rt Sample.cfg data H1).
Defined.

(** ** The sample run of the service *)

Section SampleRun.
#[local] Existing Instance Sample.backend.

Lemma VerifyVideo_unenrolled_identity_witness :
  let req := Sample.request "test-user-123" in
  let s := Sample.empty_service in
  frame_timeout Sample.rt = false /\ merge_timeout Sample.rt = false /\
  services.extractFramesFromVideo (VideoData req) = Ok (Sample.frame0 :: tl Sample.frames) /\
  services.detectLiveness (services.config s) (Sample.frame0 :: tl Sample.frames)
    = Ok Sample.liveness /\
  IsLive Sample.liveness = true /\
  services.generateFaceVector Sample.frame0 = Ok Sample.descriptor /\
  String.eqb (UserID req) "" = false /\
  default [] (services.faceVectors s !! UserID req) = [] /\
  (exists r,
    services.VerifyVideo Sample.rt s req = (r, None) /\
    Confidence r = F64.zero /\
    Verified r = F64.geb F64.zero (SimilarityThreshold (services.config s)) /\
    (F64.ltb F64.zero (SimilarityThreshold (services.config s)) = true ->
     Verified r = false)) /\
  (exists r0,
    services.VerifyVideo Sample.rt s
      {| VideoData := VideoData req; UserID := ""; SessionID := SessionID req |}
    = (r0, None) /\
    Confidence r0 = F64.one /\ Verified r0 = true).
Proof.
  intros req s.
  assert (H1 : frame_timeout Sample.rt = false) by reflexivity.
  assert (H2 : merge_timeout Sample.rt = false) by reflexivity.
  assert (H3 : services.extractFramesFromVideo (VideoData req)
               = Ok (Sample.frame0 :: tl Sample.frames)) by (vm_compute; reflexivity).
  assert (H4 : services.detectLiveness (services.config s) (Sample.frame0 :: tl Sample.frames)
               = Ok Sample.liveness) by (vm_compute; reflexivity).
  assert (H5 : IsLive Sample.liveness = true) by (vm_compute; reflexivity).
  assert (H6 : services.generateFaceVector Sample.frame0 = Ok Sample.descriptor)
    by (vm_compute; reflexivity).
  assert (H7 : String.eqb (UserID req) "" = false) by reflexivity.
  assert (H8 : default [] (services.faceVectors s !! UserID req) = [])
    by (vm_compute; reflexivity).
  repeat (split; [assumption|]).
  exact (VerifyVideo_unenrolled_identity Sample.rt s req Sample.frame0 (tl Sample.frames)
           Sample.liveness Sample.descriptor H1 H2 H3 H4 H5 H6 H7 H8).
Defined.

Lemma RegisterFace_unenrolled_fails_witness :
  String.eqb "test-user-register" "" = false /\
  default [] (services.faceVectors Sample.empty_service !! "test-user-register"%string) = [] /\
  F64.ltb F64.zero (SimilarityThreshold (services.config Sample.empty_service)) = true /\
  exists err,
    services.RegisterFace Sample.rt Sample.empty_service "test-user-register" Sample.video
    = (Sample.empty_service, Some err).
Proof.
  assert (H1 : String.eqb "test-user-register" "" = false) by reflexivity.
  assert (H2 : default [] (services.faceVectors Sample.empty_service
                             !! "test-user-register"%string) = [])
    by (vm_compute; reflexivity).
  assert (H3 : F64.ltb F64.zero (SimilarityThreshold (services.config Sample.empty_service))
               = true) by (vm_compute; reflexivity).
  split; [exact H1 | split; [exact H2 | split; [exact H3 |]]].
  exact (RegisterFace_unenrolled_fails Sample.rt Sample.empty_service
           "test-user-register" Sample.video H1 H2 H3).
Defined.

(** C9, what the code does: for an identity enrolled with the very
    descriptor the recogniser returns, the cosine similarity is computed
    as [3 / (sqrt 3 * sqrt 3)], which rounds to [1 + 2^-52]; the matcher
    clamps from below only, and [VerifyVideo] returns, with a nil error,
    a confidence greater than 1.  The enrollment may come from the store
    file or, under a zero threshold, from [RegisterFace] with the same
    video. *)
Theorem VerifyVideo_confidence_above_one :
  let req := Sample.request "test-user-123" in
  let out := services.VerifyVideo Sample.rt Sample.enrolled_service req in
  let registered :=
    services.RegisterFace Sample.rt Sample.permissive_service "test-user-123" Sample.video in
  let out' := services.VerifyVideo Sample.rt (fst registered) req in
  (snd out = None /\
   Verified (fst out) = true /\
   Confidence (fst out) = S754_finite false 4503599627370497 (-52) /\
   F64.ltb F64.one (Confidence (fst out)) = true /\
   F64.leb (Confidence (fst out)) F64.one = false) /\
  (snd registered = None /\
   snd out' = None /\
   Confidence (fst out') = S754_finite false 4503599627370497 (-52) /\
   F64.leb (Confidence (fst out')) F64.one = false).
Proof. vm_compute. repeat split; reflexivity. Qed.

End SampleRun.

(** ** API gateway *)

Section Gateway.

Lemma validTypes_spec (contentType : string) :
  existsb (String.eqb contentType) handlers.validTypes = true
  <-> List.In contentType handlers.validTypes.
Proof.
  rewrite existsb_exists. split.
  - intros (t & Hin & Heq). apply String.eqb_eq in Heq. subst. exact Hin.
  - intros Hin. exists contentType. split; [exact Hin | apply String.eqb_refl].
Qed.

(** C8, as amended: [validateVideoFile] accepts a file exactly when its
    size is between 1KB (1024 bytes) and 50MB (52428800 bytes), both
    bounds included, and its content type is in the allow-list; a payload
    of 50MB+1 bytes, or smaller than 1KB, is rejected, and the handler
    answers a rejected file with 400 [INVALID_VIDEO_FILE] before the file
    is read or the service is called. *)
Theorem validateVideoFile_accepts (file : handlers.FileHeader) :
  (handlers.validateVideoFile file = None <->
     1024 <= handlers.Size file <= 52428800 /\
     List.In (handlers.ContentType file) handlers.validTypes) /\
  (handlers.Size file = 52428801 \/ handlers.Size file < 1024 ->
     handlers.validateVideoFile file <> None) /\
  (forall faceService uuid timeout form rest err,
      handlers.File form !! "video"%string = Some (file :: rest) ->
      handlers.validateVideoFile file = Some err ->
      handlers.VerifyVideo faceService uuid timeout (Ok form)
      = (handlers.bad_request err "INVALID_VIDEO_FILE", [])).
Proof.
  assert (Hiff : handlers.validateVideoFile file = None <->
                 1024 <= handlers.Size file <= 52428800 /\
                 List.In (handlers.ContentType file) handlers.validTypes).
  { unfold handlers.validateVideoFile. rewrite <- validTypes_spec.
    change (50 * 1024 * 1024) with 52428800.
    destruct (Z.ltb_spec 52428800 (handlers.Size file));
      [split; [discriminate | lia]|].
    destruct (Z.ltb_spec (handlers.Size file) 1024);
      [split; [discriminate | lia]|].
    destruct (existsb _ _); split; try discriminate; intuition (try lia; congruence). }
  split; [exact Hiff|]. split.
  - intros Hsize Hnone. apply Hiff in Hnone. lia.
  - intros faceService uuid timeout form rest err Hfile Hval.
    unfold handlers.VerifyVideo. rewrite Hfile. cbn [default from_option id].
    rewrite Hval. reflexivity.
Qed.

(** C8, as stated, fails: a file of exactly 1024 bytes, and one of
    exactly 52428800 bytes, with an allowed content type are accepted,
    though their sizes are not strictly between the two bounds. *)
Lemma validateVideoFile_boundary_counterexample :
  handlers.validateVideoFile (Sample.upload 1024) = None /\
  ~ (1024 < handlers.Size (Sample.upload 1024) < 52428800) /\
  handlers.validateVideoFile (Sample.upload 52428800) = None /\
  ~ (1024 < handlers.Size (Sample.upload 52428800) < 52428800).
Proof. repeat split; try reflexivity; cbn; lia. Qed.

End Gateway.

(** * Further properties of the code *)

From Stdlib Require Import Strings.Ascii.

(** ** Identifiers at the gateway *)

Section Identifiers.

Lemma valid_id_char_alphabet (c : Ascii.ascii) :
  handlers.valid_id_char c = existsb (Ascii.eqb c) id_alphabet.
Proof. destruct c as [[] [] [] [] [] [] [] []]; reflexivity. Qed.

Lemma alnum_char_alphabet (c : Ascii.ascii) :
  handlers.alnum_char c = existsb (Ascii.eqb c) alnum_alphabet.
Proof. destruct c as [[] [] [] [] [] [] [] []]; reflexivity. Qed.

Lemma existsb_eqb_In (c : Ascii.ascii) (l : list Ascii.ascii) :
  existsb (Ascii.eqb c) l = true <-> List.In c l.
Proof.
  rewrite existsb_exists. split.
  - intros (x & Hin & Heq). apply Ascii.eqb_eq in Heq. subst. exact Hin.
  - intros Hin. exists c. split; [exact Hin | apply Ascii.eqb_refl].
Qed.

Lemma forallb_alphabet (f : Ascii.ascii -> bool) (alphabet l : list Ascii.ascii) :
  (forall c, f c = existsb (Ascii.eqb c) alphabet) ->
  forallb f l = true <-> Forall (fun c => List.In c alphabet) l.
Proof.
  intros Hf. rewrite forallb_forall, Forall_forall. split; intros Hall c Hin.
  - apply existsb_eqb_In. rewrite <- Hf. apply Hall. rewrite <- list_elem_of_In. exact Hin.
  - rewrite Hf. apply existsb_eqb_In. apply Hall. rewrite list_elem_of_In. exact Hin.
Qed.

(** X1: [isValidUserID] accepts exactly the strings of 1 to 64 characters
    drawn from the letters, the digits, the hyphen and the underscore. *)
Theorem isValidUserID_spec (userID : string) :
  handlers.isValidUserID userID = true <->
  (1 <= String.length userID <= 64)%nat /\
  Forall (fun c => List.In c id_alphabet) (String.list_ascii_of_string userID).
Proof.
  unfold handlers.isValidUserID.
  rewrite <- (forallb_alphabet handlers.valid_id_char id_alphabet _ valid_id_char_alphabet).
  destruct (Nat.ltb_spec (String.length userID) 1);
    destruct (Nat.ltb_spec 64 (String.length userID)); cbn [orb];
    split; try discriminate; try (intros [Hlen _]; lia); intuition lia.
Qed.

Lemma substring_all (s : string) : String.substring 0 (String.length s) s = s.
Proof. induction s as [|c s IH]; simpl; [reflexivity | rewrite IH; reflexivity]. Qed.

Lemma suffix4_append (suffix : string) :
  handlers.suffix4 ("ver_" +:+ suffix) = suffix.
Proof.
  change ("ver_" +:+ suffix)%string
    with (String "v"%char (String "e"%char (String "r"%char (String "_"%char suffix)))).
  unfold handlers.suffix4. simpl. rewrite Nat.sub_0_r. apply substring_all.
Qed.

Lemma prefix_ver (s : string) :
  (String.length s <? 4)%nat || negb (String.prefix "ver_" s) = false <->
  exists suffix, s = ("ver_" +:+ suffix)%string.
Proof.
  split.
  - intros H. apply orb_false_iff in H as [_ Hp]. apply negb_false_iff in Hp.
    apply String.prefix_correct in Hp.
    destruct s as [|a [|b [|c [|d rest]]]]; try discriminate Hp.
    simpl in Hp. injection Hp as -> -> -> -> _.
    exists rest. reflexivity.
  - intros [suffix ->].
    change ("ver_" +:+ suffix)%string
      with (String "v"%char (String "e"%char (String "r"%char (String "_"%char suffix)))).
    destruct suffix; reflexivity.
Qed.

(** X2: [isValidVerificationID] accepts exactly the strings [ver_] followed
    by 10 to 30 letters or digits. *)
Theorem isValidVerificationID_spec (verificationID : string) :
  handlers.isValidVerificationID verificationID = true <->
  exists suffix,
    verificationID = ("ver_" +:+ suffix)%string /\
    (10 <= String.length suffix <= 30)%nat /\
    Forall (fun c => List.In c alnum_alphabet) (String.list_ascii_of_string suffix).
Proof.
  unfold handlers.isValidVerificationID.
  destruct ((String.length verificationID <? 4)%nat
            || negb (String.prefix "ver_" verificationID)) eqn:Hp.
  - split; [discriminate|]. intros (suffix & Heq & _).
    assert (Hf : (String.length verificationID <? 4)%nat
                 || negb (String.prefix "ver_" verificationID) = false)
      by (apply prefix_ver; eauto).
    congruence.
  - apply prefix_ver in Hp as [suffix ->]. rewrite suffix4_append.
    pose proof (forallb_alphabet handlers.alnum_char alnum_alphabet
                  (String.list_ascii_of_string suffix) alnum_char_alphabet) as Hchars.
    split.
    + intros H. exists suffix. split; [reflexivity|].
      destruct (Nat.ltb_spec (String.length suffix) 10);
        destruct (Nat.ltb_spec 30 (String.length suffix)); cbn [orb] in H;
        try discriminate. split; [lia | apply Hchars; exact H].
    + intros (suffix' & Heq & Hlen & Hall).
      assert (suffix' = suffix) as ->.
      { change (String "v"%char (String "e"%char (String "r"%char (String "_"%char suffix)))
                = String "v"%char (String "e"%char (String "r"%char (String "_"%char suffix')))) in Heq.
        congruence. }
      destruct (Nat.ltb_spec (String.length suffix) 10);
        destruct (Nat.ltb_spec 30 (String.length suffix)); cbn [orb]; try lia.
      apply Hchars; exact Hall.
Qed.

End Identifiers.

(** ** Verification identifiers *)

Section VerificationIds.
Context `{Backend}.

(** The identifier, the identity and the time stamp of a result are set
    before any stage runs and never changed. *)
Lemma VerifyVideo_header (rt : Runtime) (s : services.FaceVerificationService)
      (req : VerificationRequest) :
  VerificationID (fst (services.VerifyVideo rt s req)) = ("ver_" +:+ pretty (now rt))%string /\
  ResultUserID (fst (services.VerifyVideo rt s req)) = UserID req /\
  Timestamp (fst (services.VerifyVideo rt s req)) = now rt.
Proof.
  unfold services.VerifyVideo.
  destruct (frame_timeout rt); [repeat split|].
  destruct (services.extractFramesFromVideo (VideoData req)) as [[|frame0 rest]|e];
    try (repeat split; fail).
  destruct (merge_timeout rt); [repeat split|].
  destruct (services.detectLiveness _ _) as [l|e]; [|repeat split].
  destruct (services.generateFaceVector frame0) as [v|e]; [|repeat split].
  destruct (IsLive l); cbn [negb]; [|repeat split].
  destruct (String.eqb (UserID req) ""); cbn [negb]; [repeat split|].
  destruct (services.checkForDuplicates s (UserID req) v); repeat split.
Qed.

Lemma pretty_N_char_alnum (x : N) : handlers.alnum_char (pretty_N_char x) = true.
Proof. unfold pretty_N_char. repeat case_match; reflexivity. Qed.

Lemma pretty_N_go_alnum (x : N) (s : string) :
  forallb handlers.alnum_char (String.list_ascii_of_string s) = true ->
  forallb handlers.alnum_char (String.list_ascii_of_string (pretty_N_go x s)) = true.
Proof.
  revert s. induction (N.lt_wf_0 x) as [x _ IH]; intros s Hs.
  destruct (N.eq_dec x 0%N) as [->|Hx]; [rewrite pretty_N_go_0; exact Hs|].
  rewrite pretty_N_go_step by lia. apply IH.
  - apply N.div_lt; lia.
  - cbn [String.list_ascii_of_string forallb]. rewrite pretty_N_char_alnum. exact Hs.
Qed.

(** The number of characters [pretty_N_go] adds is the number of decimal
    digits. *)
Lemma pretty_N_go_length (x : N) (s : string) :
  exists k : nat,
    String.length (pretty_N_go x s) = (k + String.length s)%nat /\
    ((x = 0%N /\ k = 0%nat) \/
     ((1 <= k)%nat /\ (10 ^ N.of_nat (k - 1) <= x < 10 ^ N.of_nat k)%N)).
Proof.
  revert s. induction (N.lt_wf_0 x) as [x _ IH]; intros s.
  destruct (N.eq_dec x 0%N) as [->|Hx].
  { exists 0%nat. rewrite pretty_N_go_0. split; [reflexivity | left; split; reflexivity]. }
  rewrite pretty_N_go_step by lia.
  destruct (IH (x / 10)%N) with (s := String (pretty_N_char (x mod 10)%N) s)
    as (k & Hlen & Hk); [apply N.div_lt; lia|].
  exists (S k). split; [rewrite Hlen; cbn [String.length]; lia|].
  right. split; [lia|].
  pose proof (N.div_mod x 10%N ltac:(lia)) as Hdm.
  pose proof (N.mod_lt x 10%N ltac:(lia)) as Hmod.
  replace (S k - 1)%nat with k by lia.
  rewrite Nat2N.inj_succ, N.pow_succ_r'.
  clear Hlen IH. revert Hk Hdm Hmod.
  generalize (x / 10)%N (x mod 10)%N. intros q r Hk Hdm Hmod.
  destruct Hk as [[Hq ->]|[Hk1 [Hlo Hhi]]].
  - cbn. lia.
  - replace (N.of_nat k) with (N.succ (N.of_nat (k - 1))) in * by lia.
    rewrite N.pow_succ_r' in *.
    revert Hlo Hhi. generalize (10 ^ N.of_nat (k - 1))%N. intros A Hlo Hhi. lia.
Qed.

Lemma pow10_bounds (k : nat) (x : N) :
  (1 <= k)%nat -> (10 ^ N.of_nat (k - 1) <= x < 10 ^ N.of_nat k)%N ->
  ((10 <= k <= 30)%nat <-> (10 ^ 9 <= x < 10 ^ 30)%N).
Proof.
  intros Hk [Hlo Hhi]. split.
  - intros [H10 H30]. split.
    + eapply N.le_trans; [|exact Hlo]. apply N.pow_le_mono_r; lia.
    + eapply N.lt_le_trans; [exact Hhi|]. apply N.pow_le_mono_r; lia.
  - intros [H9 H30]. split.
    + destruct (Nat.le_gt_cases 10 k) as [|Hlt]; [assumption|exfalso].
      assert (10 ^ N.of_nat k <= 10 ^ 9)%N by (apply N.pow_le_mono_r; lia). lia.
    + destruct (Nat.le_gt_cases k 30) as [|Hgt]; [assumption|exfalso].
      assert (10 ^ 30 <= 10 ^ N.of_nat (k - 1))%N by (apply N.pow_le_mono_r; lia). lia.
Qed.

Lemma valid_ver_suffix (suffix : string) :
  handlers.isValidVerificationID ("ver_" +:+ suffix) =
  if (String.length suffix <? 10)%nat || (30 <? String.length suffix)%nat then false
  else forallb handlers.alnum_char (String.list_ascii_of_string suffix).
Proof.
  unfold handlers.isValidVerificationID.
  assert (Hp : (String.length ("ver_" +:+ suffix) <? 4)%nat
               || negb (String.prefix "ver_" ("ver_" +:+ suffix)) = false)
    by (apply prefix_ver; eauto).
  rewrite Hp, suffix4_append. reflexivity.
Qed.

(** The validator on [ver_] followed by a number in decimal. *)
Lemma clock_id_valid (n : Z) :
  handlers.isValidVerificationID ("ver_" +:+ pretty n) = true <-> 10 ^ 9 <= n < 10 ^ 30.
Proof.
  rewrite valid_ver_suffix.
  destruct n as [|p|p].
  - split; [discriminate | lia].
  - change (pretty (Z.pos p)) with (pretty_N_go (N.pos p) "").
    destruct (pretty_N_go_length (N.pos p) "") as (k & Hlen & [[Hz _]|[Hk Hb]]);
      [discriminate|].
    rewrite Hlen, Nat.add_0_r, (pretty_N_go_alnum (N.pos p) "" eq_refl).
    pose proof (pow10_bounds k (N.pos p) Hk Hb) as Hiff.
    assert (Hz : (10 ^ 9 <= N.pos p < 10 ^ 30)%N <-> 10 ^ 9 <= Z.pos p < 10 ^ 30).
    { change (10 ^ 9)%N with (Z.to_N (10 ^ 9)). change (10 ^ 30)%N with (Z.to_N (10 ^ 30)).
      lia. }
    rewrite <- Hz, <- Hiff.
    destruct (Nat.ltb_spec k 10); destruct (Nat.ltb_spec 30 k); cbn [orb];
      split; try discriminate; try lia; reflexivity.
  - change (pretty (Z.neg p)) with ("-" +:+ pretty_N_go (N.pos p) "")%string.
    split; [|lia].
    destruct (_ || _); [discriminate|].
    change ("-" +:+ pretty_N_go (N.pos p) "")%string
      with (String "-"%char (pretty_N_go (N.pos p) "")).
    cbn. discriminate.
Qed.

(** X3: the identifier [VerifyVideo] issues, [ver_] followed by the clock
    reading in nanoseconds, is accepted by the validator of the status
    endpoint exactly when the reading has 10 to 30 decimal digits, that is
    from one second after the epoch on. *)
Theorem issued_id_valid (rt : Runtime) (s : services.FaceVerificationService)
        (req : VerificationRequest) :
  handlers.isValidVerificationID (VerificationID (fst (services.VerifyVideo rt s req))) = true
  <-> 10 ^ 9 <= now rt < 10 ^ 30.
Proof.
  destruct (VerifyVideo_header rt s req) as (-> & _ & _). apply clock_id_valid.
Qed.

(** X4: two verifications get the same identifier exactly when their clock
    readings agree to the nanosecond, whatever the requests and the
    stores. *)
Theorem issued_id_unique (rt1 rt2 : Runtime) (s1 s2 : services.FaceVerificationService)
        (req1 req2 : VerificationRequest) :
  VerificationID (fst (services.VerifyVideo rt1 s1 req1))
  = VerificationID (fst (services.VerifyVideo rt2 s2 req2))
  <-> now rt1 = now rt2.
Proof.
  destruct (VerifyVideo_header rt1 s1 req1) as (-> & _ & _).
  destruct (VerifyVideo_header rt2 s2 req2) as (-> & _ & _).
  split.
  - intros Heq. apply (inj (String.append "ver_")) in Heq.
    apply (inj pretty) in Heq. exact Heq.
  - intros ->. reflexivity.
Qed.

(** X9: for every result [VerifyVideo] issues at a clock reading of 10 to
    30 digits, the status endpoint answers 200 for its identifier, with
    status [completed] and [verified = true], whatever the outcome of that
    verification was. *)
Theorem status_of_issued_id (rt : Runtime) (s : services.FaceVerificationService)
        (req : VerificationRequest) (clock : Z) :
  10 ^ 9 <= now rt < 10 ^ 30 ->
  handlers.GetVerificationStatus clock (VerificationID (fst (services.VerifyVideo rt s req)))
  = (handlers.StatusOK,
     handlers.StatusReport (VerificationID (fst (services.VerifyVideo rt s req)))
                           "completed" true clock).
Proof.
  intros Hclock. destruct (VerifyVideo_header rt s req) as (-> & _ & _).
  unfold handlers.GetVerificationStatus.
  rewrite (proj2 (clock_id_valid (now rt)) Hclock). cbn [negb].
  change ("ver_" +:+ pretty (now rt))%string
    with (String "v"%char (String "e"%char (String "r"%char
            (String "_"%char (pretty (now rt)))))).
  reflexivity.
Qed.

End VerificationIds.

(** ** The endpoints *)

Section Endpoints.

Lemma validateVideoFile_None (file : handlers.FileHeader) :
  handlers.validateVideoFile file = None ->
  1024 <= handlers.Size file <= 52428800 /\
  List.In (handlers.ContentType file) handlers.validTypes.
Proof.
  unfold handlers.validateVideoFile. change (50 * 1024 * 1024) with 52428800.
  destruct (Z.ltb_spec 52428800 (handlers.Size file)); [discriminate|].
  destruct (Z.ltb_spec (handlers.Size file) 1024); [discriminate|].
  destruct (existsb _ _) eqn:Hex; [|discriminate].
  intros _. split; [lia|]. apply validTypes_spec. exact Hex.
Qed.

Lemma readVideoFile_Ok (file : handlers.FileHeader) (data : list Byte.byte) :
  handlers.readVideoFile file = Ok data ->
  exists src, handlers.Content file = Ok src /\
              (Z.to_nat (handlers.Size file) <= length src)%nat /\
              data = take (Z.to_nat (handlers.Size file)) src /\
              length data = Z.to_nat (handlers.Size file).
Proof.
  unfold handlers.readVideoFile, ReadFull.
  destruct (handlers.Content file) as [src|e]; [|discriminate].
  destruct (Nat.ltb_spec (length src) (Z.to_nat (handlers.Size file))); [discriminate|].
  intros [= <-]. exists src. repeat split; try lia. rewrite length_take. lia.
Qed.

(** X5: the verification endpoint calls the face service only with a
    validated upload: the first [video] file of the form, of 1KB to 50MB
    and of an allowed content type, read in full (exactly [Size] bytes),
    together with the posted user id, which is empty or well-formed. *)
Theorem VerifyVideo_calls_with_valid_input
        (faceService : VerificationRequest -> VerificationResult * option error)
        (uuid : string) (timeout : bool) (form : result handlers.Form)
        (req : VerificationRequest) :
  List.In (handlers.EvVerifyVideo req)
          (snd (handlers.VerifyVideo faceService uuid timeout form)) ->
  exists f file rest src,
    form = Ok f /\
    handlers.File f !! "video"%string = Some (file :: rest) /\
    1024 <= handlers.Size file <= 52428800 /\
    List.In (handlers.ContentType file) handlers.validTypes /\
    handlers.Content file = Ok src /\
    VideoData req = take (Z.to_nat (handlers.Size file)) src /\
    Z.of_nat (length (VideoData req)) = handlers.Size file /\
    UserID req = handlers.PostForm f "user_id" /\
    (UserID req = ""%string \/ handlers.isValidUserID (UserID req) = true).
Proof.
  unfold handlers.VerifyVideo.
  destruct form as [f|e]; [|intros []].
  destruct (handlers.File f !! "video"%string) as [[|file rest]|] eqn:Hfile;
    cbn [default from_option id]; try (intros []).
  destruct (handlers.validateVideoFile file) eqn:Hval; [intros []|].
  apply validateVideoFile_None in Hval as [Hsize Htype].
  destruct (handlers.readVideoFile file) as [data|e] eqn:Hread.
  2:{ cbn. intros [Hin|[]]. discriminate Hin. }
  apply readVideoFile_Ok in Hread as (src & Hsrc & Hle & -> & Hlen).
  set (userID := handlers.PostForm f "user_id").
  assert (Hid : (userID = ""%string \/ handlers.isValidUserID userID = true) \/
                negb (String.eqb userID "") && negb (handlers.isValidUserID userID) = true).
  { destruct (String.eqb_spec userID ""); [left; left; assumption|].
    destruct (handlers.isValidUserID userID); [left; right; reflexivity | right; reflexivity]. }
  destruct Hid as [Hid|Hbad].
  - assert (Hok : negb (String.eqb userID "") && negb (handlers.isValidUserID userID) = false).
    { destruct Hid as [->| ->]; [reflexivity | apply andb_false_r]. }
    rewrite Hok.
    assert (Hev : forall r1 r2 : handlers.Response * list handlers.Event,
               snd r1 = snd r2 ->
               snd (if timeout then r1 else r2) = snd r1) by (intros; destruct timeout; congruence).
    intros Hin.
    assert (Hreq : req = {| VideoData := take (Z.to_nat (handlers.Size file)) src;
                            UserID := userID;
                            SessionID := if String.eqb (handlers.PostForm f "session_id") ""
                                         then uuid else handlers.PostForm f "session_id" |}).
    { destruct timeout; [|destruct (faceService _) as [r [e|]]];
        cbn in Hin; destruct Hin as [Hin|[Hin|[]]]; try discriminate Hin;
        injection Hin as <-; reflexivity. }
    subst req. cbn [VideoData UserID].
    exists f, file, rest, src. repeat split; try assumption; try lia.
  - rewrite Hbad. cbn. intros [Hin|[]]. discriminate Hin.
Qed.

(** X6: the verification endpoint answers 200 exactly when it called the
    service, the deadline did not fire and the service returned a nil
    error, and then the body is the result of the service, unchanged; an
    answer 400 means that the service was not called, the upload having
    been read at most. *)
Theorem VerifyVideo_response
        (faceService : VerificationRequest -> VerificationResult * option error)
        (uuid : string) (timeout : bool) (form : result handlers.Form) :
  let out := handlers.VerifyVideo faceService uuid timeout form in
  (handlers.Status (fst out) = handlers.StatusOK <->
   exists req result,
     List.In (handlers.EvVerifyVideo req) (snd out) /\ timeout = false /\
     faceService req = (result, None) /\
     handlers.ResponseBody (fst out) = handlers.DataBody result) /\
  (handlers.Status (fst out) = handlers.StatusBadRequest ->
   forall ev, List.In ev (snd out) -> exists name, ev = handlers.EvReadFile name) /\
  (forall req, List.In (handlers.EvVerifyVideo req) (snd out) ->
               handlers.Status (fst out) <> handlers.StatusBadRequest).
Proof.
  unfold handlers.VerifyVideo.
  assert (Hno : forall (r : handlers.Response) (ev : list handlers.Event),
             handlers.Status r <> handlers.StatusOK ->
             (forall req, ~ List.In (handlers.EvVerifyVideo req) ev) ->
             (forall e, List.In e ev -> exists name, e = handlers.EvReadFile name) ->
             (handlers.Status (fst (r, ev)) = handlers.StatusOK <->
              exists req result,
                List.In (handlers.EvVerifyVideo req) (snd (r, ev)) /\ timeout = false /\
                faceService req = (result, None) /\
                handlers.ResponseBody (fst (r, ev)) = handlers.DataBody result) /\
             (handlers.Status (fst (r, ev)) = handlers.StatusBadRequest ->
              forall e, List.In e (snd (r, ev)) -> exists name, e = handlers.EvReadFile name) /\
             (forall req, List.In (handlers.EvVerifyVideo req) (snd (r, ev)) ->
                          handlers.Status (fst (r, ev)) <> handlers.StatusBadRequest)).
  { intros r ev Hst Hcall Hread. cbn [fst snd]. split; [|split].
    - split; [contradiction|]. intros (req & _ & Hin & _). destruct (Hcall req Hin).
    - intros _. exact Hread.
    - intros req Hin. destruct (Hcall req Hin). }
  destruct form as [f|e];
    [|apply Hno; [discriminate | intros ? [] | intros ? []]].
  destruct (default [] (handlers.File f !! "video"%string)) as [|file rest];
    [apply Hno; [discriminate | intros ? [] | intros ? []]|].
  destruct (handlers.validateVideoFile file);
    [apply Hno; [discriminate | intros ? [] | intros ? []]|].
  destruct (handlers.readVideoFile file) as [data|e].
  2:{ apply Hno; [discriminate | intros ? [Hin|[]]; discriminate Hin
                  | intros ? [<-|[]]; eauto]. }
  destruct (negb _ && negb _).
  { apply Hno; [discriminate | intros ? [Hin|[]]; discriminate Hin
                | intros ? [<-|[]]; eauto]. }
  set (req := {| VideoData := data; UserID := _; SessionID := _ |}).
  destruct timeout.
  { cbn [fst snd]. split; [|split].
    - split; [discriminate|]. intros (? & ? & _ & Ht & _). discriminate Ht.
    - discriminate.
    - intros ? _. discriminate. }
  destruct (faceService req) as [result [e|]] eqn:Hsvc; cbn [fst snd]; (split; [|split]).
  - split; [discriminate|]. intros (req' & result' & Hin & _ & Hsvc' & _).
    destruct Hin as [Hin|[Hin|[]]]; [discriminate Hin|].
    injection Hin as <-. rewrite Hsvc in Hsvc'. discriminate Hsvc'.
  - discriminate.
  - intros ? _. discriminate.
  - split; [|reflexivity]. intros _. exists req, result.
    repeat split; [right; left; reflexivity | exact Hsvc].
  - discriminate.
  - intros ? _. discriminate.
Qed.

(** X7: the registration endpoint calls the face service only with a
    well-formed, non-empty user id, the posted one, and with a validated
    upload read in full; the user id is checked before the file, so that a
    missing or malformed id is reported whatever the file is. *)
Theorem RegisterFace_calls_with_valid_input
        (faceService : string -> list Byte.byte -> option error)
        (clock : Z) (timeout : bool) (form : result handlers.Form) :
  let out := handlers.RegisterFace faceService clock timeout form in
  (forall userID data,
      List.In (handlers.EvRegisterFace userID data) (snd out) ->
      exists f file rest src,
        form = Ok f /\
        handlers.File f !! "video"%string = Some (file :: rest) /\
        userID = handlers.PostForm f "user_id" /\
        handlers.isValidUserID userID = true /\
        1024 <= handlers.Size file <= 52428800 /\
        List.In (handlers.ContentType file) handlers.validTypes /\
        handlers.Content file = Ok src /\
        data = take (Z.to_nat (handlers.Size file)) src /\
        Z.of_nat (length data) = handlers.Size file) /\
  (forall f file rest,
      form = Ok f ->
      handlers.File f !! "video"%string = Some (file :: rest) ->
      handlers.isValidUserID (handlers.PostForm f "user_id") = false ->
      snd out = [] /\
      fst out = handlers.register_bad_request
                  (if String.eqb (handlers.PostForm f "user_id") ""
                   then "User ID is required for registration"
                   else "Invalid user ID format")
                  (if String.eqb (handlers.PostForm f "user_id") ""
                   then "MISSING_USER_ID" else "INVALID_USER_ID")).
Proof.
  unfold handlers.RegisterFace. split.
  - intros userID data.
    destruct form as [f|e]; [|intros []].
    destruct (handlers.File f !! "video"%string) as [[|file rest]|] eqn:Hfile;
      cbn [default from_option id]; try (intros []).
    destruct (String.eqb_spec (handlers.PostForm f "user_id") ""); [intros []|].
    destruct (handlers.isValidUserID (handlers.PostForm f "user_id")) eqn:Hid;
      cbn [negb]; [|intros []].
    destruct (handlers.validateVideoFile file) eqn:Hval; [intros []|].
    apply validateVideoFile_None in Hval as [Hsize Htype].
    destruct (handlers.readVideoFile file) as [bytes|e] eqn:Hread.
    2:{ cbn. intros [Hin|[]]. discriminate Hin. }
    apply readVideoFile_Ok in Hread as (src & Hsrc & Hle & -> & Hlen).
    intros Hin.
    assert (Heq : userID = handlers.PostForm f "user_id" /\
                  data = take (Z.to_nat (handlers.Size file)) src).
    { destruct timeout; [|destruct (faceService _ _)];
        cbn in Hin; destruct Hin as [Hin|[Hin|[]]]; try discriminate Hin;
        injection Hin as <- <-; split; reflexivity. }
    destruct Heq as [-> ->].
    exists f, file, rest, src. repeat split; try assumption; try lia.
  - intros f file rest -> Hfile Hid. rewrite Hfile. cbn [default from_option id].
    destruct (String.eqb (handlers.PostForm f "user_id") ""); [split; reflexivity|].
    rewrite Hid. split; reflexivity.
Qed.

(** X8: the registration endpoint answers 200 exactly when it called the
    service, the deadline did not fire and the service returned a nil
    error; the body then names the registered user and the clock value. An
    answer 400 means that the service was not called. *)
Theorem RegisterFace_response
        (faceService : string -> list Byte.byte -> option error)
        (clock : Z) (timeout : bool) (form : result handlers.Form) :
  let out := handlers.RegisterFace faceService clock timeout form in
  (handlers.RegisterStatus (fst out) = handlers.StatusOK <->
   exists userID data,
     List.In (handlers.EvRegisterFace userID data) (snd out) /\ timeout = false /\
     faceService userID data = None /\
     handlers.RegisterResponseBody (fst out) =
       handlers.RegisterSuccess "Face registered successfully" userID clock) /\
  (handlers.RegisterStatus (fst out) = handlers.StatusBadRequest ->
   forall userID data, ~ List.In (handlers.EvRegisterFace userID data) (snd out)).
Proof.
  unfold handlers.RegisterFace.
  assert (Hno : forall (r : handlers.RegisterResponse) (ev : list handlers.RegisterEvent),
             handlers.RegisterStatus r <> handlers.StatusOK ->
             (forall u d, ~ List.In (handlers.EvRegisterFace u d) ev) ->
             (handlers.RegisterStatus (fst (r, ev)) = handlers.StatusOK <->
              exists userID data,
                List.In (handlers.EvRegisterFace userID data) (snd (r, ev)) /\
                timeout = false /\ faceService userID data = None /\
                handlers.RegisterResponseBody (fst (r, ev)) =
                  handlers.RegisterSuccess "Face registered successfully" userID clock) /\
             (handlers.RegisterStatus (fst (r, ev)) = handlers.StatusBadRequest ->
              forall userID data,
                ~ List.In (handlers.EvRegisterFace userID data) (snd (r, ev)))).
  { intros r ev Hst Hcall. cbn [fst snd]. split.
    - split; [contradiction|]. intros (u & d & Hin & _). destruct (Hcall u d Hin).
    - intros _. exact Hcall. }
  destruct form as [f|e]; [|apply Hno; [discriminate | intros ? ? []]].
  destruct (default [] (handlers.File f !! "video"%string)) as [|file rest];
    [apply Hno; [discriminate | intros ? ? []]|].
  destruct (String.eqb _ ""); [apply Hno; [discriminate | intros ? ? []]|].
  destruct (negb _); [apply Hno; [discriminate | intros ? ? []]|].
  destruct (handlers.validateVideoFile file);
    [apply Hno; [discriminate | intros ? ? []]|].
  destruct (handlers.readVideoFile file) as [data|e].
  2:{ apply Hno; [discriminate | intros ? ? [Hin|[]]; discriminate Hin]. }
  set (userID := handlers.PostForm f "user_id").
  destruct timeout.
  { cbn [fst snd]. split.
    - split; [discriminate|]. intros (? & ? & _ & Ht & _). discriminate Ht.
    - discriminate. }
  destruct (faceService userID data) as [e|] eqn:Hsvc; cbn [fst snd]; split.
  - split; [discriminate|]. intros (u & d & Hin & _ & Hsvc' & _).
    destruct Hin as [Hin|[Hin|[]]]; [discriminate Hin|].
    injection Hin as <- <-. rewrite Hsvc in Hsvc'. discriminate Hsvc'.
  - discriminate.
  - split; [|reflexivity]. intros _. exists userID, data.
    repeat split; [right; left; reflexivity | exact Hsvc].
  - discriminate.
Qed.

End Endpoints.

(** ** The matcher and the orchestrator, further *)

Section ServiceInvariants.
Context `{Backend}.

Lemma dot_fold_comm (a b : list spec_float) (acc : spec_float) :
  fold_left (fun acc '(x, y) => (acc + F64.of_float32 x * F64.of_float32 y)%f64)
            (combine a b) acc
  = fold_left (fun acc '(x, y) => (acc + F64.of_float32 x * F64.of_float32 y)%f64)
              (combine b a) acc.
Proof.
  revert b acc. induction a as [|x a IH]; intros [|y b] acc; cbn [combine fold_left];
    try reflexivity.
  rewrite (mul_comm (F64.of_float32 x)). apply IH.
Qed.

(** X10: [cosineSimilarity] is symmetric, bit for bit, for all vectors:
    comparing a new vector with a stored one gives the same number as
    comparing the stored one with the new one. *)
Theorem cosineSimilarity_comm (a b : list spec_float) :
  services.cosineSimilarity a b = services.cosineSimilarity b a.
Proof.
  unfold services.cosineSimilarity.
  destruct (Nat.eqb_spec (length a) (length b)) as [Hlen|Hne].
  - rewrite (proj2 (Nat.eqb_eq (length b) (length a)) (eq_sym Hlen)). cbn [negb].
    rewrite (cosine_loop a b Hlen), (cosine_loop b a (eq_sym Hlen)).
    unfold dot. rewrite (dot_fold_comm a b), orb_comm.
    rewrite (mul_comm (F64.sqrt (norm_sq a))). reflexivity.
  - destruct (Nat.eqb_spec (length b) (length a)); [congruence | reflexivity].
Qed.

Lemma append_nonempty (c : Ascii.ascii) (s t : string) :
  (String c s +:+ t)%string <> ""%string.
Proof. change (String c s +:+ t)%string with (String c (s +:+ t)). discriminate. Qed.

(** X11: [VerifyVideo] returns a nil error exactly when the [Error] text
    of the result is empty; with a non-nil error the result is not
    verified and its confidence, liveness score and processing time are
    all zero. *)
Theorem VerifyVideo_error_report (rt : Runtime) (s : services.FaceVerificationService)
        (req : VerificationRequest) :
  let out := services.VerifyVideo rt s req in
  (snd out = None <-> Error (fst out) = ""%string) /\
  (snd out <> None ->
   Verified (fst out) = false /\ Confidence (fst out) = F64.zero /\
   LivenessScore (fst out) = F64.zero /\ ProcessingTime (fst out) = F64.zero).
Proof.
  assert (Herr : forall (r : VerificationResult) (c : Ascii.ascii) (m : string) (e : error),
             Verified r = false -> Confidence r = F64.zero ->
             LivenessScore r = F64.zero -> ProcessingTime r = F64.zero ->
             let out := (services.with_error r (String c m), Some e) in
             (snd out = None <-> Error (fst out) = ""%string) /\
             (snd out <> None ->
              Verified (fst out) = false /\ Confidence (fst out) = F64.zero /\
              LivenessScore (fst out) = F64.zero /\ ProcessingTime (fst out) = F64.zero)).
  { intros r c m e Hv Hc Hl Hp. cbn. split; [split; discriminate | tauto]. }
  assert (Hok : forall (r : VerificationResult) l v c t,
             Error r = ""%string ->
             let out := (services.with_outcome r l v c t, @None error) in
             (snd out = None <-> Error (fst out) = ""%string) /\
             (snd out <> None ->
              Verified (fst out) = false /\ Confidence (fst out) = F64.zero /\
              LivenessScore (fst out) = F64.zero /\ ProcessingTime (fst out) = F64.zero)).
  { intros r l v c t He. cbn. split; [tauto | congruence]. }
  unfold services.VerifyVideo.
  set (result := {| VerificationID := _ |}).
  destruct (frame_timeout rt); [apply Herr; reflexivity|].
  destruct (services.extractFramesFromVideo (VideoData req)) as [[|frame0 rest]|e];
    try (apply Herr; reflexivity).
  destruct (merge_timeout rt); [apply Herr; reflexivity|].
  destruct (services.detectLiveness _ _) as [l|e]; [|apply Herr; reflexivity].
  destruct (services.generateFaceVector frame0) as [v|e]; [|apply Herr; reflexivity].
  destruct (IsLive l); cbn [negb]; [|apply Hok; reflexivity].
  destruct (String.eqb (UserID req) ""); cbn [negb]; [apply Hok; reflexivity|].
  destruct (services.checkForDuplicates s (UserID req) v); apply Hok; reflexivity.
Qed.

(** X12: a result with [verified = true] comes with a nil error, a
    liveness score of at least the configured [LivenessThreshold], and a
    confidence of exactly 1.0 when no identity was claimed, of at least the
    configured [SimilarityThreshold] when one was. *)
Theorem verified_result_sound (rt : Runtime) (s : services.FaceVerificationService)
        (req : VerificationRequest) :
  Verified (fst (services.VerifyVideo rt s req)) = true ->
  snd (services.VerifyVideo rt s req) = None /\
  F64.geb (LivenessScore (fst (services.VerifyVideo rt s req)))
          (LivenessThreshold (services.config s)) = true /\
  if String.eqb (UserID req) ""
  then Confidence (fst (services.VerifyVideo rt s req)) = F64.one
  else F64.geb (Confidence (fst (services.VerifyVideo rt s req)))
               (SimilarityThreshold (services.config s)) = true.
Proof.
  unfold services.VerifyVideo.
  destruct (frame_timeout rt); [discriminate|].
  destruct (services.extractFramesFromVideo (VideoData req)) as [[|frame0 rest]|e];
    try discriminate.
  destruct (merge_timeout rt); [discriminate|].
  destruct (services.detectLiveness _ _) as [l|e] eqn:Hl; [|discriminate].
  destruct (services.generateFaceVector frame0) as [v|e]; [|discriminate].
  assert (Hlive : IsLive l = true ->
                  F64.geb (Score l) (LivenessThreshold (services.config s)) = true).
  { unfold services.detectLiveness in Hl.
    destruct (length (frame0 :: rest) <? 2)%nat; injection Hl as <-; cbn; [discriminate|].
    tauto. }
  destruct (IsLive l); cbn [negb]; [|discriminate].
  destruct (String.eqb (UserID req) ""); cbn [negb].
  - intros _. cbn. auto.
  - destruct (services.checkForDuplicates s (UserID req) v) as [c|e]; [|discriminate].
    cbn. auto.
Qed.

(** X13: the outcome of [VerifyVideo] depends on the store only through
    the enrollments of the claimed identity: two services with the same
    configuration that agree on that identity return the same result,
    whatever else they hold, and the session identifier plays no part. *)
Theorem VerifyVideo_isolation (rt : Runtime) (s s' : services.FaceVerificationService)
        (req : VerificationRequest) (sessionID : string) :
  services.config s = services.config s' ->
  services.faceVectors s !! UserID req = services.faceVectors s' !! UserID req ->
  services.VerifyVideo rt s req
  = services.VerifyVideo rt s'
      {| VideoData := VideoData req; UserID := UserID req; SessionID := sessionID |}.
Proof.
  intros Hcfg Hstore. unfold services.VerifyVideo, services.checkForDuplicates.
  cbn [VideoData UserID]. rewrite Hcfg, Hstore. reflexivity.
Qed.

(** X14: one more enrollment of an identity never lowers the confidence
    the matcher reports for it, and the new confidence is at least the
    similarity to the added vector when that is a number. *)
Theorem enrollment_never_lowers_confidence
        (s : services.FaceVerificationService) (userID : string)
        (newVector : list spec_float) (added : FaceVector) :
  exists c c',
    services.checkForDuplicates s userID newVector = Ok c /\
    services.checkForDuplicates
      {| services.config := services.config s;
         services.faceVectors :=
           <[userID := default [] (services.faceVectors s !! userID) ++ [added]]>
             (services.faceVectors s);
         services.storage := services.storage s |} userID newVector = Ok c' /\
    F64.leb c c' = true /\
    (F64.is_nan (services.cosineSimilarity newVector (Vector added)) = false ->
     F64.leb (services.cosineSimilarity newVector (Vector added)) c' = true).
Proof.
  rewrite !checkForDuplicates_fold. cbn [services.faceVectors].
  rewrite lookup_insert_eq. cbn [default from_option id].
  rewrite fold_left_app. cbn [fold_left].
  set (c := fold_left (services.max_step newVector) _ F64.zero).
  assert (Hc : F64.is_nan c = false) by apply (max_fold newVector _ F64.zero eq_refl).
  destruct (max_step_cases newVector c added Hc) as (_ & _ & Hle & Hs).
  exists c, (services.max_step newVector c added). auto.
Qed.

End ServiceInvariants.

(** ** Registration and the store file *)

Section Persistence.
Context `{Backend} `{Crypto} `{!Loader}.

Lemma saveFaceVectors_frame (rt : Runtime) (s : services.FaceVerificationService) :
  services.config (fst (services.saveFaceVectors rt s)) = services.config s /\
  services.faceVectors (fst (services.saveFaceVectors rt s)) = services.faceVectors s.
Proof.
  unfold services.saveFaceVectors.
  destruct (json_Marshal _) as [data|e]; [|split; reflexivity].
  destruct (services.encryptData _ _ _) as [enc|e]; [|split; reflexivity].
  destruct (write_ok rt); split; reflexivity.
Qed.

(** What [encryptData] returned, [decryptData] opens. *)
Lemma encryptData_decryptData (rt : Runtime) (cfg : Config) (data enc : list Byte.byte) :
  services.encryptData rt cfg data = Ok enc -> services.decryptData cfg enc = Ok data.
Proof.
  unfold services.encryptData, services.decryptData, ReadFull.
  destruct (services.newGCM cfg) as [gcm|e]; [|discriminate].
  destruct (Nat.ltb_spec (length (entropy rt)) (NonceSize gcm)) as [Hlt|Hge]; [discriminate|].
  intros [= <-]. unfold Seal.
  set (nonce := take (NonceSize gcm) (entropy rt)).
  assert (Hlen : length nonce = NonceSize gcm) by (unfold nonce; rewrite length_take; lia).
  destruct (Nat.ltb_spec (length (nonce ++ seal gcm nonce data [])) (NonceSize gcm))
    as [Hlt|_]; [rewrite length_app in Hlt; lia|].
  rewrite <- Hlen, take_app_length, drop_app_length.
  unfold Open. rewrite open_seal by exact Hlen. reflexivity.
Qed.

Lemma saveFaceVectors_storage (rt : Runtime) (s : services.FaceVerificationService) :
  match snd (services.saveFaceVectors rt s) with
  | Some _ => fst (services.saveFaceVectors rt s) = s
  | None =>
      exists enc data,
        fst (services.saveFaceVectors rt s)
        = {| services.config := services.config s;
             services.faceVectors := services.faceVectors s;
             services.storage := Some enc |} /\
        json_Marshal (services.faceVectors s) = Ok data /\
        services.decryptData (services.config s) enc = Ok data
  end.
Proof.
  unfold services.saveFaceVectors.
  destruct (json_Marshal _) as [data|e]; [|reflexivity].
  destruct (services.encryptData _ _ _) as [enc|e] eqn:Henc; [|reflexivity].
  destruct (write_ok rt); [|reflexivity].
  exists enc, data. cbn. repeat split. eapply encryptData_decryptData. exact Henc.
Qed.

(** The outcomes of [RegisterFace]: the service as it was, or the service
    after [saveFaceVectors] on the store with one more enrollment. *)
Lemma RegisterFace_cases (rt : Runtime) (s : services.FaceVerificationService)
      (userID : string) (videoData : list Byte.byte) :
  (fst (services.RegisterFace rt s userID videoData) = s /\
   snd (services.RegisterFace rt s userID videoData) <> None) \/
  exists faceVector,
    services.RegisterFace rt s userID videoData
    = services.saveFaceVectors rt
        {| services.config := services.config s;
           services.faceVectors :=
             <[userID := default [] (services.faceVectors s !! userID)
                         ++ [{| FaceUserID := userID; Vector := faceVector;
                                CreatedAt := now rt; Version := "1.0" |}]]>
               (services.faceVectors s);
           services.storage := services.storage s |}.
Proof.
  unfold services.RegisterFace.
  destruct (services.VerifyVideo rt s _) as [r [e|]]; [left; split; [reflexivity|discriminate]|].
  destruct (Verified r); cbn [negb]; [|left; split; [reflexivity|discriminate]].
  destruct (services.extractFramesFromVideo videoData) as [[|frame0 rest]|e];
    try (left; split; [reflexivity|discriminate]).
  destruct (services.generateFaceVector frame0) as [v|e];
    [|left; split; [reflexivity|discriminate]].
  right. exists v. reflexivity.
Qed.


(** X16: on a nil error of [RegisterFace] the store file holds a
    ciphertext that [decryptData] opens to the JSON of the whole in-memory
    store; an error that comes up although the file can be written was
    raised before the write, and the file is as it was. *)
Theorem RegisterFace_persists (rt : Runtime) (s : services.FaceVerificationService)
        (userID : string) (videoData : list Byte.byte) :
  let out := services.RegisterFace rt s userID videoData in
  match snd out with
  | Some _ => write_ok rt = true -> services.storage (fst out) = services.storage s
  | None =>
      exists enc data,
        services.storage (fst out) = Some enc /\
        json_Marshal (services.faceVectors (fst out)) = Ok data /\
        services.decryptData (services.config (fst out)) enc = Ok data
  end.
Proof.
  cbv zeta.
  destruct (RegisterFace_cases rt s userID videoData) as [[Hs Herr]|(v & ->)].
  - rewrite Hs. destruct (snd _); [reflexivity | contradiction].
  - match goal with |- context [services.saveFaceVectors rt ?s0] =>
      pose proof (saveFaceVectors_storage rt s0) as Hsave;
      destruct (snd (services.saveFaceVectors rt s0))
    end.
    + intros _. rewrite Hsave. reflexivity.
    + destruct Hsave as (enc & data & -> & Hm & Hd). exists enc, data. cbn in *. auto.
Qed.

(** X17: what a successful [RegisterFace] leaves in the store file, a
    restart reads back: [NewFaceVerificationService] with the same
    configuration over that file returns a service with exactly the store
    of the running one, provided the recogniser loads and the store holds
    what JSON can carry (ASCII strings, [float32] numbers). *)
Theorem restart_restores_store (rt : Runtime) (s s' : services.FaceVerificationService)
        (userID : string) (videoData : list Byte.byte) :
  services.RegisterFace rt s userID videoData = (s', None) ->
  json_safe (services.faceVectors s') ->
  face_NewRecognizer (FaceModelPath (services.config s)) = None ->
  services.NewFaceVerificationService (services.config s) (services.storage s') true = Ok s'.
Proof.
  intros Hreg Hsafe Hrec.
  destruct (RegisterFace_cases rt s userID videoData) as [[_ Herr]|(v & Hsave)].
  { rewrite Hreg in Herr. contradiction. }
  rewrite Hreg in Hsave.
  match type of Hsave with _ = services.saveFaceVectors rt ?s0 =>
    pose proof (saveFaceVectors_storage rt s0) as Hst; rewrite <- Hsave in Hst
  end.
  cbn [fst snd services.config services.faceVectors] in Hst.
  destruct Hst as (enc & data & -> & Hm & Hd).
  cbn [services.faceVectors services.storage] in *.
  unfold services.NewFaceVerificationService. rewrite Hrec.
  unfold services.loadFaceVectors. cbn [services.storage services.config services.faceVectors negb].
  rewrite Hd, (json_roundtrip _ data Hsafe Hm). reflexivity.
Qed.

(** X18: start-up fails only when the recogniser does; a store file that
    is missing, unreadable, shorter than a nonce or that does not decrypt
    is ignored, and the service then starts with an empty store. *)
Theorem startup_tolerates_bad_store (cfg : Config) (file : option (list Byte.byte))
        (readable : bool) :
  match face_NewRecognizer (FaceModelPath cfg) with
  | Some e =>
      services.NewFaceVerificationService cfg file readable
      = Err ("failed to initialize face recognizer: " +:+ e)
  | None =>
      exists s,
        services.NewFaceVerificationService cfg file readable = Ok s /\
        services.config s = cfg /\ services.storage s = file /\
        (file = None \/ readable = false \/
         (exists data gcm, file = Some data /\ services.newGCM cfg = Ok gcm /\
                           (length data < NonceSize gcm)%nat) \/
         (exists data e, file = Some data /\ services.decryptData cfg data = Err e) ->
         services.faceVectors s = ∅)
  end.
Proof.
  unfold services.NewFaceVerificationService.
  destruct (face_NewRecognizer (FaceModelPath cfg)); [reflexivity|].
  eexists. split; [reflexivity|].
  unfold services.loadFaceVectors. cbn [services.storage services.config services.faceVectors].
  destruct file as [data|]; [|repeat split].
  destruct readable; cbn [negb]; [|repeat split].
  destruct (services.decryptData cfg data) as [plain|e] eqn:Hd; [|repeat split].
  destruct (json_Unmarshal plain ∅) as [vectors err]. cbn [fst].
  repeat split.
  intros [Hf|[Hf|[(data' & gcm & [= <-] & Hg & Hlt)|(data' & e & [= <-] & He)]]];
    try discriminate.
  - unfold services.decryptData in Hd. rewrite Hg in Hd.
    destruct (Nat.ltb_spec (length data) (NonceSize gcm)); [discriminate | lia].
  - congruence.
Qed.

End Persistence.

(** ** The store codec of the sample, and sample runs *)

Lemma pos_of_bits_of_pos (p : positive) : Codec.pos_of_bits (Codec.bits_of_pos p) = p.
Proof. induction p as [p IH|p IH|]; cbn; [rewrite IH..|]; reflexivity. Qed.

Lemma codec_roundtrip (m : gmap string (list FaceVector)) (data : list Byte.byte) :
  json_safe m -> @json_Marshal Codec.backend m = Ok data ->
  Codec.unmarshal data ∅ = (m, None).
Proof.
  intros _ [= <-]. unfold Codec.unmarshal.
  rewrite pos_of_bits_of_pos, decode_encode, (right_id_L ∅ (∪)). reflexivity.
Qed.

#[export] Instance codec_loader : @Loader Codec.backend := {|
  face_NewRecognizer := fun _ => None;
  json_Unmarshal := Codec.unmarshal;
  json_roundtrip := codec_roundtrip
|}.

Section SampleChecks.
#[local] Existing Instance Sample.backend.

Lemma VerifyVideo_calls_with_valid_input_witness :
  let req := {| VideoData := replicate 1024 Byte.x00; UserID := "alice";
                SessionID := "session-1" |} in
  let form := Ok (SampleGateway.form "alice") in
  List.In (handlers.EvVerifyVideo req)
          (snd (handlers.VerifyVideo SampleGateway.accept "session-1" false form)) /\
  exists f file rest src,
    form = Ok f /\
    handlers.File f !! "video"%string = Some (file :: rest) /\
    1024 <= handlers.Size file <= 52428800 /\
    List.In (handlers.ContentType file) handlers.validTypes /\
    handlers.Content file = Ok src /\
    VideoData req = take (Z.to_nat (handlers.Size file)) src /\
    Z.of_nat (length (VideoData req)) = handlers.Size file /\
    UserID req = handlers.PostForm f "user_id" /\
    (UserID req = ""%string \/ handlers.isValidUserID (UserID req) = true).
Proof.
  intros req form.
  assert (Hin : List.In (handlers.EvVerifyVideo req)
                  (snd (handlers.VerifyVideo SampleGateway.accept "session-1" false form))).
  { right. left. vm_compute. reflexivity. }
  split; [exact Hin|].
  exact (VerifyVideo_calls_with_valid_input SampleGateway.accept "session-1" false form req Hin).
Defined.

Lemma status_of_issued_id_witness :
  10 ^ 9 <= now Sample.rt < 10 ^ 30 /\
  handlers.GetVerificationStatus 1700000000
    (VerificationID (fst (services.VerifyVideo Sample.rt Sample.empty_service
                                               (Sample.request "alice"))))
  = (handlers.StatusOK,
     handlers.StatusReport
       (VerificationID (fst (services.VerifyVideo Sample.rt Sample.empty_service
                                                  (Sample.request "alice"))))
       "completed" true 1700000000).
Proof.
  assert (Hclock : 10 ^ 9 <= now Sample.rt < 10 ^ 30) by (split; vm_compute; [discriminate | reflexivity]).
  split; [exact Hclock|].
  exact (status_of_issued_id Sample.rt Sample.empty_service (Sample.request "alice")
                             1700000000 Hclock).
Defined.

Lemma verified_result_sound_witness :
  let out := services.VerifyVideo Sample.rt Sample.enrolled_service
                                  (Sample.request "test-user-123") in
  Verified (fst out) = true /\
  snd out = None /\
  F64.geb (LivenessScore (fst out))
          (LivenessThreshold (services.config Sample.enrolled_service)) = true /\
  if String.eqb (UserID (Sample.request "test-user-123")) ""
  then Confidence (fst out) = F64.one
  else F64.geb (Confidence (fst out))
               (SimilarityThreshold (services.config Sample.enrolled_service)) = true.
Proof.
  intros out.
  assert (Hver : Verified (fst out) = true) by (vm_compute; reflexivity).
  split; [exact Hver|].
  exact (verified_result_sound Sample.rt Sample.enrolled_service
                               (Sample.request "test-user-123") Hver).
Defined.

Lemma VerifyVideo_isolation_witness :
  let s' := {| services.config := services.config Sample.alice_service;
               services.faceVectors :=
                 services.faceVectors Sample.enrolled_service
                 ∪ services.faceVectors Sample.alice_service;
               services.storage := Some [] |} in
  let req := Sample.request "test-user-123" in
  services.config Sample.enrolled_service = services.config s' /\
  services.faceVectors Sample.enrolled_service !! UserID req
  = services.faceVectors s' !! UserID req /\
  services.VerifyVideo Sample.rt Sample.enrolled_service req
  = services.VerifyVideo Sample.rt s'
      {| VideoData := VideoData req; UserID := UserID req; SessionID := "another-session" |}.
Proof.
  intros s' req.
  assert (Hcfg : services.config Sample.enrolled_service = services.config s')
    by reflexivity.
  assert (Hstore : services.faceVectors Sample.enrolled_service !! UserID req
                   = services.faceVectors s' !! UserID req)
    by (vm_compute; reflexivity).
  split; [exact Hcfg|]. split; [exact Hstore|].
  exact (VerifyVideo_isolation Sample.rt Sample.enrolled_service s' req "another-session"
                               Hcfg Hstore).
Defined.

End SampleChecks.

Section CodecChecks.
#[local] Existing Instance Codec.backend.

Lemma restart_restores_store_witness :
  let out := services.RegisterFace Codec.rt Codec.service "al" Sample.video in
  out = (fst out, None) /\
  json_safe (services.faceVectors (fst out)) /\
  face_NewRecognizer (FaceModelPath (services.config Codec.service)) = None /\
  services.NewFaceVerificationService (services.config Codec.service)
                                      (services.storage (fst out)) true = Ok (fst out).
Proof.
  intros out.
  assert (Hnil : snd out = None) by (vm_cast_no_check (@eq_refl (option error) None)).
  assert (Hreg : out = (fst out, None)) by (destruct out; cbn in *; congruence).
  assert (Hsafe : json_safe (services.faceVectors (fst out))).
  { apply (bool_decide_eq_true_1 (json_safe (services.faceVectors (fst out)))).
    vm_cast_no_check (@eq_refl bool true). }
  split; [exact Hreg|]. split; [exact Hsafe|]. split; [reflexivity|].
  exact (restart_restores_store Codec.rt Codec.service (fst out) "al" Sample.video
                                Hreg Hsafe eq_refl).
Defined.

Lemma RegisterFace_then_VerifyVideo_witness :
  let out := services.RegisterFace Codec.rt Codec.service "al" Sample.video in
  String.eqb "al" "" = false /\
  out = (fst out, None) /\
  frame_timeout Sample.rt = false /\ merge_timeout Sample.rt = false /\
  exists r,
    services.VerifyVideo Sample.rt (fst out)
      {| VideoData := Sample.video; UserID := "al"; SessionID := "session-2" |} = (r, None) /\
    Verified r = true /\
    F64.geb (Confidence r) (SimilarityThreshold (services.config (fst out))) = true.
Proof.
  intros out.
  assert (Hid : String.eqb "al" "" = false) by reflexivity.
  assert (Hnil : snd out = None) by (vm_cast_no_check (@eq_refl (option error) None)).
  assert (Hreg : out = (fst out, None)) by (destruct out; cbn in *; congruence).
  assert (Hft : frame_timeout Sample.rt = false) by reflexivity.
  assert (Hmt : merge_timeout Sample.rt = false) by reflexivity.
  exact (conj Hid (conj Hreg (conj Hft (conj Hmt
           (RegisterFace_then_VerifyVideo Codec.rt Sample.rt Codec.service (fst out)
              "al" "session-2" Sample.video Hid Hreg Hft Hmt))))).
Defined.

End CodecChecks.

(** ** The frames of the frame source *)

Section Frames.

Lemma In_bounds (x y : Z) (r : image.Rectangle) :
  image.In x y r = true <->
  image.X (image.Min r) <= x < image.X (image.Max r) /\
  image.Y (image.Min r) <= y < image.Y (image.Max r).
Proof. unfold image.In. rewrite !andb_true_iff, !Z.leb_le, !Z.ltb_lt. lia. Qed.

Lemma nth_insert (l : list Z) (i j : nat) (v : Z) :
  (i < length l)%nat -> nth j (<[i := v]> l) 0 = if (i =? j)%nat then v else nth j l 0.
Proof.
  intros Hi. rewrite !nth_lookup. destruct (Nat.eqb_spec i j) as [<-|Hne].
  - rewrite list_lookup_insert_eq by exact Hi. reflexivity.
  - rewrite list_lookup_insert_ne by exact Hne. reflexivity.
Qed.

Lemma packed_offset (p : image.RGBA) (x y : Z) :
  packed p -> image.In x y (image.RGBA_Rect p) = true ->
  0 <= image.PixOffset p x y /\
  image.PixOffset p x y + 3 < Z.of_nat (length (image.Pix p)) /\
  image.PixOffset p x y
  = 4 * ((y - image.Y (image.Min (image.RGBA_Rect p))) * image.Dx (image.RGBA_Rect p)
         + (x - image.X (image.Min (image.RGBA_Rect p)))).
Proof.
  intros (Hdx & Hdy & Hs & Hlen) Hin. apply In_bounds in Hin.
  unfold image.PixOffset. rewrite Hs, Hlen. unfold image.Dx, image.Dy in *.
  destruct (image.RGBA_Rect p) as [[x0 y0] [x1 y1]]. cbn in *. nia.
Qed.

Lemma SetRGBA_packed (p : image.RGBA) (x y : Z) (c : Z * Z * Z * Z) :
  packed p -> packed (image.SetRGBA p x y c).
Proof.
  intros Hp. unfold image.SetRGBA. destruct (image.In x y _); [|exact Hp].
  destruct c as [[[r g] b] a]. unfold packed in *. cbn. rewrite !length_insert. exact Hp.
Qed.

(** Reading a pixel after a write: the written colour at the written
    point, the old colour elsewhere. *)
Lemma SetRGBA_read (p : image.RGBA) (x y x' y' : Z) (c : Z * Z * Z * Z) :
  packed p -> image.In x' y' (image.RGBA_Rect p) = true ->
  image.RGBAAt (image.SetRGBA p x y c) x' y'
  = if image.In x y (image.RGBA_Rect p) && (x =? x') && (y =? y') then scaled c
    else image.RGBAAt p x' y'.
Proof.
  intros Hp Hin'. unfold image.SetRGBA.
  destruct (image.In x y (image.RGBA_Rect p)) eqn:Hin; [|reflexivity].
  destruct c as [[[r g] b] a]. cbn [andb].
  pose proof (packed_offset p x y Hp Hin) as (Hi0 & Hi3 & Hi).
  pose proof (packed_offset p x' y' Hp Hin') as (Hj0 & Hj3 & Hj).
  unfold image.RGBAAt. cbn [image.RGBA_Rect]. rewrite Hin'.
  change (image.PixOffset {| image.Pix := _; image.Stride := image.Stride p;
                             image.RGBA_Rect := image.RGBA_Rect p |} x' y')
    with (image.PixOffset p x' y').
  unfold image.pix_at. cbn [image.Pix].
  set (i := image.PixOffset p x y) in *. set (j := image.PixOffset p x' y') in *.
  assert (Hsame : (x =? x') && (y =? y') = true -> i = j).
  { rewrite andb_true_iff, !Z.eqb_eq. intros [-> ->]. reflexivity. }
  assert (Hdiff : (x =? x') && (y =? y') = false -> i + 3 < j \/ j + 3 < i).
  { intros Hne. apply In_bounds in Hin, Hin'.
    destruct Hp as (Hdx & Hdy & _). unfold image.Dx, image.Dy in *.
    destruct (image.RGBA_Rect p) as [[x0 y0] [x1 y1]]. cbn in *.
    apply andb_false_iff in Hne. rewrite !Z.eqb_neq in Hne.
    rewrite Hi, Hj. clear Hi Hj Hi0 Hi3 Hj0 Hj3 Hsame.
    set (W := x1 - x0) in *.
    destruct (Z.lt_trichotomy y y') as [Hlt|[->|Hgt]].
    - assert ((y - y0 + 1) * W <= (y' - y0) * W) by (apply Z.mul_le_mono_nonneg_r; lia).
      lia.
    - lia.
    - assert ((y' - y0 + 1) * W <= (y - y0) * W) by (apply Z.mul_le_mono_nonneg_r; lia).
      lia. }
  rewrite !nth_insert by (rewrite ?length_insert; lia).
  destruct ((x =? x') && (y =? y')) eqn:Heq.
  - rewrite <- (Hsame eq_refl).
    repeat match goal with
           | |- context [(?a =? ?b)%nat] => destruct (Nat.eqb_spec a b); try lia
           end.
    reflexivity.
  - destruct (Hdiff eq_refl);
      repeat match goal with
             | |- context [(?a =? ?b)%nat] => destruct (Nat.eqb_spec a b); try lia
             end; reflexivity.
Qed.

Lemma paint_row (f : Z -> Z -> Z * Z * Z * Z) (xs : list Z) (y : Z) (p : image.RGBA) :
  packed p ->
  let q := fold_left (fun p x => image.SetRGBA p x y (f x y)) xs p in
  packed q /\ image.RGBA_Rect q = image.RGBA_Rect p /\
  forall x' y', image.In x' y' (image.RGBA_Rect p) = true ->
    image.RGBAAt q x' y'
    = if (y =? y') && existsb (Z.eqb x') xs then scaled (f x' y') else image.RGBAAt p x' y'.
Proof.
  revert p. induction xs as [|x xs IH]; intros p Hp; cbn [fold_left existsb].
  - split; [exact Hp|]. split; [reflexivity|]. intros x' y' _. rewrite andb_false_r. reflexivity.
  - destruct (IH (image.SetRGBA p x y (f x y)) (SetRGBA_packed p x y _ Hp)) as (Hq & Hr & Hread).
    rewrite SetRGBA_rect in Hr, Hread.
    split; [exact Hq|]. split; [exact Hr|]. intros x' y' Hin.
    rewrite (Hread x' y' Hin), (SetRGBA_read p x y x' y' _ Hp Hin).
    destruct (Z.eqb_spec y y') as [->|]; cbn [andb]; [|rewrite andb_false_r; reflexivity].
    rewrite andb_true_r. destruct (existsb (Z.eqb x') xs); [rewrite orb_true_r; reflexivity|].
    rewrite orb_false_r, (Z.eqb_sym x' x).
    destruct (Z.eqb_spec x x') as [->|]; [|rewrite andb_false_r; reflexivity].
    rewrite Hin. reflexivity.
Qed.

Lemma paint_read (f : Z -> Z -> Z * Z * Z * Z) (xs ys : list Z) (p : image.RGBA) :
  packed p ->
  packed (paint f xs ys p) /\ image.RGBA_Rect (paint f xs ys p) = image.RGBA_Rect p /\
  forall x' y', image.In x' y' (image.RGBA_Rect p) = true ->
    image.RGBAAt (paint f xs ys p) x' y'
    = if existsb (Z.eqb y') ys && existsb (Z.eqb x') xs then scaled (f x' y')
      else image.RGBAAt p x' y'.
Proof.
  unfold paint. revert p. induction ys as [|y ys IH]; intros p Hp; cbn [fold_left existsb].
  - split; [exact Hp|]. split; [reflexivity|]. reflexivity.
  - destruct (paint_row f xs y p Hp) as (Hq & Hr & Hread).
    destruct (IH _ Hq) as (Hq' & Hr' & Hread').
    rewrite Hr in Hr', Hread'.
    split; [exact Hq'|]. split; [exact Hr'|]. intros x' y' Hin.
    rewrite (Hread' x' y' Hin), (Hread x' y' Hin), (Z.eqb_sym y' y).
    destruct (existsb (Z.eqb y') ys), (y =? y'), (existsb (Z.eqb x') xs); reflexivity.
Qed.

Lemma nth_replicate_zero (n k : nat) : nth k (replicate n 0) 0 = 0.
Proof. revert k. induction n as [|n IH]; intros [|k]; cbn; auto. Qed.

Lemma NewRGBA_packed (r : image.Rectangle) :
  0 <= image.Dx r -> 0 <= image.Dy r -> packed (image.NewRGBA r).
Proof.
  intros Hx Hy. unfold packed, image.NewRGBA. cbn. unfold image.Dx, image.Dy in *.
  rewrite length_replicate. repeat split; try assumption.
  apply Z2Nat.id. apply Z.mul_nonneg_nonneg; lia.
Qed.

Lemma NewRGBA_read (r : image.Rectangle) (x y : Z) :
  image.RGBAAt (image.NewRGBA r) x y = (0, 0, 0, 0).
Proof.
  unfold image.RGBAAt, image.pix_at, image.NewRGBA. cbn [image.Pix image.RGBA_Rect].
  rewrite !nth_replicate_zero. destruct (image.In x y r); reflexivity.
Qed.

Lemma existsb_count_up (v n : Z) :
  existsb (Z.eqb v) (count_up 0 n 1) = true <-> 0 <= v < n.
Proof.
  rewrite existsb_exists. split.
  - intros (u & Hin & Heq). apply Z.eqb_eq in Heq. subst u.
    apply count_up_spec in Hin; [|lia]. destruct Hin as (k & Hk & -> & Hlt). lia.
  - intros Hv. exists v. split; [|apply Z.eqb_refl].
    apply count_up_spec; [lia|]. exists v. lia.
Qed.

(** What a point of the [i]-th copy holds: the colour the loop wrote
    there, for an image whose rectangle starts at the origin. *)
Lemma frameCopy_read `{Backend} (img : image.Image) (i w h : Z) :
  image.Bounds img = {| image.Min := {| image.X := 0; image.Y := 0 |};
                        image.Max := {| image.X := w; image.Y := h |} |} ->
  0 <= w -> 0 <= h ->
  image.Bounds (image.of_RGBA (services.frameCopy img i)) = image.Bounds img /\
  forall x y, 0 <= x < w -> 0 <= y < h ->
    image.At (image.of_RGBA (services.frameCopy img i)) x y
    = scaled (services.noisy_pixel i (image.At img x y)).
Proof.
  intros Hb Hw Hh. unfold services.frameCopy.
  change (fold_left _ (count_up 0 (image.Dy (image.Bounds img)) 1)
                    (image.NewRGBA (image.Bounds img)))
    with (paint (fun x y => services.noisy_pixel i (image.At img x y))
                (count_up 0 (image.Dx (image.Bounds img)) 1)
                (count_up 0 (image.Dy (image.Bounds img)) 1)
                (image.NewRGBA (image.Bounds img))).
  assert (Hdx : image.Dx (image.Bounds img) = w) by (unfold image.Dx; rewrite Hb; cbn [image.X image.Max image.Min]; lia).
  assert (Hdy : image.Dy (image.Bounds img) = h)
    by (unfold image.Dy; rewrite Hb; cbn [image.Y image.Max image.Min]; lia).
  destruct (paint_read (fun x y => services.noisy_pixel i (image.At img x y))
              (count_up 0 (image.Dx (image.Bounds img)) 1)
              (count_up 0 (image.Dy (image.Bounds img)) 1)
              (image.NewRGBA (image.Bounds img))
              (NewRGBA_packed (image.Bounds img) ltac:(lia) ltac:(lia))) as (_ & Hr & Hread).
  cbn [image.of_RGBA image.Bounds image.At]. split; [exact Hr|].
  intros x y Hx Hy. rewrite Hread.
  - rewrite Hdx, Hdy.
    rewrite (proj2 (existsb_count_up y h) Hy), (proj2 (existsb_count_up x w) Hx).
    reflexivity.
  - cbn [image.NewRGBA image.RGBA_Rect]. apply In_bounds. rewrite Hb. cbn. lia.
Qed.

Lemma noisy_channel (i v : Z) :
  1 <= i <= 4 -> 0 <= v <= 247 ->
  uint8 (Z.shiftr (uint32 (v * 257 + uint32 (i * 2)) mod 65535) 8) = v.
Proof.
  intros Hi Hv. unfold uint8, uint32.
  rewrite (Z.mod_small (i * 2)) by lia.
  rewrite (Z.mod_small (v * 257 + i * 2)) by lia.
  rewrite (Z.mod_small (v * 257 + i * 2)) by lia.
  rewrite Z.shiftr_div_pow2 by lia. change (2 ^ 8) with 256.
  replace ((v * 257 + i * 2) / 256) with v
    by (apply (Z.div_unique_pos _ _ v (v + i * 2)); lia).
  apply Z.mod_small. lia.
Qed.

(** The variation the loop adds is below the precision of the copy: a
    colour whose channels are 8-bit values of at most 247 is copied as it
    is. *)
Lemma noisy_pixel_unchanged `{Backend} (i r g b a : Z) :
  1 <= i <= 4 -> 0 <= r <= 247 -> 0 <= g <= 247 -> 0 <= b <= 247 -> 0 <= a <= 255 ->
  services.noisy_pixel i (r * 257, g * 257, b * 257, a * 257) = (r, g, b, a).
Proof.
  intros Hi Hr Hg Hb Ha. unfold services.noisy_pixel.
  rewrite !noisy_channel by assumption.
  unfold uint8. rewrite Z.shiftr_div_pow2 by lia. change (2 ^ 8) with 256.
  replace (a * 257 / 256) with a by (apply (Z.div_unique_pos _ _ a a); lia).
  rewrite (Z.mod_small a) by lia. reflexivity.
Qed.

(** *** Motion between frames that show the same picture *)

Lemma of_Z_positive (n : Z) :
  0 < n ->
  F64.of_Z n = S754_infinity false \/ exists m e, F64.of_Z n = S754_finite false m e.
Proof.
  intros Hn. destruct n as [|p|p]; try lia. unfold F64.of_Z, binary_normalize.
  destruct (binary_round_positive false p 0 ltac:(vm_compute; discriminate))
    as [->|(m & e & -> & _)]; eauto.
Qed.

Lemma channel_table : forallb channel_ok (count_up 0 256 1) = true.
Proof. vm_compute. reflexivity. Qed.

(** A channel with an 8-bit value does not differ from itself. *)
Lemma channel_diff_self (v : Z) :
  0 <= v <= 255 -> services.channel_diff (v * 257) (v * 257) = F64.zero.
Proof.
  intros Hv.
  assert (Hin : List.In v (count_up 0 256 1)) by (apply count_up_spec; [lia | exists v; lia]).
  pose proof (proj1 (forallb_forall channel_ok (count_up 0 256 1)) channel_table v Hin) as Ht.
  unfold channel_ok in Ht.
  destruct (services.channel_diff (v * 257) (v * 257)) as [[]| | |]; try discriminate Ht.
  reflexivity.
Qed.

Lemma motion_row_zero (img1 img2 : image.Image) (xs : list Z) (y n : Z) :
  (forall x, List.In x xs -> same_colour img1 img2 x y) -> 0 <= n ->
  fold_left (fun '(totalDiff, pixelCount) x =>
               let '(r1, g1, b1, _) := image.At img1 x y in
               let '(r2, g2, b2, _) := image.At img2 x y in
               ((totalDiff + (services.channel_diff r1 r2 + services.channel_diff g1 g2
                              + services.channel_diff b1 b2))%f64, pixelCount + 1))
            xs (F64.zero, n)
  = (F64.zero, n + Z.of_nat (length xs)).
Proof.
  revert n. induction xs as [|x xs IH]; intros n Hsame Hn; cbn [fold_left length].
  - f_equal. lia.
  - destruct (Hsame x (or_introl eq_refl)) as (r & g & b & a1 & a2 & -> & -> & Hr & Hg & Hb).
    rewrite !channel_diff_self by assumption.
    change (F64.zero + (F64.zero + F64.zero + F64.zero))%f64 with F64.zero.
    rewrite IH; [f_equal; lia | | lia].
    intros x' Hx'. apply Hsame. right. exact Hx'.
Qed.

Lemma fold_left_cons {A B} (f : A -> B -> A) (x : B) (l : list B) (a : A) :
  fold_left f (x :: l) a = fold_left f l (f a x).
Proof. reflexivity. Qed.

Lemma motion_rows_zero (img1 img2 : image.Image) (xs ys : list Z) (n : Z) :
  (forall x y, List.In x xs -> List.In y ys -> same_colour img1 img2 x y) -> 0 <= n ->
  exists n', n <= n' /\
  fold_left (fun acc y =>
    fold_left (fun '(totalDiff, pixelCount) x =>
                 let '(r1, g1, b1, _) := image.At img1 x y in
                 let '(r2, g2, b2, _) := image.At img2 x y in
                 ((totalDiff + (services.channel_diff r1 r2 + services.channel_diff g1 g2
                                + services.channel_diff b1 b2))%f64, pixelCount + 1))
              xs acc)
    ys (F64.zero, n)
  = (F64.zero, n').
Proof.
  revert n. induction ys as [|y ys IH]; intros n Hsame Hn.
  - exists n. split; [lia | reflexivity].
  - rewrite fold_left_cons. cbv beta.
    rewrite (motion_row_zero img1 img2 xs y n) by (auto using in_eq).
    destruct (IH (n + Z.of_nat (length xs))) as (n' & Hle & ->); [|lia|].
    + intros x y' Hx Hy'. apply Hsame; [exact Hx | right; exact Hy'].
    + exists n'. split; [lia | reflexivity].
Qed.

Lemma zero_div_of_Z (n : Z) : 0 < n -> (F64.zero / F64.of_Z n)%f64 = F64.zero.
Proof.
  intros Hn. destruct (of_Z_positive n Hn) as [->|(m & e & ->)]; reflexivity.
Qed.

Lemma Eq_refl (r : image.Rectangle) : image.Eq r r = true.
Proof. unfold image.Eq, image.same. rewrite !Z.eqb_refl. reflexivity. Qed.

(** Between two frames of the same rectangle that show the same picture
    the detector sees no motion. *)
Lemma calculateFrameMotion_still `{Backend} (img1 img2 : image.Image) :
  image.Bounds img2 = image.Bounds img1 ->
  (forall x y, image.In x y (image.Bounds img1) = true -> same_colour img1 img2 x y) ->
  services.calculateFrameMotion img1 img2 = F64.zero.
Proof.
  intros Hb Hsame. unfold services.calculateFrameMotion.
  cbv zeta. rewrite Hb, Eq_refl. cbn [negb].
  destruct (motion_rows_zero img1 img2
              (count_up (image.X (image.Min (image.Bounds img1)))
                        (image.X (image.Max (image.Bounds img1))) 4)
              (count_up (image.Y (image.Min (image.Bounds img1)))
                        (image.Y (image.Max (image.Bounds img1))) 4) 0)
    as (n & Hn & ->); [|lia|].
  - intros x y Hx Hy. apply Hsame, In_bounds.
    apply count_up_spec in Hx, Hy; try lia.
    destruct Hx as (kx & ? & -> & ?), Hy as (ky & ? & -> & ?). lia.
  - destruct (Z.eqb_spec n 0); [reflexivity|].
    rewrite zero_div_of_Z by lia. reflexivity.
Qed.

Lemma shows_still `{Backend} (img f1 f2 : image.Image) (w h : Z) :
  image.Bounds img = {| image.Min := {| image.X := 0; image.Y := 0 |};
                        image.Max := {| image.X := w; image.Y := h |} |} ->
  (forall x y, 0 <= x < w -> 0 <= y < h ->
     exists r g b a, image.At img x y = (r * 257, g * 257, b * 257, a) /\
                     0 <= r <= 255 /\ 0 <= g <= 255 /\ 0 <= b <= 255) ->
  shows img w h f1 -> shows img w h f2 ->
  services.calculateFrameMotion f1 f2 = F64.zero.
Proof.
  intros Hb Hpix [Hb1 H1] [Hb2 H2]. apply calculateFrameMotion_still; [congruence|].
  intros x y Hin. apply In_bounds in Hin. rewrite Hb1, Hb in Hin. cbn in Hin.
  destruct (Hpix x y ltac:(lia) ltac:(lia)) as (r & g & b & a & Hc & Hr & Hg & Hbl).
  exists r, g, b, a, a. rewrite H1, H2 by lia. auto.
Qed.

(** X19: when the upload decodes to an image at the origin whose colours
    have 8-bit channels of at most 247 (an opaque picture without
    saturated channels), the variation the frame source adds is lost in
    the copy: all five frames show the same picture, and the motion score
    of the detector is exactly 0. *)
Theorem unsaturated_image_has_no_motion `{Backend}
        (videoData : list Byte.byte) (img : image.Image) (format : string) (w h : Z) :
  image_Decode videoData = Ok (img, format) ->
  image.Bounds img = {| image.Min := {| image.X := 0; image.Y := 0 |};
                        image.Max := {| image.X := w; image.Y := h |} |} ->
  0 <= w -> 0 <= h ->
  (forall x y, 0 <= x < w -> 0 <= y < h ->
     exists r g b a,
       image.At img x y = (r * 257, g * 257, b * 257, a * 257) /\
       0 <= r <= 247 /\ 0 <= g <= 247 /\ 0 <= b <= 247 /\ 0 <= a <= 255) ->
  exists frames,
    services.extractFramesFromVideo videoData = Ok frames /\
    length frames = 5%nat /\
    Forall (shows img w h) frames /\
    services.calculateMotionScore frames = F64.zero.
Proof.
  intros Hdec Hb Hw Hh Hpix.
  unfold services.extractFramesFromVideo. rewrite Hdec.
  change (count_up 1 5 1) with [1; 2; 3; 4]. cbn [fold_left app].
  eexists. split; [reflexivity|]. split; [reflexivity|].
  assert (Hcopy : forall i, 1 <= i <= 4 ->
                            shows img w h (image.of_RGBA (services.frameCopy img i))).
  { intros i Hi. destruct (frameCopy_read img i w h Hb Hw Hh) as [Hbi Hread].
    split; [exact Hbi|]. intros x y Hx Hy. rewrite Hread by assumption.
    destruct (Hpix x y Hx Hy) as (r & g & b & a & -> & Hr & Hg & Hbl & Ha).
    rewrite noisy_pixel_unchanged by assumption. reflexivity. }
  assert (Himg : shows img w h img) by (split; [reflexivity | auto]).
  assert (Hpix' : forall x y, 0 <= x < w -> 0 <= y < h ->
            exists r g b a, image.At img x y = (r * 257, g * 257, b * 257, a) /\
                            0 <= r <= 255 /\ 0 <= g <= 255 /\ 0 <= b <= 255).
  { intros x y Hx Hy. destruct (Hpix x y Hx Hy) as (r & g & b & a & Hc & Hr & Hg & Hbl & Ha).
    exists r, g, b, (a * 257). repeat split; try assumption; lia. }
  split.
  - repeat constructor; try exact Himg; apply Hcopy; lia.
  - unfold services.calculateMotionScore. cbn [services.motion_loop].
    rewrite !(shows_still img _ _ w h Hb Hpix') by (try exact Himg; apply Hcopy; lia).
    reflexivity.
Qed.

(** X20: whatever the upload, the five frames of the frame source have
    the rectangle of the first one, so that the motion detector never
    leaves by its exit for frames of different sizes. *)
Theorem frames_share_bounds `{Backend} (videoData : list Byte.byte) :
  exists frame0 rest,
    services.extractFramesFromVideo videoData = Ok (frame0 :: rest) /\
    Forall (fun f => image.Bounds f = image.Bounds frame0 /\
                     image.Eq (image.Bounds frame0) (image.Bounds f) = true) rest.
Proof.
  unfold services.extractFramesFromVideo.
  change (count_up 1 5 1) with [1; 2; 3; 4]. cbn [fold_left app].
  eexists. eexists. split; [reflexivity|].
  assert (Hcopy : forall img i,
            image.Bounds (image.of_RGBA (services.frameCopy img i)) = image.Bounds img).
  { intros img i. unfold services.frameCopy. cbn [image.of_RGBA image.Bounds].
    rewrite (fold_left_preserves _ image.RGBA_Rect); [reflexivity|].
    intros a y. apply (fold_left_preserves _ image.RGBA_Rect). intros a' x.
    apply SetRGBA_rect. }
  repeat constructor; rewrite ?Hcopy; auto using Eq_refl.
Qed.

(** X21: uploads that do not decode as an image are all alike to the
    service: the frames, hence the whole answer of [VerifyVideo] and the
    effect of [RegisterFace], do not depend on the bytes of such an
    upload, nor on the session. *)
Theorem undecodable_uploads_alike `{Backend} `{Crypto}
        (rt : Runtime) (s : services.FaceVerificationService)
        (req1 req2 : VerificationRequest) (e1 e2 : error) :
  image_Decode (VideoData req1) = Err e1 ->
  image_Decode (VideoData req2) = Err e2 ->
  UserID req1 = UserID req2 ->
  services.extractFramesFromVideo (VideoData req1)
  = services.extractFramesFromVideo (VideoData req2) /\
  services.VerifyVideo rt s req1 = services.VerifyVideo rt s req2 /\
  services.RegisterFace rt s (UserID req1) (VideoData req1)
  = services.RegisterFace rt s (UserID req2) (VideoData req2).
Proof.
  intros H1 H2 Hid.
  assert (Hframes : services.extractFramesFromVideo (VideoData req1)
                    = services.extractFramesFromVideo (VideoData req2)).
  { unfold services.extractFramesFromVideo. rewrite H1, H2. reflexivity. }
  split; [exact Hframes|]. split.
  - unfold services.VerifyVideo. rewrite Hframes, Hid. reflexivity.
  - unfold services.RegisterFace, services.VerifyVideo. cbn [VideoData UserID].
    rewrite Hframes, Hid. reflexivity.
Qed.

End Frames.

Section FrameChecks.
#[local] Existing Instance Sample.backend.

Lemma unsaturated_image_has_no_motion_witness :
  let pixels := replicate 16 Byte.x64 in
  let videoData := Byte.x47 :: pixels in
  let img := Sample.grey_row pixels in
  image_Decode videoData = Ok (img, "greymap"%string) /\
  image.Bounds img = {| image.Min := {| image.X := 0; image.Y := 0 |};
                        image.Max := {| image.X := 16; image.Y := 1 |} |} /\
  0 <= 16 /\ 0 <= 1 /\
  (forall x y, 0 <= x < 16 -> 0 <= y < 1 ->
     exists r g b a,
       image.At img x y = (r * 257, g * 257, b * 257, a * 257) /\
       0 <= r <= 247 /\ 0 <= g <= 247 /\ 0 <= b <= 247 /\ 0 <= a <= 255) /\
  exists frames,
    services.extractFramesFromVideo videoData = Ok frames /\
    length frames = 5%nat /\
    Forall (shows img 16 1) frames /\
    services.calculateMotionScore frames = F64.zero.
Proof.
  intros pixels videoData img.
  assert (Hdec : image_Decode videoData = Ok (img, "greymap"%string)) by reflexivity.
  assert (Hb : image.Bounds img = {| image.Min := {| image.X := 0; image.Y := 0 |};
                                     image.Max := {| image.X := 16; image.Y := 1 |} |})
    by reflexivity.
  assert (Hw : 0 <= 16) by lia.
  assert (Hh : 0 <= 1) by lia.
  assert (Hpix : forall x y, 0 <= x < 16 -> 0 <= y < 1 ->
            exists r g b a,
              image.At img x y = (r * 257, g * 257, b * 257, a * 257) /\
              0 <= r <= 247 /\ 0 <= g <= 247 /\ 0 <= b <= 247 /\ 0 <= a <= 255).
  { intros x y Hx Hy. exists 100, 100, 100, 255.
    assert (Hy0 : y = 0) by lia. subst y.
    assert (Hcases : x = 0 \/ x = 1 \/ x = 2 \/ x = 3 \/ x = 4 \/ x = 5 \/ x = 6 \/ x = 7 \/
                     x = 8 \/ x = 9 \/ x = 10 \/ x = 11 \/ x = 12 \/ x = 13 \/ x = 14 \/
                     x = 15) by lia.
    repeat (destruct Hcases as [->|Hcases]; [split; [reflexivity | lia]|]).
    subst x. split; [reflexivity | lia]. }
  exact (conj Hdec (conj Hb (conj Hw (conj Hh (conj Hpix
           (unsaturated_image_has_no_motion videoData img "greymap" 16 1
                                            Hdec Hb Hw Hh Hpix)))))).
Defined.

Lemma undecodable_uploads_alike_witness :
  let req1 := {| VideoData := [Byte.x00; Byte.x01]; UserID := "alice";
                 SessionID := "session-a" |} in
  let req2 := {| VideoData := replicate 2048 Byte.xff; UserID := "alice";
                 SessionID := "session-b" |} in
  image_Decode (VideoData req1) = Err "image: unknown format"%string /\
  image_Decode (VideoData req2) = Err "image: unknown format"%string /\
  UserID req1 = UserID req2 /\
  services.extractFramesFromVideo (VideoData req1)
  = services.extractFramesFromVideo (VideoData req2) /\
  services.VerifyVideo Sample.rt Sample.alice_service req1
  = services.VerifyVideo Sample.rt Sample.alice_service req2 /\
  services.RegisterFace Sample.rt Sample.alice_service (UserID req1) (VideoData req1)
  = services.RegisterFace Sample.rt Sample.alice_service (UserID req2) (VideoData req2).
Proof.
  intros req1 req2.
  assert (H1 : image_Decode (VideoData req1) = Err "image: unknown format"%string)
    by reflexivity.
  assert (H2 : image_Decode (VideoData req2) = Err "image: unknown format"%string)
    by reflexivity.
  assert (Hid : UserID req1 = UserID req2) by reflexivity.
  exact (conj H1 (conj H2 (conj Hid
           (undecodable_uploads_alike Sample.rt Sample.alice_service req1 req2 _ _
                                      H1 H2 Hid)))).
Defined.

End FrameChecks.

(** ** The endpoints over the service *)

Section EndToEnd.
Context `{Backend} `{Crypto}.



(** X25: the registration endpoint over the face service: an answer 200
    means that the posted, well-formed identity got one more enrollment at
    the end of those it had, that the store file now decrypts to the JSON
    of the whole store, and that the identity had been enrolled before or
    the similarity threshold is not positive. *)
Theorem register_endpoint_end_to_end
        (rt : Runtime) (s : services.FaceVerificationService)
        (clock : Z) (timeout : bool) (form : result handlers.Form) :
  handlers.RegisterStatus
    (fst (handlers.RegisterFace (fun userID videoData =>
                                   snd (services.RegisterFace rt s userID videoData))
                                clock timeout form)) = handlers.StatusOK ->
  exists f file rest src,
    form = Ok f /\
    handlers.File f !! "video"%string = Some (file :: rest) /\
    handlers.Content file = Ok src /\
    let userID := handlers.PostForm f "user_id" in
    let out := services.RegisterFace rt s userID (take (Z.to_nat (handlers.Size file)) src) in
    handlers.isValidUserID userID = true /\
    snd out = None /\
    (exists faceVector,
        services.faceVectors (fst out) !! userID
        = Some (default [] (services.faceVectors s !! userID)
                ++ [{| FaceUserID := userID; Vector := faceVector;
                       CreatedAt := now rt; Version := "1.0" |}])) /\
    (exists enc data,
        services.storage (fst out) = Some enc /\
        json_Marshal (services.faceVectors (fst out)) = Ok data /\
        services.decryptData (services.config s) enc = Ok data) /\
    (default [] (services.faceVectors s !! userID) <> [] \/
     F64.ltb F64.zero (SimilarityThreshold (services.config s)) = false).
Proof.
  unfold handlers.RegisterFace.
  destruct form as [f|e]; [|discriminate].
  destruct (handlers.File f !! "video"%string) as [[|file rest]|] eqn:Hfile;
    cbn [default from_option id]; try discriminate.
  destruct (String.eqb_spec (handlers.PostForm f "user_id") "") as [|Hne]; [discriminate|].
  destruct (handlers.isValidUserID (handlers.PostForm f "user_id")) eqn:Hid;
    cbn [negb]; [|discriminate].
  destruct (handlers.validateVideoFile file); [discriminate|].
  destruct (handlers.readVideoFile file) as [data|e] eqn:Hread; [|discriminate].
  apply readVideoFile_Ok in Hread as (src & Hsrc & _ & -> & _).
  destruct timeout; [discriminate|].
  set (userID := handlers.PostForm f "user_id") in *.
  set (data := take (Z.to_nat (handlers.Size file)) src).
  destruct (snd (services.RegisterFace rt s userID data)) as [e|] eqn:Hnil; [discriminate|].
  intros _. exists f, file, rest, src. split; [reflexivity|]. split; [exact Hfile|].
  split; [exact Hsrc|]. cbv zeta. fold userID. fold data.
  split; [exact Hid|]. split; [exact Hnil|].
  destruct (RegisterFace_cases rt s userID data) as [[_ Herr]|(v & Hsave)];
    [congruence|].
  pose proof (saveFaceVectors_frame rt
                {| services.config := services.config s;
                   services.faceVectors :=
                     <[userID := default [] (services.faceVectors s !! userID)
                                 ++ [{| FaceUserID := userID; Vector := v;
                                        CreatedAt := now rt; Version := "1.0" |}]]>
                       (services.faceVectors s);
                   services.storage := services.storage s |}) as [Hcfg Hvec].
  pose proof (saveFaceVectors_storage rt
                {| services.config := services.config s;
                   services.faceVectors :=
                     <[userID := default [] (services.faceVectors s !! userID)
                                 ++ [{| FaceUserID := userID; Vector := v;
                                        CreatedAt := now rt; Version := "1.0" |}]]>
                       (services.faceVectors s);
                   services.storage := services.storage s |}) as Hst.
  rewrite <- Hsave in Hcfg, Hvec, Hst. rewrite Hnil in Hst.
  cbn [services.config services.faceVectors] in Hcfg, Hvec, Hst.
  destruct Hst as (enc & plain & Hout & Hm & Hd).
  split; [|split].
  - exists v. rewrite Hvec. apply lookup_insert_eq.
  - exists enc, plain. rewrite Hout. cbn [services.storage services.faceVectors].
    auto.
  - destruct (default [] (services.faceVectors s !! userID)) as [|fv l] eqn:Hold;
      [|left; discriminate].
    destruct (F64.ltb F64.zero (SimilarityThreshold (services.config s))) eqn:Hpos;
      [|right; reflexivity].
    exfalso. unfold services.RegisterFace in Hnil.
    destruct (services.VerifyVideo rt s _) as [r [e|]] eqn:Hrun; [discriminate Hnil|].
    assert (Hne' : String.eqb userID "" = false) by (apply String.eqb_neq; exact Hne).
    rewrite (VerifyVideo_unverified rt s _ r Hrun Hne' Hold Hpos) in Hnil.
    discriminate Hnil.
Qed.

(** X26: the failures of [VerifyVideo] are the two deadlines and the
    recogniser: a non-nil error is [frame extraction timeout],
    [processing timeout], or the error of [generateFaceVector] on the first
    frame, reported under [Face vector generation failed]; frame
    extraction, the liveness detector and the matcher never make it
    fail. *)
Theorem VerifyVideo_failures (rt : Runtime) (s : services.FaceVerificationService)
        (req : VerificationRequest) (e : error) :
  snd (services.VerifyVideo rt s req) = Some e ->
  (e = "frame extraction timeout"%string /\
   Error (fst (services.VerifyVideo rt s req)) = "Frame extraction timeout"%string) \/
  (e = "processing timeout"%string /\
   Error (fst (services.VerifyVideo rt s req)) = "Processing timeout"%string) \/
  (exists frame0 rest,
      services.extractFramesFromVideo (VideoData req) = Ok (frame0 :: rest) /\
      services.generateFaceVector frame0 = Err e /\
      Error (fst (services.VerifyVideo rt s req))
      = ("Face vector generation failed: " +:+ e)%string).
Proof.
  unfold services.VerifyVideo.
  destruct (frame_timeout rt); [intros [= <-]; left; split; reflexivity|].
  destruct (extractFramesFromVideo_frames (VideoData req)) as (rest & -> & _).
  set (frame0 := match image_Decode (VideoData req) with
                 | Ok (img, _) => img
                 | Err _ => _
                 end).
  destruct (merge_timeout rt); [intros [= <-]; right; left; split; reflexivity|].
  destruct (detectLiveness_ok (services.config s) (frame0 :: rest)) as (l & ->).
  destruct (services.generateFaceVector frame0) as [v|e'] eqn:Hv.
  - destruct (IsLive l); cbn [negb]; [|discriminate].
    destruct (String.eqb (UserID req) ""); cbn [negb]; [discriminate|].
    destruct (services.checkForDuplicates s (UserID req) v); discriminate.
  - intros [= <-]. right. right. exists frame0, rest. repeat split. exact Hv.
Qed.

End EndToEnd.

Section EndToEndChecks.
#[local] Existing Instance Codec.backend.

Lemma register_endpoint_end_to_end_witness :
  let form := Ok (SampleGateway.striped_form "al") in
  handlers.RegisterStatus
    (fst (handlers.RegisterFace (fun userID videoData =>
                                   snd (services.RegisterFace Codec.rt Codec.service
                                                              userID videoData))
                                170 false form)) = handlers.StatusOK /\
  exists f file rest src,
    form = Ok f /\
    handlers.File f !! "video"%string = Some (file :: rest) /\
    handlers.Content file = Ok src /\
    let userID := handlers.PostForm f "user_id" in
    let out := services.RegisterFace Codec.rt Codec.service userID
                 (take (Z.to_nat (handlers.Size file)) src) in
    handlers.isValidUserID userID = true /\
    snd out = None /\
    (exists faceVector,
        services.faceVectors (fst out) !! userID
        = Some (default [] (services.faceVectors Codec.service !! userID)
                ++ [{| FaceUserID := userID; Vector := faceVector;
                       CreatedAt := now Codec.rt; Version := "1.0" |}])) /\
    (exists enc data,
        services.storage (fst out) = Some enc /\
        json_Marshal (services.faceVectors (fst out)) = Ok data /\
        services.decryptData (services.config Codec.service) enc = Ok data) /\
    (default [] (services.faceVectors Codec.service !! userID) <> [] \/
     F64.ltb F64.zero (SimilarityThreshold (services.config Codec.service)) = false).
Proof.
  intros form.
  assert (Hok : handlers.RegisterStatus
                  (fst (handlers.RegisterFace
                          (fun userID videoData =>
                             snd (services.RegisterFace Codec.rt Codec.service
                                                        userID videoData))
                          170 false form)) = handlers.StatusOK)
    by (vm_cast_no_check (@eq_refl Z handlers.StatusOK)).
  exact (conj Hok (register_endpoint_end_to_end Codec.rt Codec.service 170 false form Hok)).
Defined.

End EndToEndChecks.

Section FailureChecks.
#[local] Existing Instance Sample.backend.

Lemma VerifyVideo_failures_witness :
  let req := {| VideoData := [Byte.x47]; UserID := "alice"; SessionID := "session-1" |} in
  let out := services.VerifyVideo Sample.rt Sample.empty_service req in
  snd out = Some "no faces detected"%string /\
  ((("no faces detected" = "frame extraction timeout")%string /\
    Error (fst out) = "Frame extraction timeout"%string) \/
   (("no faces detected" = "processing timeout")%string /\
    Error (fst out) = "Processing timeout"%string) \/
   (exists frame0 rest,
       services.extractFramesFromVideo (VideoData req) = Ok (frame0 :: rest) /\
       services.generateFaceVector frame0 = Err "no faces detected"%string /\
       Error (fst out) = ("Face vector generation failed: " +:+ "no faces detected")%string)).
Proof.
  intros req out.
  assert (Herr : snd out = Some "no faces detected"%string) by (vm_compute; reflexivity).
  exact (conj Herr (VerifyVideo_failures Sample.rt Sample.empty_service req
                                         "no faces detected" Herr)).
Defined.

End FailureChecks.
